(** * BankApp: the deposit / withdraw orchestration of [src/components/BankApp.tsx]

    The component is embedded as it is written: its React state and hook
    outputs form a record, every handler and effect body is a program in a
    small monad of calls, exceptions and [await] points, and a render's
    closure is the record value the program is built from.  A program is
    run against the answers of the remote side ([exec]); the component as a
    whole is a transition system over user and ledger inputs ([step]). *)

From Stdlib Require Import ZArith List String Ascii Bool Lia.
Import ListNotations.

Local Open Scope string_scope.
Local Open Scope list_scope.
Local Open Scope Z_scope.

(** ** JavaScript values used by the component *)

Definition truthy_string (s : string) : bool := negb (String.eqb s EmptyString).

(** Truthiness of a [bigint | undefined]: [undefined] and [0n] are falsy. *)
Definition truthy_bigint (v : option Z) : bool :=
  match v with
  | Some n => negb (n =? 0)
  | None => false
  end.

Definition truthy_hash (h : option string) : bool :=
  match h with
  | Some s => truthy_string s
  | None => false
  end.

Module Digits.

Definition is_digit (c : ascii) : bool :=
  let n := nat_of_ascii c in ((48 <=? n) && (n <=? 57))%nat.

Definition digit_value (c : ascii) : Z := Z.of_nat (nat_of_ascii c) - 48.

Definition hex_value (c : ascii) : option Z :=
  let n := nat_of_ascii c in
  if ((48 <=? n) && (n <=? 57))%nat then Some (Z.of_nat n - 48)
  else if ((97 <=? n) && (n <=? 102))%nat then Some (Z.of_nat n - 87)
  else if ((65 <=? n) && (n <=? 70))%nat then Some (Z.of_nat n - 55)
  else None.

Fixpoint all_digits (s : string) : bool :=
  match s with
  | EmptyString => true
  | String c rest => is_digit c && all_digits rest
  end.

(** Value of a string of decimal digits, most significant first; the
    empty string is 0, as [BigInt] has it. *)
Fixpoint decimal_from (acc : Z) (s : string) : Z :=
  match s with
  | EmptyString => acc
  | String c rest => decimal_from (10 * acc + digit_value c) rest
  end.

Definition decimal (s : string) : Z := decimal_from 0 s.

Fixpoint hex_from (acc : Z) (s : string) : option Z :=
  match s with
  | EmptyString => Some acc
  | String c rest =>
      match hex_value c with
      | Some d => hex_from (16 * acc + d) rest
      | None => None
      end
  end.

(** [value.split('.')] on a string with at most one dot: the part before
    the dot and, when there is a dot, the part after it. *)
Fixpoint split_dot (s : string) : string * option string :=
  match s with
  | EmptyString => (EmptyString, None)
  | String c rest =>
      if Ascii.eqb c "."%char then (EmptyString, Some rest)
      else let (i, f) := split_dot rest in (String c i, f)
  end.

(** [s.replace(/(0+)$/, '')]. *)
Fixpoint trim_trailing_zeros (s : string) : string :=
  match s with
  | EmptyString => EmptyString
  | String c rest =>
      match trim_trailing_zeros rest with
      | EmptyString => if Ascii.eqb c "0"%char then EmptyString else String c EmptyString
      | rest' => String c rest'
      end
  end.

Definition starts_with_minus (s : string) : bool :=
  match s with
  | String c _ => Ascii.eqb c "-"%char
  | EmptyString => false
  end.

Definition drop_first (s : string) : string :=
  match s with
  | String _ rest => rest
  | EmptyString => EmptyString
  end.

(** First digit at least 5: the discarded tail rounds the kept part up. *)
Definition rounds_up (s : string) : bool :=
  match s with
  | String c _ => 5 <=? digit_value c
  | EmptyString => false
  end.

End Digits.

(** [BigInt(literal)] for the literals of the source: a [0x] prefixed
    hexadecimal string or a string of decimal digits; [None] is the
    SyntaxError. *)
Definition BigInt (s : string) : option Z :=
  match s with
  | String "0" (String "x" (String c rest)) => Digits.hex_from 0 (String c rest)
  | _ => if Digits.all_digits s then Some (Digits.decimal s) else None
  end.

(** viem's [parseUnits(value, decimals)], a library function the component
    imports.  [None] is the exception it throws: the value has to be an
    optional minus sign, digits, and optionally a dot and digits (the
    library's regular expression, or the [BigInt] conversion in versions
    without it).  The result is the signed integer
    [BigInt(sign + integer + fraction)] after the fraction has been cut or
    padded to [decimals] digits; a fraction longer than [decimals] is
    rounded half up on its first dropped digit (the library rounds through
    a double there, which agrees except within one ulp below a half). *)
Definition parseUnits (value : string) (decimals : nat) : option Z :=
  let negative := Digits.starts_with_minus value in
  let unsigned := if negative then Digits.drop_first value else value in
  let (integer, after_dot) := Digits.split_dot unsigned in
  let well_formed :=
    Digits.all_digits integer &&
    match after_dot with
    | Some f => Digits.all_digits f
    | None => true
    end in
  if negb well_formed then None
  else
    let fraction :=
      Digits.trim_trailing_zeros
        match after_dot with Some f => f | None => "0" end in
    let scale := 10 ^ Z.of_nat decimals in
    let magnitude :=
      if (decimals <? String.length fraction)%nat then
        Digits.decimal integer * scale
        + Digits.decimal (substring 0 decimals fraction)
        + (if Digits.rounds_up
                (substring decimals (String.length fraction - decimals) fraction)
           then 1 else 0)
      else
        Digits.decimal integer * scale
        + Digits.decimal fraction
          * 10 ^ Z.of_nat (decimals - String.length fraction)
    in
    Some (if negative then - magnitude else magnitude).

(** ** Component state *)

(** The two contract addresses of [config/contracts], kept symbolic. *)
Inductive Contract : Type :=
| BANK_CONTRACT_ADDRESS
| ERC20_ADDRESS.

(** What one [useWriteContract] hook reports: [data] is the transaction
    hash and [isSuccess] holds once the wallet has accepted the call. *)
Inductive Mutation : Type :=
| idle
| pending
| success (hash : string)
| error.

Definition data (m : Mutation) : option string :=
  match m with
  | success h => Some h
  | _ => None
  end.

Definition isSuccess (m : Mutation) : bool :=
  match m with
  | success _ => true
  | _ => false
  end.

(** The [useState] cells and the hook outputs a render closes over. *)
Record State : Type := mkState {
  amount : string;
  balance : string;
  isApproved : bool;
  isLoading : bool;
  progress : Z;
  address : option string;
  isConnected : bool;
  publicClient : bool;            (* usePublicClient() is defined *)
  bankBalance : option Z;         (* useReadContract balances: data *)
  allowance : option Z;           (* useReadContract allowance: data *)
  depositM : Mutation;
  withdrawM : Mutation;
  approveM : Mutation
}.

Definition depositHash (r : State) := data (depositM r).
Definition depositSuccess (r : State) := isSuccess (depositM r).
Definition withdrawHash (r : State) := data (withdrawM r).
Definition withdrawSuccess (r : State) := isSuccess (withdrawM r).
Definition approveHash (r : State) := data (approveM r).
Definition approveSuccess (r : State) := isSuccess (approveM r).

(** State on mount: the [useState] initial values, no account, no data. *)
Definition initial (client : bool) : State :=
  {| amount := EmptyString; balance := EmptyString; isApproved := false; isLoading := false;
     progress := 0; address := None; isConnected := false;
     publicClient := client; bankBalance := None; allowance := None;
     depositM := idle; withdrawM := idle; approveM := idle |}.

(** ** Calls, promises and programs *)

Inductive Action : Type :=
| setAmount (v : string)
| setBalance (v : string)
| setIsApproved (b : bool)
| setIsLoading (b : bool)
| setProgress (n : Z)
| refetchBalance
| refetchAllowance
| approve (address spender : Contract) (value : Z)
| deposit (address : Contract) (value : Z)
| withdraw (address : Contract) (value : Z)
| waitForTransactionReceipt (hash : string)
| setTimeout (ms : Z)
| console_error (msg : string).

Inductive Promise : Type :=
| balance_read
| receipt (hash : string)
| timer (ms : Z).

Inductive Settled : Type :=
| Fulfilled
| Rejected.

(** A handler body: synchronous calls, [await] points whose continuation
    receives how the promise settled, and exceptions. *)
Inductive Prog (R : Type) : Type :=
| Ret (r : R)
| Throw (e : string)
| Act (a : Action) (k : Prog R)
| Await (p : Promise) (k : Settled -> Prog R).

Arguments Ret {R} r.
Arguments Throw {R} e.
Arguments Act {R} a k.
Arguments Await {R} p k.

Fixpoint bind {A B : Type} (p : Prog A) (f : A -> Prog B) : Prog B :=
  match p with
  | Ret a => f a
  | Throw e => Throw e
  | Act a k => Act a (bind k f)
  | Await pr k => Await pr (fun o => bind (k o) f)
  end.

(** [try { p } catch (error) { h error }]. *)
Fixpoint try_catch {A : Type} (p : Prog A) (h : string -> Prog A) : Prog A :=
  match p with
  | Ret a => Ret a
  | Throw e => h e
  | Act a k => Act a (try_catch k h)
  | Await pr k => Await pr (fun o => try_catch (k o) h)
  end.

(** [try { p } finally { q }]. *)
Fixpoint try_finally {A : Type} (p : Prog A) (q : Prog unit) : Prog A :=
  match p with
  | Ret a => bind q (fun _ => Ret a)
  | Throw e => bind q (fun _ => Throw e)
  | Act a k => Act a (try_finally k q)
  | Await pr k => Await pr (fun o => try_finally (k o) q)
  end.

Definition call (a : Action) : Prog unit := Act a (Ret tt).

(** [await p]: a rejection is rethrown at the await. *)
Definition await (p : Promise) : Prog unit :=
  Await p (fun o => match o with
                    | Fulfilled => Ret tt
                    | Rejected => Throw "rejected"
                    end).

(** [await new Promise(resolve => setTimeout(resolve, ms))]: the promise
    has no way to reject, the continuation runs however it settles. *)
Definition sleep (ms : Z) : Prog unit :=
  Act (setTimeout ms) (Await (timer ms) (fun _ => Ret tt)).

(** A partial library call: [None] is its exception. *)
Definition throwing {A : Type} (what : string) (v : option A) : Prog A :=
  match v with
  | Some a => Ret a
  | None => Throw what
  end.

Declare Scope prog_scope.
Delimit Scope prog_scope with prog.
Bind Scope prog_scope with Prog.
Notation "x <- p ;; q" := (bind p (fun x => q))
  (at level 61, p at next level, right associativity) : prog_scope.
Notation "p ;; q" := (bind p (fun _ => q))
  (at level 61, right associativity) : prog_scope.
Local Open Scope prog_scope.


(** ** The balance as it is displayed *)

(** [Number(formatUnits(bankBalance, 18)).toFixed(6)] of lines 55-56 and
    76-77, computed exactly: viem's [formatUnits] writes the integer as a
    decimal fraction, [Number] takes the nearest double (ties to even), and
    [toFixed] rounds the double's exact value half up to six digits, or
    prints it as [String] does from 1e21 on. *)
Module Display.

Fixpoint digits_from (fuel : nat) (n : Z) (acc : string) : string :=
  match fuel with
  | O => acc
  | S fuel' =>
      let acc' := String (ascii_of_nat (48 + Z.to_nat (n mod 10))) acc in
      if n <? 10 then acc' else digits_from fuel' (n / 10) acc'
  end.

(** [n.toString()] for a non-negative integer. *)
Definition digits (n : Z) : string :=
  digits_from (S (Z.to_nat (Z.log2 n))) n EmptyString.

Fixpoint zeros (n : nat) : string :=
  match n with
  | O => EmptyString
  | S n' => String "0" (zeros n')
  end.

(** A double that is not NaN: plus or minus [m * 2^e] with [m] zero or
    of 53 bits, or an infinity. *)
Inductive Double : Type :=
| finite (negative : bool) (m e : Z)
| infinity (negative : bool).

(** The double nearest to [num / den], for positive integers with a
    quotient in the normal range: mantissa and exponent. *)
Definition nearest (num den : Z) : Z * Z :=
  let scaled := fun e => if 0 <=? e then (num, den * 2 ^ e)
                         else (num * 2 ^ (- e), den) in
  let e0 := Z.log2 num - Z.log2 den - 52 in
  let e := if (fst (scaled e0) / snd (scaled e0)) <? 2 ^ 52 then e0 - 1
           else e0 in
  let a := fst (scaled e) in
  let b := snd (scaled e) in
  let m := a / b in
  let r := a mod b in
  let up := (b <? 2 * r) || ((2 * r =? b) && Z.odd m) in
  let m' := if up then m + 1 else m in
  if m' =? 2 ^ 53 then (2 ^ 52, e + 1) else (m', e).

Definition to_double (negative : bool) (num den : Z) : Double :=
  if num =? 0 then finite negative 0 0
  else
    let (m, e) := nearest num den in
    if 971 <? e then infinity negative else finite negative m e.

End Display.

(** viem's [formatUnits(value, decimals)]. *)
Definition formatUnits (value : Z) (decimals : nat) : string :=
  let negative := value <? 0 in
  let display := Display.digits (Z.abs value) in
  let display :=
    (Display.zeros (decimals - String.length display) ++ display)%string in
  let cut := (String.length display - decimals)%nat in
  let integer := substring 0 cut display in
  let fraction :=
    Digits.trim_trailing_zeros (substring cut decimals display) in
  ((if negative then "-" else "")
   ++ (if String.eqb integer EmptyString then "0" else integer)
   ++ (if String.eqb fraction EmptyString then EmptyString
       else "." ++ fraction))%string.

(** [Number(s)] for a string of the form [formatUnits] writes: an optional
    minus sign, digits, and optionally a dot and digits. *)
Definition Number (s : string) : Display.Double :=
  let negative := Digits.starts_with_minus s in
  let unsigned := if negative then Digits.drop_first s else s in
  let (integer, after_dot) := Digits.split_dot unsigned in
  let fraction := match after_dot with Some f => f | None => EmptyString end in
  Display.to_double negative
    (Digits.decimal (integer ++ fraction)%string)
    (10 ^ Z.of_nat (String.length fraction)).

Module Shortest.

(** The decimal digits [String(x)] prints for an integer double [x] of
    mantissa [m] and exponent [e]: the fewest digits [s], with the power of
    ten [n], for which [s * 10^(n - k)] is a number whose nearest double
    is [x]; among these the closest to [x]. *)
Definition candidate (m e x scale s : Z) : option (Z * Z) :=
  if (if s =? 0 then false
      else let (m', e') := Display.nearest (s * scale) 1 in
           (m' =? m) && (e' =? e))
  then Some (s, Z.abs (s * scale - x))
  else None.

Fixpoint search (fuel : nat) (k : Z) (m e x nd : Z) : Z * Z :=
  match fuel with
  | O => (x, nd)
  | S fuel' =>
      let scale := 10 ^ (nd - k) in
      let lo := x / scale in
      let pick := fun s => if s =? 10 ^ k then (10 ^ (k - 1), nd + 1)
                           else (s, nd) in
      match candidate m e x scale lo, candidate m e x scale (lo + 1) with
      | Some (s1, d1), Some (s2, d2) =>
          if d1 <? d2 then pick s1
          else if d2 <? d1 then pick s2
          else if Z.even s1 then pick s1 else pick s2
      | Some (s1, _), None => pick s1
      | None, Some (s2, _) => pick s2
      | None, None => search fuel' (k + 1) m e x nd
      end
  end.

Definition shortest (m e : Z) : Z * Z :=
  let x := m * 2 ^ e in
  search 17 1 m e x (Z.of_nat (String.length (Display.digits x))).

End Shortest.

(** [String(x)] for a double of at least 1e21. *)
Definition exponential (m e : Z) : string :=
  let (s, n) := Shortest.shortest m e in
  match Display.digits s with
  | String d rest =>
      (String d (if String.eqb rest EmptyString then EmptyString
                 else "." ++ rest)
       ++ "e+" ++ Display.digits (n - 1))%string
  | EmptyString => EmptyString
  end.

(** [x.toFixed(fractionDigits)]. *)
Definition toFixed (x : Display.Double) (fractionDigits : nat) : string :=
  match x with
  | Display.infinity negative =>
      ((if negative then "-" else "") ++ "Infinity")%string
  | Display.finite negative m e =>
      let sign := if negative && negb (m =? 0) then "-" else EmptyString in
      if (0 <=? e) && (10 ^ 21 <=? m * 2 ^ e)
      then (sign ++ exponential m e)%string
      else
        let f := Z.of_nat fractionDigits in
        let n := if 0 <=? e then m * 2 ^ e * 10 ^ f
                 else (2 * m * 10 ^ f + 2 ^ (- e)) / 2 ^ (1 - e) in
        let shown := Display.digits n in
        let shown :=
          (Display.zeros (S fractionDigits - String.length shown) ++ shown)%string in
        let cut := (String.length shown - fractionDigits)%nat in
        (sign ++ substring 0 cut shown
         ++ (if (fractionDigits =? 0)%nat then EmptyString
             else "." ++ substring cut fractionDigits shown))%string
  end.

(** The text of a balance, lines 55-56. *)
Definition formatBalance (bankBalance : Z) : string :=
  toFixed (Number (formatUnits bankBalance 18)) 6.
(** ** Running a program *)

(** What an execution shows from outside: the calls made, in order, and
    how each awaited promise settled. *)
Inductive Event : Type :=
| Did (a : Action)
| Settle (p : Promise) (o : Settled).

Inductive Outcome : Type :=
| Returned
| Thrown (e : string)
| Suspended (p : Promise) (k : Settled -> Prog unit).

(** Runs [p] up to its end or to the first [await] the remote side has not
    answered yet; [replies] are the settlements of the awaited promises in
    the order they are awaited. *)
Fixpoint exec (replies : list Settled) (p : Prog unit) : list Event * Outcome :=
  match p with
  | Ret _ => ([], Returned)
  | Throw e => ([], Thrown e)
  | Act a k => let (tr, out) := exec replies k in (Did a :: tr, out)
  | Await pr k =>
      match replies with
      | [] => ([], Suspended pr k)
      | o :: rest =>
          let (tr, out) := exec rest (k o) in (Settle pr o :: tr, out)
      end
  end.

Definition trace (replies : list Settled) (p : Prog unit) : list Event :=
  fst (exec replies p).

Definition outcome (replies : list Settled) (p : Prog unit) : Outcome :=
  snd (exec replies p).

(** The effect of one call on the component: a state setter overwrites
    its cell, [writeContract] puts its hook back to pending (no data, not
    successful), every other call leaves the component as it is. *)
Definition write (s : State) (a : Action) : State :=
  match a with
  | setAmount v =>
      mkState v (balance s) (isApproved s) (isLoading s) (progress s)
        (address s) (isConnected s) (publicClient s) (bankBalance s)
        (allowance s) (depositM s) (withdrawM s) (approveM s)
  | setBalance v =>
      mkState (amount s) v (isApproved s) (isLoading s) (progress s)
        (address s) (isConnected s) (publicClient s) (bankBalance s)
        (allowance s) (depositM s) (withdrawM s) (approveM s)
  | setIsApproved b =>
      mkState (amount s) (balance s) b (isLoading s) (progress s)
        (address s) (isConnected s) (publicClient s) (bankBalance s)
        (allowance s) (depositM s) (withdrawM s) (approveM s)
  | setIsLoading b =>
      mkState (amount s) (balance s) (isApproved s) b (progress s)
        (address s) (isConnected s) (publicClient s) (bankBalance s)
        (allowance s) (depositM s) (withdrawM s) (approveM s)
  | setProgress n =>
      mkState (amount s) (balance s) (isApproved s) (isLoading s) n
        (address s) (isConnected s) (publicClient s) (bankBalance s)
        (allowance s) (depositM s) (withdrawM s) (approveM s)
  | deposit _ _ =>
      mkState (amount s) (balance s) (isApproved s) (isLoading s) (progress s)
        (address s) (isConnected s) (publicClient s) (bankBalance s)
        (allowance s) pending (withdrawM s) (approveM s)
  | withdraw _ _ =>
      mkState (amount s) (balance s) (isApproved s) (isLoading s) (progress s)
        (address s) (isConnected s) (publicClient s) (bankBalance s)
        (allowance s) (depositM s) pending (approveM s)
  | approve _ _ _ =>
      mkState (amount s) (balance s) (isApproved s) (isLoading s) (progress s)
        (address s) (isConnected s) (publicClient s) (bankBalance s)
        (allowance s) (depositM s) (withdrawM s) pending
  | refetchBalance | refetchAllowance | waitForTransactionReceipt _
  | setTimeout _ | console_error _ => s
  end.

Definition observe (s : State) (e : Event) : State :=
  match e with
  | Did a => write s a
  | Settle _ _ => s
  end.

(** The component after the calls of a trace, in order. *)
Definition after (tr : list Event) (s : State) : State :=
  fold_left observe tr s.

(** ** The mounted component as a transition system *)

(** A handler suspended at an [await]. *)
Record Task : Type := mkTask {
  awaited : Promise;
  resume : Settled -> Prog unit
}.

Record Machine : Type := mkMachine {
  view : State;             (* the last committed render *)
  mounted : bool;           (* false once an effect has thrown *)
  tasks : list Task;
  history : list Event
}.

Inductive Hook : Type :=
| approve_hook
| deposit_hook
| withdraw_hook.

Inductive Input : Type :=
| onChange (value : string)                      (* the amount input *)
| clickDeposit
| clickWithdraw
| accountChanged (connected : bool) (addr : option string)
| clientChanged (defined : bool)
| balanceData (d : option Z)                     (* new data of the balances read *)
| allowanceData (d : option Z)                   (* new data of the allowance read *)
| submitted (h : Hook) (result : option string)  (* the wallet's answer to a writeContract *)
| settled (n : nat) (o : Settled).               (* the promise of task n settles *)

Definition same_string (a b : option string) : bool :=
  match a, b with
  | Some x, Some y => String.eqb x y
  | None, None => true
  | _, _ => false
  end.

Definition same_bigint (a b : option Z) : bool :=
  match a, b with
  | Some x, Some y => x =? y
  | None, None => true
  | _, _ => false
  end.

(** The dependency pair [xSuccess, xHash] of a mutation effect. *)
Definition same_mutation (a b : Mutation) : bool :=
  Bool.eqb (isSuccess a) (isSuccess b) && same_string (data a) (data b).

(** The hook outputs after an input of the remote side.  The wallet's
    answer only reaches a hook whose call is pending. *)
Definition hooks (s : State) (i : Input) : State :=
  match i with
  | accountChanged c a =>
      mkState (amount s) (balance s) (isApproved s) (isLoading s) (progress s)
        a c (publicClient s) (bankBalance s) (allowance s)
        (depositM s) (withdrawM s) (approveM s)
  | clientChanged c =>
      mkState (amount s) (balance s) (isApproved s) (isLoading s) (progress s)
        (address s) (isConnected s) c (bankBalance s) (allowance s)
        (depositM s) (withdrawM s) (approveM s)
  | balanceData d =>
      mkState (amount s) (balance s) (isApproved s) (isLoading s) (progress s)
        (address s) (isConnected s) (publicClient s) d (allowance s)
        (depositM s) (withdrawM s) (approveM s)
  | allowanceData d =>
      mkState (amount s) (balance s) (isApproved s) (isLoading s) (progress s)
        (address s) (isConnected s) (publicClient s) (bankBalance s) d
        (depositM s) (withdrawM s) (approveM s)
  | submitted h result =>
      let answer := match result with Some hash => success hash | None => error end in
      match h, depositM s, withdrawM s, approveM s with
      | deposit_hook, pending, _, _ =>
          mkState (amount s) (balance s) (isApproved s) (isLoading s) (progress s)
            (address s) (isConnected s) (publicClient s) (bankBalance s)
            (allowance s) answer (withdrawM s) (approveM s)
      | withdraw_hook, _, pending, _ =>
          mkState (amount s) (balance s) (isApproved s) (isLoading s) (progress s)
            (address s) (isConnected s) (publicClient s) (bankBalance s)
            (allowance s) (depositM s) answer (approveM s)
      | approve_hook, _, _, pending =>
          mkState (amount s) (balance s) (isApproved s) (isLoading s) (progress s)
            (address s) (isConnected s) (publicClient s) (bankBalance s)
            (allowance s) (depositM s) (withdrawM s) answer
      | _, _, _, _ => s
      end
  | onChange _ | clickDeposit | clickWithdraw | settled _ _ => s
  end.

Definition task_of (out : Outcome) : list Task :=
  match out with
  | Suspended p k => [mkTask p k]
  | Returned | Thrown _ => []
  end.

Definition threw (out : Outcome) : bool :=
  match out with
  | Thrown _ => true
  | Returned | Suspended _ _ => false
  end.

(** One effect of a commit: whether its body runs synchronously (an
    exception then escapes into React) or is an async call or promise
    chain (an exception is a rejected promise nobody observes). *)
Record Effect : Type := mkEffect {
  synchronous : bool;
  body : Prog unit
}.

(** One effect of a commit, when it is due: its run up to its first
    [await], the task it leaves behind, and whether it threw into React. *)
Definition fire (e : bool * Effect) : list Event * list Task * bool :=
  if fst e then
    let '(tr, out) := exec [] (body (snd e)) in
    (tr, task_of out, synchronous (snd e) && threw out)
  else ([], [], false).

(** The effects of one commit, in order. *)
Fixpoint run_effects (es : list (bool * Effect)) : list Event * list Task * bool :=
  match es with
  | [] => ([], [], false)
  | e :: rest =>
      let '(tr, ts, crashed) := fire e in
      let '(tr', ts', crashed') := run_effects rest in
      (tr ++ tr', ts ++ ts', crashed || crashed')
  end.

(** ** Reading traces *)

(** The calls that go to the ledger client: reads, submissions and the
    confirmation wait. *)
Definition ledger_call (e : Event) : bool :=
  match e with
  | Did refetchBalance | Did refetchAllowance
  | Did (approve _ _ _) | Did (deposit _ _) | Did (withdraw _ _)
  | Did (waitForTransactionReceipt _) => true
  | _ => false
  end.

Definition is_approve (e : Event) : bool :=
  match e with Did (approve _ _ _) => true | _ => false end.

Definition is_deposit (e : Event) : bool :=
  match e with Did (deposit _ _) => true | _ => false end.

Definition is_withdraw (e : Event) : bool :=
  match e with Did (withdraw _ _) => true | _ => false end.

Definition submission (e : Event) : bool :=
  is_approve e || is_deposit e || is_withdraw e.

(** The constant of line 108. *)
Definition maxUint256 : Z := 2 ^ 256 - 1.

(** The three calls of a click that goes through. *)
Definition approving : list Event :=
  [ Did (setIsLoading true); Did (setProgress 10);
    Did (approve ERC20_ADDRESS BANK_CONTRACT_ADDRESS maxUint256) ].

Definition depositing (value : Z) : list Event :=
  [ Did (setIsLoading true); Did (setProgress 25);
    Did (deposit BANK_CONTRACT_ADDRESS value) ].

Definition withdrawing (value : Z) : list Event :=
  [ Did (setIsLoading true); Did (setProgress 25);
    Did (withdraw BANK_CONTRACT_ADDRESS value) ].

(** What [waitForTransaction] does up to the receipt, after a receipt, and
    when it ends. *)
Definition waiting (hash : string) : list Event :=
  [ Did (setProgress 50); Did (waitForTransactionReceipt hash) ].

Definition confirmed (hash : string) : list Event :=
  [ Settle (receipt hash) Fulfilled; Did (setProgress 100);
    Did (setTimeout 500) ].

Definition failed (hash : string) : list Event :=
  [ Settle (receipt hash) Rejected; Did (console_error "Transaction failed:");
    Did (setProgress 0); Did (setIsLoading false) ].

Definition cleared : list Event :=
  [ Did (setProgress 0); Did (setIsLoading false) ].

(** Sample renders for the closed statements at the end: an amount typed
    with no allowance observed yet, one with an allowance the effect has
    found sufficient, and the render in which an approval has been
    accepted by the wallet. *)
Definition typed (value : string) (loading : bool) (w : Mutation) : State :=
  {| amount := value; balance := EmptyString; isApproved := false;
     isLoading := loading; progress := 0; address := Some "0xa11ce";
     isConnected := true; publicClient := true; bankBalance := None;
     allowance := None; depositM := idle; withdrawM := w; approveM := idle |}.

Definition allowing (value : string) (allowed : Z) : State :=
  {| amount := value; balance := EmptyString; isApproved := true;
     isLoading := false; progress := 0; address := Some "0xa11ce";
     isConnected := true; publicClient := true; bankBalance := None;
     allowance := Some allowed; depositM := idle; withdrawM := idle;
     approveM := idle |}.

Definition approved (value hash : string) : State :=
  {| amount := value; balance := EmptyString; isApproved := false;
     isLoading := true; progress := 10; address := Some "0xa11ce";
     isConnected := true; publicClient := true; bankBalance := None;
     allowance := Some 0; depositM := idle; withdrawM := idle;
     approveM := success hash |}.

(** Sample inputs for the closed statements: an account connects; a
    second account takes over after the first has an allowance and an
    amount typed, and its allowance read has not returned. *)
Definition connect : Input := accountChanged true (Some "0xa11ce").

(** ** Properties of every call a program can make *)

(** [always P p]: on every path through [p], whatever the replies, each
  call satisfies [P]. *)
Inductive always (P : Action -> Prop) : Prog unit -> Prop :=
  | always_Ret u : always P (Ret u)
  | always_Throw e : always P (Throw e)
  | always_Act a k : P a -> always P k -> always P (Act a k)
  | always_Await pr k : (forall o, always P (k o)) -> always P (Await pr k).

Create HintDb always.
#[global] Hint Constructors always : always.

Definition calls (P : Action -> Prop) (e : Event) : Prop :=
  match e with
  | Did a => P a
  | Settle _ _ => True
  end.


(** ** What the component's programs can call *)

(** The calls of the handlers and of the promise chains: an approval is
  always for [maxUint256] on the token, a deposit or withdrawal goes to
  the bank, the amount is only ever cleared, and [isApproved] is not
  touched. *)
Definition handler_call (a : Action) : Prop :=
  match a with
  | approve c sp v =>
    c = ERC20_ADDRESS /\ sp = BANK_CONTRACT_ADDRESS /\ v = maxUint256
  | deposit c _ | withdraw c _ => c = BANK_CONTRACT_ADDRESS
  | setAmount v => v = EmptyString
  | setIsApproved _ => False
  | _ => True
  end.

(** The calls an effect makes before its first [await]. *)
Definition effect_call (a : Action) : Prop :=
  match a with
  | setBalance _ | refetchBalance | setProgress _
  | waitForTransactionReceipt _ | setTimeout _ => True
  | _ => False
  end.

(** Every call of the component: the above, the amount typed by the user
  and the [isApproved] effect. *)
Definition component_call (a : Action) : Prop :=
  match a with
  | setAmount _ | setIsApproved _ => True
  | _ => handler_call a
  end.

Definition good_task (t : Task) : Prop :=
  forall o, always handler_call (resume t o).

(** Projections of a commit. *)
Definition effects_trace (es : list (bool * Effect)) : list Event :=
  fst (fst (run_effects es)).
Definition effects_tasks (es : list (bool * Effect)) : list Task :=
  snd (fst (run_effects es)).
Definition effects_crash (es : list (bool * Effect)) : bool :=
  snd (run_effects es).


Definition fired_trace (e : bool * Effect) : list Event := fst (fst (fire e)).
Definition fired_tasks (e : bool * Effect) : list Task := snd (fst (fire e)).
Definition fired_crash (e : bool * Effect) : bool := snd (fire e).


Definition effect_run (p : Prog unit) : Prop :=
  Forall (calls effect_call) (trace [] p)
  /\ Forall good_task (task_of (outcome [] p))
  /\ threw (outcome [] p) = false.

(** ** The component's functions *)

Section Component.

(** [Number(formatUnits(x, 18)).toFixed(6)]: the display string of a
    balance.  In the source it is [formatBalance]; the statements of this
    section hold whatever the function prints, so they take it as a
    parameter, and the closed statements at the end use [formatBalance]. *)
Variable displayBalance : Z -> string.

(** Lines 72-83.  [bankBalance] is the value of the render [r] that built
    the closure. *)
Definition handleGetBalance (r : State) : Prog unit :=
  try_catch
    (call refetchBalance ;; await balance_read ;;
     match bankBalance r with
     | Some v =>
         if truthy_bigint (Some v) then call (setBalance (displayBalance v))
         else Ret tt
     | None => Ret tt
     end)
    (fun _ => call (console_error "Error fetching balance:")).

(** Lines 44-50 *)
Definition connectEffect (r : State) : Prog unit :=
  if isConnected r && truthy_hash (address r) then handleGetBalance r
  else call (setBalance EmptyString).

(** Lines 53-59 *)
Definition balanceEffect (r : State) : Prog unit :=
  match bankBalance r with
  | Some v =>
      if truthy_bigint (Some v) then call (setBalance (displayBalance v))
      else Ret tt
  | None => Ret tt
  end.

(** Lines 62-69 *)
Definition isApprovedEffect (r : State) : Prog unit :=
  match allowance r with
  | Some al =>
      if truthy_string (amount r) then
        requiredAmount <- throwing "parseUnits" (parseUnits (amount r) 18) ;;
        call (setIsApproved (requiredAmount <=? al))
      else call (setIsApproved (0 <? al))
  | None => Ret tt
  end.

(** Lines 86-100 *)
Definition waitForTransaction (r : State) (hash : string) : Prog unit :=
  try_finally
    (try_catch
       (call (setProgress 50) ;;
        (if publicClient r
         then call (waitForTransactionReceipt hash) ;; await (receipt hash)
         else Ret tt) ;;
        call (setProgress 100) ;;
        sleep 500)
       (fun e => call (console_error "Transaction failed:") ;; Throw e))
    (call (setProgress 0) ;; call (setIsLoading false)).

(** Lines 103-120 *)
Definition handleApprove (r : State) : Prog unit :=
  if negb (truthy_string (amount r)) || negb (publicClient r) then Ret tt
  else
    call (setIsLoading true) ;;
    call (setProgress 10) ;;
    try_catch
      (maxUint256 <- throwing "BigInt"
         (BigInt "0xffffffffffffffffffffffffffffffffffffffffffffffffffffffffffffffff") ;;
       call (approve ERC20_ADDRESS BANK_CONTRACT_ADDRESS maxUint256))
      (fun _ =>
         call (console_error "Error approving:") ;;
         call (setIsLoading false) ;;
         call (setProgress 0)).

(** [allowance && allowance < depositAmount] of line 128. *)
Definition allowance_below (r : State) (depositAmount : Z) : bool :=
  match allowance r with
  | Some al => truthy_bigint (Some al) && (al <? depositAmount)
  | None => false
  end.

(** The condition of line 128. *)
Definition approval_required (r : State) (skipApprovalCheck : bool)
    (depositAmount : Z) : bool :=
  negb skipApprovalCheck &&
  (negb (isApproved r) || allowance_below r depositAmount).

(** Lines 123-146 *)
Definition handleDeposit (r : State) (skipApprovalCheck : bool) : Prog unit :=
  if negb (truthy_string (amount r)) || negb (publicClient r) then Ret tt
  else
    try_catch
      (depositAmount <- throwing "parseUnits" (parseUnits (amount r) 18) ;;
       if approval_required r skipApprovalCheck depositAmount
       then handleApprove r
       else
         call (setIsLoading true) ;;
         call (setProgress 25) ;;
         call (deposit BANK_CONTRACT_ADDRESS depositAmount))
      (fun _ =>
         call (console_error "Error depositing:") ;;
         call (setIsLoading false) ;;
         call (setProgress 0)).

(** Lines 149-165 *)
Definition handleWithdraw (r : State) : Prog unit :=
  if negb (truthy_string (amount r)) || negb (publicClient r) then Ret tt
  else
    try_catch
      (call (setIsLoading true) ;;
       call (setProgress 25) ;;
       value <- throwing "parseUnits" (parseUnits (amount r) 18) ;;
       call (withdraw BANK_CONTRACT_ADDRESS value))
      (fun _ =>
         call (console_error "Error withdrawing:") ;;
         call (setIsLoading false) ;;
         call (setProgress 0)).

(** Lines 168-175 *)
Definition approveEffect (r : State) : Prog unit :=
  match approveHash r with
  | Some hash =>
      if approveSuccess r && truthy_hash (Some hash) then
        waitForTransaction r hash ;;
        call refetchAllowance ;;
        handleDeposit r true
      else Ret tt
  | None => Ret tt
  end.

(** Lines 178-185 *)
Definition depositEffect (r : State) : Prog unit :=
  match depositHash r with
  | Some hash =>
      if depositSuccess r && truthy_hash (Some hash) then
        waitForTransaction r hash ;;
        call refetchBalance ;;
        call (setAmount EmptyString)
      else Ret tt
  | None => Ret tt
  end.

(** Lines 188-195 *)
Definition withdrawEffect (r : State) : Prog unit :=
  match withdrawHash r with
  | Some hash =>
      if withdrawSuccess r && truthy_hash (Some hash) then
        waitForTransaction r hash ;;
        call refetchBalance ;;
        call (setAmount EmptyString)
      else Ret tt
  | None => Ret tt
  end.

(** Lines 242-255: both buttons carry [disabled={!amount || isLoading}]. *)
Definition disabled (r : State) : bool :=
  negb (truthy_string (amount r)) || isLoading r.

Definition depositButton (r : State) : Prog unit :=
  if disabled r then Ret tt else handleDeposit r false.

Definition withdrawButton (r : State) : Prog unit :=
  if disabled r then Ret tt else handleWithdraw r.



(** ** What the component renders *)

(** Line 247: the text of the deposit button. *)
Definition depositLabel (r : State) : string :=
  if isApproved r then "Deposit" else "Approve Token".

(** Lines 259-265: the progress block is rendered while [isLoading] is
    set; its text depends on [progress], and the bar is [progress] percent
    wide. *)
Definition progressText (r : State) : option string :=
  if isLoading r then
    Some (if progress r <? 100 then "Transaction in progress..."
          else "Transaction completed!")
  else None.

Definition progressWidth (r : State) : option Z :=
  if isLoading r then Some (progress r) else None.

(** [String.prototype.slice(start, end)], on strings of one-byte
    characters: a negative index counts from the end, both indices are
    clamped to the string, and an empty range gives the empty string. *)
Definition slice (s : string) (start : Z) (stop : option Z) : string :=
  let len := Z.of_nat (String.length s) in
  let clamp := fun i => if i <? 0 then Z.max (len + i) 0 else Z.min i len in
  let from := clamp start in
  let to := match stop with Some e => clamp e | None => len end in
  substring (Z.to_nat from) (Z.to_nat (Z.max (to - from) 0)) s.

(** Line 218: [{address?.slice(0, 6)}...{address?.slice(-4)}]; an
    undefined address renders nothing around the dots. *)
Definition shortAddress (a : option string) : string :=
  match a with
  | Some s => slice s 0 (Some 6) ++ "..." ++ slice s (-4) None
  | None => "..."
  end.

(** The values [setProgress] is called with. *)
Definition levels : list Z := [0; 10; 25; 50; 100].
(** *** The component as a transition system *)

(** All [useEffect]s in source order, with the closure of render [cur]. *)
Definition effects (cur : State) : list Effect :=
  [ mkEffect false (connectEffect cur);
    mkEffect true (balanceEffect cur);
    mkEffect true (isApprovedEffect cur);
    mkEffect false (approveEffect cur);
    mkEffect false (depositEffect cur);
    mkEffect false (withdrawEffect cur) ].

(** Which dependency arrays differ between two renders, in the same order. *)
Definition changed (prev cur : State) : list bool :=
  [ negb (Bool.eqb (isConnected prev) (isConnected cur)
          && same_string (address prev) (address cur));
    negb (same_bigint (bankBalance prev) (bankBalance cur));
    negb (same_bigint (allowance prev) (allowance cur)
          && String.eqb (amount prev) (amount cur));
    negb (same_mutation (approveM prev) (approveM cur));
    negb (same_mutation (depositM prev) (depositM cur));
    negb (same_mutation (withdrawM prev) (withdrawM cur)) ].

(** Every effect paired with whether React runs it after render [cur]
    follows render [prev]. *)
Definition due (prev cur : State) : list (bool * Effect) :=
  combine (changed prev cur) (effects cur).

(** One turn of the event loop: the program [p] runs to its end or its
    first [await] on top of the hook outputs [hooked]; its state updates
    are batched into one render, whose due effects then run with that
    render as their closure.  After an unmount the closures still run
    and call out, but no state is kept and no effect fires. *)
Definition turn (m : Machine) (remaining : list Task) (hooked : State)
    (announce : list Event) (p : Prog unit) : Machine :=
  let '(tr1, out1) := exec [] p in
  if mounted m then
    let s1 := after tr1 hooked in
    let '(tr2, ts2, crashed) := run_effects (due (view m) s1) in
    mkMachine (after tr2 s1) (negb crashed)
      (remaining ++ task_of out1 ++ ts2)
      (history m ++ announce ++ tr1 ++ tr2)
  else
    mkMachine (view m) false (remaining ++ task_of out1)
      (history m ++ announce ++ tr1).

Fixpoint remove_nth {A : Type} (n : nat) (l : list A) : list A :=
  match n, l with
  | O, _ :: rest => rest
  | S n', x :: rest => x :: remove_nth n' rest
  | _, [] => []
  end.

Definition step (m : Machine) (i : Input) : Machine :=
  match i with
  | settled n o =>
      match nth_error (tasks m) n with
      | Some t =>
          turn m (remove_nth n (tasks m)) (view m)
            [Settle (awaited t) o] (resume t o)
      | None => m
      end
  | onChange v =>
      if mounted m then turn m (tasks m) (view m) [] (call (setAmount v))
      else m
  | clickDeposit =>
      if mounted m then turn m (tasks m) (view m) [] (depositButton (view m))
      else m
  | clickWithdraw =>
      if mounted m then turn m (tasks m) (view m) [] (withdrawButton (view m))
      else m
  | accountChanged _ _ | clientChanged _ | balanceData _ | allowanceData _
  | submitted _ _ =>
      if mounted m then turn m (tasks m) (hooks (view m) i) [] (Ret tt)
      else m
  end.

Definition run (m : Machine) (inputs : list Input) : Machine :=
  fold_left step inputs m.

(** [step] is defined for every input in every state.  The inputs the
    component can actually receive are fewer: the amount input and the two
    buttons are rendered only while the account is connected (lines
    211-216) and the component is mounted; a promise that settles belongs
    to a suspended handler, and a timer never rejects; the wallet answers
    a hook whose call is pending.  Each hook output arrives as an input of
    its own, so a change of account is followed by the inputs that deliver
    the reads of the new account. *)
Definition receivable (m : Machine) (i : Input) : bool :=
  match i with
  | onChange _ | clickDeposit | clickWithdraw =>
      mounted m && isConnected (view m)
  | settled n o =>
      match nth_error (tasks m) n with
      | Some t =>
          match awaited t, o with
          | timer _, Rejected => false
          | _, _ => true
          end
      | None => false
      end
  | submitted h _ =>
      match h, approveM (view m), depositM (view m), withdrawM (view m) with
      | approve_hook, pending, _, _ => true
      | deposit_hook, _, pending, _ => true
      | withdraw_hook, _, _, pending => true
      | _, _, _, _ => false
      end
  | accountChanged _ _ | clientChanged _ | balanceData _ | allowanceData _ =>
      true
  end.

(** A run in which every input is receivable when it comes. *)
Fixpoint receivable_run (m : Machine) (inputs : list Input) : bool :=
  match inputs with
  | [] => true
  | i :: rest => receivable m i && receivable_run (step m i) rest
  end.

(** The component right after mounting: every effect has run once on the
    initial render. *)
Definition mount (client : bool) : Machine :=
  let '(tr, ts, crashed) :=
    run_effects (map (pair true) (effects (initial client))) in
  mkMachine (after tr (initial client)) (negb crashed) ts tr.



(** The trace of the [isApproved] effect when it is due. *)
Definition approval_trace (prev cur : State) : list Event :=
  if negb (same_bigint (allowance prev) (allowance cur)
           && String.eqb (amount prev) (amount cur))
  then trace [] (isApprovedEffect cur) else [].


(** *** Statements about renders, machines and traces *)

(** The decision of line 128 for a click on the deposit button: whether
    the deposit goes out without an approval first. *)
Definition decide (r : State) (requested : Z) : bool :=
  negb (approval_required r false requested).

(** The tasks of a machine are suspended handlers of the component, and
    its history only holds calls of the component. *)
Definition well_formed (m : Machine) : Prop :=
  Forall good_task (tasks m) /\ Forall (calls component_call) (history m).

(** What the effect of lines 62-69 establishes for a render. *)
Definition in_sync (s : State) : Prop :=
  match allowance s with
  | Some h =>
      if truthy_string (amount s)
      then exists a, parseUnits (amount s) 18 = Some a
                     /\ isApproved s = (a <=? h)
      else isApproved s = (0 <? h)
  | None => True
  end.



(** A turn whose program leaves [isApproved] alone. *)
Definition spares_isApproved (p : Prog unit) : Prop :=
  forall s, isApproved (after (trace [] p) s) = isApproved s.

(** Scanning [tr], no deposit is met before an event that [mark] accepts. *)
Fixpoint deposits_wait (mark : Event -> bool) (tr : list Event) : bool :=
  match tr with
  | [] => true
  | e :: rest =>
      if is_deposit e then false
      else if mark e then true
      else deposits_wait mark rest
  end.

(** The fulfilled receipt of the transaction [h]. *)
Definition approval_confirmed (h : string) (e : Event) : bool :=
  match e with
  | Settle (receipt h') Fulfilled => String.eqb h' h
  | _ => false
  end.

(** A call that leaves the displayed balance and the two reads alone:
    every call but [setBalance]. *)
Definition keeps_cache (a : Action) : Prop :=
  match a with
  | setBalance _ => False
  | _ => True
  end.


(** *** Suspended handlers, by what they do when resumed *)

Definition balance_call (a : Action) : Prop :=
  match a with
  | setBalance _ | console_error _ => True
  | _ => False
  end.

(** Calls that neither submit nor set the loading flag. *)
Definition idle_call (a : Action) : Prop :=
  match a with
  | refetchBalance | refetchAllowance | console_error _ | setAmount _
  | setIsLoading false | setProgress _ => True
  | _ => False
  end.

(** What follows the [finally] of a wait: the callback of the chain. *)
Definition callback_tail (tail : list Event) : Prop :=
  Forall (calls idle_call) tail
  \/ exists a, tail = Did refetchAllowance :: depositing a.

Definition callback (cb : Prog unit) : Prop :=
  task_of (outcome [] cb) = [] /\ callback_tail (trace [] cb).

(** [handleGetBalance] after its refetch. *)
Definition balance_task (t : Task) : Prop :=
  awaited t = balance_read
  /\ forall o, task_of (outcome [] (resume t o)) = []
               /\ Forall (calls balance_call) (trace [] (resume t o)).

(** A chain in its 500 ms pause: it clears the indicator and runs its
    callback. *)
Definition sleeping (k : Settled -> Prog unit) : Prop :=
  forall o, task_of (outcome [] (k o)) = []
            /\ exists tail, trace [] (k o) = cleared ++ tail
                            /\ callback_tail tail.

Definition failing : list Event :=
  [ Did (console_error "Transaction failed:"); Did (setProgress 0);
    Did (setIsLoading false) ].

(** A chain waiting for its receipt. *)
Definition receiving (k : Settled -> Prog unit) : Prop :=
  exec [] (k Rejected) = (failing, Thrown "rejected")
  /\ exists k', exec [] (k Fulfilled) =
                ([Did (setProgress 100); Did (setTimeout 500)],
                 Suspended (timer 500) k')
                /\ sleeping k'.

Definition lane_task (t : Task) : Prop :=
  (awaited t = timer 500 /\ sleeping (resume t))
  \/ (exists h, awaited t = receipt h /\ receiving (resume t)).

Definition known_task (t : Task) : Prop := balance_task t \/ lane_task t.

Definition is_lane (t : Task) : bool :=
  match awaited t with
  | balance_read => false
  | receipt _ | timer _ => true
  end.

Definition lanes (ts : list Task) : nat := List.length (filter is_lane ts).

Definition is_pending (m : Mutation) : bool :=
  match m with
  | pending => true
  | _ => false
  end.

Definition pendings (s : State) : nat :=
  (if is_pending (approveM s) then 1 else 0)
  + (if is_pending (depositM s) then 1 else 0)
  + (if is_pending (withdrawM s) then 1 else 0).

(** Operations under way: submitted and not yet accepted or refused by
    the wallet, or accepted and waiting in a chain. *)
Definition in_flight (m : Machine) : nat :=
  (pendings (view m) + lanes (tasks m))%nat.

(** The lane discipline: all tasks are known, and while the component is
    mounted at most one operation is under way, and none when the loading
    flag is clear. *)
Definition one_lane (m : Machine) : Prop :=
  Forall known_task (tasks m)
  /\ (mounted m = true ->
      (in_flight m <= 1)%nat
      /\ (isLoading (view m) = false -> in_flight m = 0%nat)).

(** Whether the effect of a mutation hook starts a chain in a commit. *)
Definition fires (prev cur : Mutation) : bool :=
  negb (same_mutation prev cur) && truthy_hash (data cur).

Definition fires_count (prev cur : State) : nat :=
  ((if fires (approveM prev) (approveM cur) then 1 else 0)
   + (if fires (depositM prev) (depositM cur) then 1 else 0)
   + (if fires (withdrawM prev) (withdrawM cur) then 1 else 0))%nat.

(** The calls of a commit: those of the effects before their first
    [await], and the [isApproved] effect. *)
Definition commit_call (a : Action) : Prop :=
  match a with
  | setIsApproved _ => True
  | _ => effect_call a
  end.

(** Calls that touch neither the loading flag nor a mutation hook. *)
Definition lane_neutral (a : Action) : Prop :=
  match a with
  | setIsLoading _ | approve _ _ _ | deposit _ _ | withdraw _ _ => False
  | _ => True
  end.

(** What a run does to the lane: nothing, release it, or take it with a
    submission through one hook. *)
Inductive Kind : Type :=
| quiet
| release
| submit (h : Hook).

Definition mutation_of (h : Hook) (s : State) : Mutation :=
  match h with
  | approve_hook => approveM s
  | deposit_hook => depositM s
  | withdraw_hook => withdrawM s
  end.

Definition summarises (k : Kind) (tr : list Event) : Prop :=
  forall s,
    match k with
    | quiet =>
        isLoading (after tr s) = isLoading s
        /\ forall h, mutation_of h (after tr s) = mutation_of h s
    | release =>
        isLoading (after tr s) = false
        /\ forall h, mutation_of h (after tr s) = mutation_of h s
    | submit h0 =>
        isLoading (after tr s) = true
        /\ mutation_of h0 (after tr s) = pending
        /\ forall h, h <> h0 -> mutation_of h (after tr s) = mutation_of h s
    end.

(** Whether the dependencies of an effect differ between two renders. *)
Definition connect_due (prev cur : State) : bool :=
  negb (Bool.eqb (isConnected prev) (isConnected cur)
        && same_string (address prev) (address cur)).

Definition balance_due (prev cur : State) : bool :=
  negb (same_bigint (bankBalance prev) (bankBalance cur)).

Definition isApproved_due (prev cur : State) : bool :=
  negb (same_bigint (allowance prev) (allowance cur)
        && String.eqb (amount prev) (amount cur)).

Definition mutation_due (h : Hook) (prev cur : State) : bool :=
  negb (same_mutation (mutation_of h prev) (mutation_of h cur)).

(** Two renders with the same dependencies for every effect. *)
Definition same_deps (prev cur : State) : Prop :=
  isConnected cur = isConnected prev
  /\ address cur = address prev
  /\ bankBalance cur = bankBalance prev
  /\ allowance cur = allowance prev
  /\ amount cur = amount prev
  /\ forall h, mutation_of h cur = mutation_of h prev.

(** Calls that change no dependency of an effect. *)
Definition dep_neutral (a : Action) : Prop :=
  match a with
  | setAmount _ | approve _ _ _ | deposit _ _ | withdraw _ _ => False
  | _ => True
  end.

(** *** While an approval holds the lane *)

(** Events that neither submit a deposit nor settle a receipt. *)
Definition uneventful (e : Event) : Prop :=
  match e with
  | Did (deposit _ _) | Settle (receipt _) _ => False
  | _ => True
  end.

(** A chain waiting for the receipt of one of the hashes [seen]. *)
Definition approve_wait (seen : list string) (t : Task) : Prop :=
  exists h, awaited t = receipt h /\ receiving (resume t) /\ In h seen.

(** The lane is held by an approval that has been submitted and whose
    receipt has not settled: the loading flag is set, no other hook is
    pending, and the only chain there can be waits for the receipt of a
    hash the approve hook has reported. *)
Definition held (seen : list string) (m : Machine) : Prop :=
  Forall (fun t => balance_task t \/ approve_wait seen t) (tasks m)
  /\ (mounted m = true ->
      isLoading (view m) = true
      /\ publicClient (view m) = true
      /\ is_pending (depositM (view m)) = false
      /\ is_pending (withdrawM (view m)) = false
      /\ forall h, approveM (view m) = success h -> In h seen).

(** The hash an input of the approve hook reports. *)
Definition approval_hash (i : Input) : list string :=
  match i with
  | submitted approve_hook (Some h) => [h]
  | _ => []
  end.

(** The public client does not go away. *)
Definition client_stays (i : Input) : Prop :=
  match i with
  | clientChanged false => False
  | _ => True
  end.

(** The settlement of the receipt of one of the [hashes]. *)
Definition receipt_of (hashes : list string) (e : Event) : bool :=
  match e with
  | Settle (receipt h) _ => existsb (String.eqb h) hashes
  | _ => false
  end.

(** Nothing is under way and the loading flag is set: no button works and
    no chain can clear the flag. *)
Definition stuck (m : Machine) : Prop :=
  Forall balance_task (tasks m)
  /\ (mounted m = true ->
      isLoading (view m) = true /\ pendings (view m) = 0%nat).

(** Events that are not a submission to the wallet. *)
Definition silent (e : Event) : Prop := submission e = false.

(** *** Invariants kept by every call *)

(** A suspended handler that only ever makes calls satisfying [P]. *)
Definition safe_task (P : Action -> Prop) (t : Task) : Prop :=
  forall o, always P (resume t o).

(** A machine whose suspended handlers only make calls satisfying [P] and
    whose render satisfies [Q]. *)
Definition safe (P : Action -> Prop) (Q : State -> Prop) (m : Machine) : Prop :=
  Forall (safe_task P) (tasks m) /\ Q (view m).

(** Calls that set the progress to one of the five [levels], if at all. *)
Definition progress_call (a : Action) : Prop :=
  match a with
  | setProgress v => In v levels
  | _ => True
  end.

(** Nothing is under way: no hook is pending and no chain is waiting. *)
Definition settled_down (m : Machine) : Prop :=
  Forall balance_task (tasks m)
  /\ (mounted m = true -> pendings (view m) = 0%nat).

(** Inputs other than a click on one of the two buttons. *)
Definition no_click (i : Input) : Prop :=
  match i with
  | clickDeposit | clickWithdraw => False
  | _ => True
  end.


(** ** Library facts *)

Lemma BigInt_maxUint256 :
  BigInt "0xffffffffffffffffffffffffffffffffffffffffffffffffffffffffffffffff"
  = Some maxUint256.
Proof. vm_compute. reflexivity. Qed.

Lemma maxUint256_value :
  maxUint256 =
  115792089237316195423570985008687907853269984665640564039457584007913129639935.
Proof. reflexivity. Qed.

#[global] Arguments BigInt : simpl never.
#[global] Arguments parseUnits : simpl never.
#[global] Opaque maxUint256.

Lemma same_string_refl a : same_string a a = true.
Proof. destruct a; simpl; [apply String.eqb_refl | reflexivity]. Qed.

Lemma same_bigint_refl a : same_bigint a a = true.
Proof. destruct a; simpl; [apply Z.eqb_refl | reflexivity]. Qed.

Lemma same_mutation_refl a : same_mutation a a = true.
Proof.
  unfold same_mutation. rewrite same_string_refl.
  destruct (isSuccess a); reflexivity.
Qed.

(** ** Programs and traces *)

Lemma after_app tr1 tr2 s : after (tr1 ++ tr2) s = after tr2 (after tr1 s).
Proof. unfold after. apply fold_left_app. Qed.

Lemma exec_trace replies p : fst (exec replies p) = trace replies p.
Proof. reflexivity. Qed.

(** Answering one more promise continues the suspended program. *)
Lemma exec_resume p : forall replies tr pr k o,
  exec replies p = (tr, Suspended pr k) ->
  exec (replies ++ [o]) p =
  (tr ++ Settle pr o :: fst (exec [] (k o)), snd (exec [] (k o))).
Proof.
  induction p as [r | e | a p IH | pr' k' IH]; intros replies tr pr k o H;
    simpl in *.
  - discriminate.
  - discriminate.
  - destruct (exec replies p) as [tr0 out0] eqn:E.
    inversion H; subst. rewrite (IH _ _ _ _ o E). reflexivity.
  - destruct replies as [|o' rest]; simpl.
    + inversion H; subst. destruct (exec [] (k o)); reflexivity.
    + destruct (exec rest (k' o')) as [tr0 out0] eqn:E.
      inversion H; subst. rewrite (IH _ _ _ _ _ o E). reflexivity.
Qed.

(** ** Handlers, one by one *)

Section Handlers.

Variable r : State.
Hypothesis typed_in : truthy_string (amount r) = true.
Hypothesis client : publicClient r = true.

Lemma handleApprove_runs : exec [] (handleApprove r) = (approving, Returned).
Proof.
  unfold handleApprove. rewrite typed_in, client, BigInt_maxUint256.
  reflexivity.
Qed.

Lemma handleDeposit_approves a :
  parseUnits (amount r) 18 = Some a ->
  approval_required r false a = true ->
  exec [] (handleDeposit r false) = (approving, Returned).
Proof.
  intros Hp Hd. unfold handleDeposit, handleApprove.
  rewrite typed_in, client, Hp, BigInt_maxUint256. simpl. rewrite Hd.
  reflexivity.
Qed.

Lemma handleDeposit_deposits skip a :
  parseUnits (amount r) 18 = Some a ->
  approval_required r skip a = false ->
  exec [] (handleDeposit r skip) = (depositing a, Returned).
Proof.
  intros Hp Hd. unfold handleDeposit.
  rewrite typed_in, client, Hp. simpl. rewrite Hd. reflexivity.
Qed.

Lemma handleDeposit_unparseable skip :
  parseUnits (amount r) 18 = None ->
  exec [] (handleDeposit r skip) =
  ([Did (console_error "Error depositing:"); Did (setIsLoading false);
    Did (setProgress 0)], Returned).
Proof.
  intros Hp. unfold handleDeposit. rewrite typed_in, client, Hp. reflexivity.
Qed.

Lemma handleWithdraw_withdraws a :
  parseUnits (amount r) 18 = Some a ->
  exec [] (handleWithdraw r) = (withdrawing a, Returned).
Proof.
  intros Hp. unfold handleWithdraw. rewrite typed_in, client, Hp. reflexivity.
Qed.

Lemma handleWithdraw_unparseable :
  parseUnits (amount r) 18 = None ->
  exec [] (handleWithdraw r) =
  ([Did (setIsLoading true); Did (setProgress 25);
    Did (console_error "Error withdrawing:"); Did (setIsLoading false);
    Did (setProgress 0)], Returned).
Proof.
  intros Hp. unfold handleWithdraw. rewrite typed_in, client, Hp. reflexivity.
Qed.

End Handlers.

Lemma skip_never_requires r a : approval_required r true a = false.
Proof. reflexivity. Qed.

(** No handler of a click ever awaits: its run does not depend on the
    replies. *)
Lemma handleDeposit_replies r skip replies :
  exec replies (handleDeposit r skip) = exec [] (handleDeposit r skip).
Proof.
  unfold handleDeposit, handleApprove. rewrite BigInt_maxUint256.
  destruct (negb (truthy_string (amount r)) || negb (publicClient r));
    [reflexivity|].
  destruct (parseUnits (amount r) 18) as [a|]; simpl; [|reflexivity].
  destruct (approval_required r skip a); reflexivity.
Qed.

Lemma handleWithdraw_replies r replies :
  exec replies (handleWithdraw r) = exec [] (handleWithdraw r).
Proof.
  unfold handleWithdraw.
  destruct (negb (truthy_string (amount r)) || negb (publicClient r));
    [reflexivity|].
  destruct (parseUnits (amount r) 18) as [a|]; reflexivity.
Qed.

Lemma guard_closed r :
  negb (truthy_string (amount r)) || negb (publicClient r) = false ->
  truthy_string (amount r) = true /\ publicClient r = true.
Proof.
  destruct (truthy_string (amount r)), (publicClient r); simpl;
    intros H; try discriminate; auto.
Qed.

(** The ways [handleDeposit] can go. *)
Lemma handleDeposit_cases r skip :
  exec [] (handleDeposit r skip) = ([], Returned)
  \/ exec [] (handleDeposit r skip) = (approving, Returned)
     /\ skip = false
     /\ (exists a, parseUnits (amount r) 18 = Some a
                   /\ approval_required r false a = true)
  \/ (exists a, parseUnits (amount r) 18 = Some a
                /\ approval_required r skip a = false
                /\ exec [] (handleDeposit r skip) = (depositing a, Returned))
  \/ exec [] (handleDeposit r skip) =
     ([Did (console_error "Error depositing:"); Did (setIsLoading false);
       Did (setProgress 0)], Returned).
Proof.
  destruct (negb (truthy_string (amount r)) || negb (publicClient r)) eqn:G.
  - left. unfold handleDeposit. rewrite G. reflexivity.
  - apply guard_closed in G. destruct G as [Ht Hc].
    destruct (parseUnits (amount r) 18) as [a|] eqn:Hp.
    + destruct (approval_required r skip a) eqn:Hd.
      * right; left. destruct skip; [discriminate|].
        split; [apply (handleDeposit_approves r Ht Hc a Hp Hd)|].
        split; [reflexivity|]. exists a; auto.
      * right; right; left. exists a. repeat split; auto.
        apply handleDeposit_deposits; auto.
    + right; right; right. apply handleDeposit_unparseable; auto.
Qed.


Lemma always_bind P p : forall f,
  always P p -> (forall u, always P (f u)) -> always P (bind p f).
Proof.
  induction p as [u | e | a p IH | pr k IH]; intros f Hp Hf; simpl;
    inversion Hp; subst; auto with always.
Qed.

Lemma always_try_catch P p : forall h,
  always P p -> (forall e, always P (h e)) -> always P (try_catch p h).
Proof.
  induction p as [u | e | a p IH | pr k IH]; intros h Hp Hh; simpl;
    inversion Hp; subst; auto with always.
Qed.

Lemma always_try_finally P p : forall q,
  always P p -> always P q -> always P (try_finally p q).
Proof.
  induction p as [u | e | a p IH | pr k IH]; intros q Hp Hq; simpl;
    inversion Hp; subst; auto with always.
  - apply always_bind; auto with always.
  - apply always_bind; auto with always.
Qed.

Lemma always_call (P : Action -> Prop) a : P a -> always P (call a).
Proof. intros H. unfold call. auto with always. Qed.

Lemma always_await P pr : always P (await pr).
Proof. unfold await. constructor. intros []; auto with always. Qed.

Lemma always_sleep (P : Action -> Prop) ms : P (setTimeout ms) -> always P (sleep ms).
Proof. intros H. unfold sleep. auto with always. Qed.

Lemma always_throwing P what (v : option Z) f :
  (forall a, always P (f a)) -> always P (bind (throwing what v) f).
Proof. intros H. destruct v; simpl; auto with always. Qed.

(** What [always] gives for a run: the calls of the trace, and the
    program left at the suspension. *)
Lemma always_exec P p : forall replies,
  always P p ->
  Forall (calls P) (fst (exec replies p))
  /\ Forall (fun t => forall o, always P (resume t o))
            (task_of (snd (exec replies p))).
Proof.
  induction p as [u | e | a p IH | pr k IH]; intros replies Hp; simpl;
    inversion Hp; subst.
  - split; constructor.
  - split; constructor.
  - destruct (IH replies H2) as [Ht Hk].
    destruct (exec replies p) as [tr out]; simpl in *.
    split; [constructor; auto | auto].
  - destruct replies as [|o rest]; simpl.
    + split; [constructor|]. constructor; [|constructor]. exact H0.
    + destruct (IH o rest (H0 o)) as [Ht Hk].
      destruct (exec rest (k o)) as [tr out]; simpl in *.
      split; [constructor; simpl; auto | auto].
Qed.

Lemma always_weaken (P Q : Action -> Prop) p :
  (forall a, P a -> Q a) -> always P p -> always Q p.
Proof. intros H Hp. induction Hp; auto with always. Qed.

Ltac always_step :=
  first
    [ apply always_bind; [|intros ?]
    | apply always_try_catch; [|intros ?]
    | apply always_try_finally
    | apply always_throwing; intros ?
    | apply always_await
    | apply always_sleep
    | apply always_call
    | apply always_Ret
    | apply always_Throw
    | apply always_Act
    | apply always_Await; intros ? ].

Ltac always_auto := repeat (always_step; auto).

Section Always.

Variable P : Action -> Prop.

Hypothesis P_setProgress0 : P (setProgress 0).
Hypothesis P_setProgress10 : P (setProgress 10).
Hypothesis P_setProgress25 : P (setProgress 25).
Hypothesis P_setProgress50 : P (setProgress 50).
Hypothesis P_setProgress100 : P (setProgress 100).
Hypothesis P_setIsLoading : forall b, P (setIsLoading b).
Hypothesis P_console_error : forall msg, P (console_error msg).
Hypothesis P_setTimeout : forall ms, P (setTimeout ms).
Hypothesis P_wait : forall h, P (waitForTransactionReceipt h).
Hypothesis P_refetchBalance : P refetchBalance.
Hypothesis P_refetchAllowance : P refetchAllowance.
Hypothesis P_setBalance : forall v, P (setBalance v).
Hypothesis P_approve : P (approve ERC20_ADDRESS BANK_CONTRACT_ADDRESS maxUint256).
Hypothesis P_deposit : forall v, P (deposit BANK_CONTRACT_ADDRESS v).
Hypothesis P_withdraw : forall v, P (withdraw BANK_CONTRACT_ADDRESS v).
Hypothesis P_clear : P (setAmount EmptyString).

Lemma always_handleGetBalance r : always P (handleGetBalance r).
Proof.
    unfold handleGetBalance. always_auto.
    destruct (bankBalance r) as [v|]; [|always_auto].
    destruct (truthy_bigint (Some v)); always_auto.
Qed.

Lemma always_waitForTransaction r h : always P (waitForTransaction r h).
Proof.
  unfold waitForTransaction. always_auto.
  destruct (publicClient r); always_auto.
Qed.

Lemma always_handleApprove r : always P (handleApprove r).
Proof.
  unfold handleApprove. rewrite BigInt_maxUint256.
  destruct (negb (truthy_string (amount r)) || negb (publicClient r));
    [always_auto|].
  apply always_bind; [always_auto | intros _].
  apply always_bind; [always_auto | intros _].
  apply always_try_catch; [simpl; always_auto | intros; always_auto].
Qed.

Lemma always_handleDeposit r skip : always P (handleDeposit r skip).
Proof.
  unfold handleDeposit.
  destruct (negb (truthy_string (amount r)) || negb (publicClient r));
    always_auto.
  destruct (approval_required r skip _); [apply always_handleApprove|].
  always_auto.
Qed.

Lemma always_handleWithdraw r : always P (handleWithdraw r).
Proof.
  unfold handleWithdraw.
  destruct (negb (truthy_string (amount r)) || negb (publicClient r));
    always_auto.
Qed.

Lemma always_approveEffect r : always P (approveEffect r).
Proof.
  unfold approveEffect. destruct (approveHash r) as [h|]; [|always_auto].
  destruct (approveSuccess r && truthy_hash (Some h)); [|always_auto].
  apply always_bind; [apply always_waitForTransaction | intros _].
  apply always_bind; [always_auto | intros _]. apply always_handleDeposit.
Qed.

Lemma always_depositEffect r : always P (depositEffect r).
Proof.
  unfold depositEffect. destruct (depositHash r) as [h|]; [|always_auto].
  destruct (depositSuccess r && truthy_hash (Some h)); [|always_auto].
  apply always_bind; [apply always_waitForTransaction | intros _].
  always_auto.
Qed.

Lemma always_withdrawEffect r : always P (withdrawEffect r).
Proof.
  unfold withdrawEffect. destruct (withdrawHash r) as [h|]; [|always_auto].
  destruct (withdrawSuccess r && truthy_hash (Some h)); [|always_auto].
  apply always_bind; [apply always_waitForTransaction | intros _].
  always_auto.
Qed.

Lemma always_connectEffect r : always P (connectEffect r).
Proof.
  unfold connectEffect.
  destruct (isConnected r && truthy_hash (address r));
    [apply always_handleGetBalance | always_auto].
Qed.

Lemma always_balanceEffect r : always P (balanceEffect r).
Proof.
  unfold balanceEffect. destruct (bankBalance r) as [v|]; [|always_auto].
  destruct (truthy_bigint (Some v)); always_auto.
Qed.

Lemma always_depositButton r : always P (depositButton r).
Proof.
  unfold depositButton. destruct (disabled r);
    [always_auto | apply always_handleDeposit].
Qed.

Lemma always_withdrawButton r : always P (withdrawButton r).
Proof.
  unfold withdrawButton. destruct (disabled r);
    [always_auto | apply always_handleWithdraw].
Qed.

End Always.
(** ** The calls of each handler and effect *)



Ltac by_always lem := apply lem; simpl; auto.

Lemma handleGetBalance_calls r :
  always handler_call (handleGetBalance r).
Proof. by_always always_handleGetBalance. Qed.

Lemma approveEffect_calls r : always handler_call (approveEffect r).
Proof. by_always always_approveEffect. Qed.

Lemma depositEffect_calls r : always handler_call (depositEffect r).
Proof. by_always always_depositEffect. Qed.

Lemma withdrawEffect_calls r : always handler_call (withdrawEffect r).
Proof. by_always always_withdrawEffect. Qed.

Lemma connectEffect_calls r :
  always handler_call (connectEffect r).
Proof. by_always always_connectEffect. Qed.

Lemma balanceEffect_calls r :
  always handler_call (balanceEffect r).
Proof. by_always always_balanceEffect. Qed.

Lemma depositButton_calls r : always handler_call (depositButton r).
Proof. by_always always_depositButton. Qed.

Lemma withdrawButton_calls r : always handler_call (withdrawButton r).
Proof. by_always always_withdrawButton. Qed.

Lemma handleDeposit_calls r skip : always handler_call (handleDeposit r skip).
Proof. by_always always_handleDeposit. Qed.

(** *** The synchronous part of each effect *)

Lemma waitForTransaction_start r h f :
  exists k,
    exec [] (waitForTransaction r h ;; f) =
    (if publicClient r then waiting h
     else [Did (setProgress 50); Did (setProgress 100); Did (setTimeout 500)],
     Suspended (if publicClient r then receipt h else timer 500) k).
Proof.
  unfold waitForTransaction. destruct (publicClient r); simpl;
    eexists; reflexivity.
Qed.

Lemma isApprovedEffect_run r :
  exec [] (isApprovedEffect r) =
  match allowance r with
  | Some al =>
      if truthy_string (amount r) then
        match parseUnits (amount r) 18 with
        | Some a => ([Did (setIsApproved (a <=? al))], Returned)
        | None => ([], Thrown "parseUnits")
        end
      else ([Did (setIsApproved (0 <? al))], Returned)
  | None => ([], Returned)
  end.
Proof.
  unfold isApprovedEffect. destruct (allowance r) as [al|]; [|reflexivity].
  destruct (truthy_string (amount r)); [|reflexivity].
  destruct (parseUnits (amount r) 18); reflexivity.
Qed.

Lemma balanceEffect_run r :
  exec [] (balanceEffect r) =
  (match bankBalance r with
   | Some v => if truthy_bigint (Some v)
               then [Did (setBalance (displayBalance v))] else []
   | None => []
   end, Returned).
Proof.
  unfold balanceEffect. destruct (bankBalance r) as [v|]; [|reflexivity].
  destruct (truthy_bigint (Some v)); reflexivity.
Qed.

Lemma handleGetBalance_start r :
  exists k, exec [] (handleGetBalance r) =
            ([Did refetchBalance], Suspended balance_read k).
Proof. unfold handleGetBalance. simpl. eexists; reflexivity. Qed.

Lemma effect_run_Ret : effect_run (Ret tt).
Proof. repeat split; constructor. Qed.

Lemma mutation_effect_run r h f :
  always handler_call (waitForTransaction r h ;; f) ->
  effect_run (waitForTransaction r h ;; f).
Proof.
  intros Ha. destruct (waitForTransaction_start r h f) as [k Hk].
  pose proof (always_exec handler_call _ [] Ha) as [_ Ht].
  unfold effect_run, trace, outcome. rewrite Hk in *. simpl in *.
  repeat split; auto.
  destruct (publicClient r); repeat constructor.
Qed.

Lemma approveEffect_run r : effect_run (approveEffect r).
Proof.
  pose proof (approveEffect_calls r) as Ha. unfold approveEffect in *.
  destruct (approveHash r) as [h|]; [|apply effect_run_Ret].
  destruct (approveSuccess r && truthy_hash (Some h));
    [|apply effect_run_Ret].
  apply mutation_effect_run. exact Ha.
Qed.

Lemma depositEffect_run r : effect_run (depositEffect r).
Proof.
  pose proof (depositEffect_calls r) as Ha. unfold depositEffect in *.
  destruct (depositHash r) as [h|]; [|apply effect_run_Ret].
  destruct (depositSuccess r && truthy_hash (Some h));
    [|apply effect_run_Ret].
  apply mutation_effect_run. exact Ha.
Qed.

Lemma withdrawEffect_run r : effect_run (withdrawEffect r).
Proof.
  pose proof (withdrawEffect_calls r) as Ha. unfold withdrawEffect in *.
  destruct (withdrawHash r) as [h|]; [|apply effect_run_Ret].
  destruct (withdrawSuccess r && truthy_hash (Some h));
    [|apply effect_run_Ret].
  apply mutation_effect_run. exact Ha.
Qed.

Lemma connectEffect_run r : effect_run (connectEffect r).
Proof.
  pose proof (connectEffect_calls r) as Ha. unfold connectEffect in *.
  destruct (isConnected r && truthy_hash (address r)).
  - destruct (handleGetBalance_start r) as [k Hk].
    pose proof (always_exec handler_call _ [] Ha) as [_ Ht].
    unfold effect_run, trace, outcome. rewrite Hk in *. simpl in *.
    repeat split; auto. repeat constructor.
  - repeat split; repeat constructor.
Qed.

Lemma balanceEffect_effect_run r : effect_run (balanceEffect r).
Proof.
  unfold effect_run, trace, outcome. rewrite balanceEffect_run. simpl.
  repeat split; auto.
  destruct (bankBalance r) as [v|]; [|constructor].
  destruct (negb (v =? 0)); repeat constructor.
Qed.

(** ** One commit *)



(** ** One commit *)

Lemma effects_trace_cons e es :
  effects_trace (e :: es) = fired_trace e ++ effects_trace es.
Proof.
  unfold effects_trace, fired_trace. simpl.
  destruct (fire e) as [[tr ts] c]. destruct (run_effects es) as [[tr' ts'] c'].
  reflexivity.
Qed.

Lemma effects_tasks_cons e es :
  effects_tasks (e :: es) = fired_tasks e ++ effects_tasks es.
Proof.
  unfold effects_tasks, fired_tasks. simpl.
  destruct (fire e) as [[tr ts] c]. destruct (run_effects es) as [[tr' ts'] c'].
  reflexivity.
Qed.

Lemma effects_crash_cons e es :
  effects_crash (e :: es) = fired_crash e || effects_crash es.
Proof.
  unfold effects_crash, fired_crash. simpl.
  destruct (fire e) as [[tr ts] c]. destruct (run_effects es) as [[tr' ts'] c'].
  reflexivity.
Qed.

Lemma fired_trace_spec b e :
  fired_trace (b, e) = if b then trace [] (body e) else [].
Proof.
  unfold fired_trace, fire, trace. simpl. destruct b; [|reflexivity].
  destruct (exec [] (body e)); reflexivity.
Qed.

Lemma fired_tasks_spec b e :
  fired_tasks (b, e) = if b then task_of (outcome [] (body e)) else [].
Proof.
  unfold fired_tasks, fire, outcome. simpl. destruct b; [|reflexivity].
  destruct (exec [] (body e)); reflexivity.
Qed.

Lemma fired_crash_spec b e :
  fired_crash (b, e) =
  if b then synchronous e && threw (outcome [] (body e)) else false.
Proof.
  unfold fired_crash, fire, outcome. simpl. destruct b; [|reflexivity].
  destruct (exec [] (body e)); reflexivity.
Qed.

Lemma Forall_append {A : Type} (P : A -> Prop) l1 l2 :
  Forall P l1 -> Forall P l2 -> Forall P (l1 ++ l2).
Proof. intros H1 H2. apply Forall_app. split; assumption. Qed.

Lemma Forall_if {A : Type} (P : A -> Prop) (b : bool) l :
  Forall P l -> Forall P (if b then l else []).
Proof. intros H. destruct b; [assumption | constructor]. Qed.


(** A commit's trace: quiet calls around the [isApproved] effect. *)
Lemma due_trace prev cur :
    exists before after_,
      effects_trace (due prev cur) =
      before ++ approval_trace prev cur ++ after_
      /\ Forall (calls effect_call) before
      /\ Forall (calls effect_call) after_.
Proof.
    unfold due, changed, effects. simpl combine.
    repeat rewrite effects_trace_cons. repeat rewrite fired_trace_spec.
    simpl body.
    eexists (_ ++ _), (_ ++ _ ++ _ ++ _). split.
    - rewrite <- app_assoc. unfold approval_trace. reflexivity.
    - split.
      + apply Forall_append; apply Forall_if.
        * apply connectEffect_run.
        * apply balanceEffect_effect_run.
      + repeat apply Forall_append; try apply Forall_if; try constructor.
        * apply approveEffect_run.
        * apply depositEffect_run.
        * apply withdrawEffect_run.
Qed.

Lemma due_tasks prev cur : Forall good_task (effects_tasks (due prev cur)).
Proof.
  unfold due, changed, effects. simpl combine.
  repeat rewrite effects_tasks_cons. repeat rewrite fired_tasks_spec.
  simpl body.
  repeat apply Forall_append; try apply Forall_if; try constructor.
  - apply connectEffect_run.
  - apply balanceEffect_effect_run.
  - unfold outcome. rewrite isApprovedEffect_run.
    destruct (allowance cur); [|constructor].
    destruct (truthy_string (amount cur)); [|constructor].
    destruct (parseUnits (amount cur) 18); constructor.
  - apply approveEffect_run.
  - apply depositEffect_run.
  - apply withdrawEffect_run.
Qed.

(** A commit only crashes in the [isApproved] effect. *)
Lemma due_crash prev cur :
  effects_crash (due prev cur) =
  negb (same_bigint (allowance prev) (allowance cur)
        && String.eqb (amount prev) (amount cur))
  && threw (outcome [] (isApprovedEffect cur)).
Proof.
  unfold due, changed, effects. simpl combine.
  repeat rewrite effects_crash_cons. repeat rewrite fired_crash_spec.
  simpl body. simpl synchronous.
  pose proof (balanceEffect_effect_run cur) as [_ [_ Hb]].
  rewrite Hb. simpl.
  repeat match goal with
         | |- context [if ?b then false else false] =>
             replace (if b then false else false) with false
               by (destruct b; reflexivity)
         end.
  unfold effects_crash. simpl.
  repeat rewrite orb_false_r. reflexivity.
Qed.

Lemma turn_mounted m remaining hooked announce p :
  mounted m = true ->
  turn m remaining hooked announce p =
  let s1 := after (trace [] p) hooked in
  mkMachine (after (effects_trace (due (view m) s1)) s1)
    (negb (effects_crash (due (view m) s1)))
    (remaining ++ task_of (outcome [] p) ++ effects_tasks (due (view m) s1))
    (history m ++ announce ++ trace [] p ++ effects_trace (due (view m) s1)).
Proof.
  intros Hm. unfold turn, trace, outcome. rewrite Hm.
  destruct (exec [] p) as [tr1 out1]. cbn [fst snd].
  unfold effects_trace, effects_tasks, effects_crash.
  destruct (run_effects (due (view m) (after tr1 hooked))) as [[tr2 ts2] c].
  reflexivity.
Qed.

Lemma turn_unmounted m remaining hooked announce p :
  mounted m = false ->
  turn m remaining hooked announce p =
  mkMachine (view m) false (remaining ++ task_of (outcome [] p))
    (history m ++ announce ++ trace [] p).
Proof.
  intros Hm. unfold turn, trace, outcome. rewrite Hm.
  destruct (exec [] p) as [tr1 out1]. reflexivity.
Qed.

(** ** Invariants of the transition system *)

Lemma after_keeps {A : Type} (f : State -> A) (P : Action -> Prop) :
  (forall a s, P a -> f (write s a) = f s) ->
  forall tr s, Forall (calls P) tr -> f (after tr s) = f s.
Proof.
  intros Hw tr. induction tr as [|e tr IH]; intros s H; [reflexivity|].
  inversion H; subst. unfold after in *. simpl. rewrite IH by assumption.
  destruct e as [a|]; simpl in *; auto.
Qed.

Lemma calls_weaken (P Q : Action -> Prop) tr :
  (forall a, P a -> Q a) -> Forall (calls P) tr -> Forall (calls Q) tr.
Proof.
  intros H. apply Forall_impl. intros [a|]; simpl; auto.
Qed.

(** No call changes what the hooks report about the account, the client
    and the two reads. *)
Lemma after_allowance tr s : allowance (after tr s) = allowance s.
Proof.
  apply (after_keeps allowance (fun _ => True)).
  - intros [] ? _; reflexivity.
  - apply Forall_forall. intros [a|] _; exact I.
Qed.

Lemma after_bankBalance tr s : bankBalance (after tr s) = bankBalance s.
Proof.
  apply (after_keeps bankBalance (fun _ => True)).
  - intros [] ? _; reflexivity.
  - apply Forall_forall. intros [a|] _; exact I.
Qed.

Lemma after_publicClient tr s : publicClient (after tr s) = publicClient s.
Proof.
  apply (after_keeps publicClient (fun _ => True)).
  - intros [] ? _; reflexivity.
  - apply Forall_forall. intros [a|] _; exact I.
Qed.

Lemma handler_keeps_isApproved tr s :
  Forall (calls handler_call) tr -> isApproved (after tr s) = isApproved s.
Proof.
  apply after_keeps. intros [] ? H; simpl in *; try reflexivity. contradiction.
Qed.

Lemma effect_keeps_isApproved tr s :
  Forall (calls effect_call) tr -> isApproved (after tr s) = isApproved s.
Proof.
  apply after_keeps. intros [] ? H; simpl in *; try reflexivity; contradiction.
Qed.

Lemma effect_keeps_amount tr s :
  Forall (calls effect_call) tr -> amount (after tr s) = amount s.
Proof.
  apply after_keeps. intros [] ? H; simpl in *; try reflexivity; contradiction.
Qed.

Lemma effect_keeps_isLoading tr s :
  Forall (calls effect_call) tr -> isLoading (after tr s) = isLoading s.
Proof.
  apply after_keeps. intros [] ? H; simpl in *; try reflexivity; contradiction.
Qed.

Lemma effect_call_component a : effect_call a -> component_call a.
Proof. destruct a; simpl; tauto. Qed.

Lemma handler_call_component a : handler_call a -> component_call a.
Proof. destruct a; simpl; tauto. Qed.

Lemma isApprovedEffect_component r :
  Forall (calls component_call) (trace [] (isApprovedEffect r)).
Proof.
  unfold trace. rewrite isApprovedEffect_run.
  destruct (allowance r); [|constructor].
  destruct (truthy_string (amount r)); [|repeat constructor].
  destruct (parseUnits (amount r) 18); repeat constructor.
Qed.

Lemma due_component prev cur :
  Forall (calls component_call) (effects_trace (due prev cur)).
Proof.
  destruct (due_trace prev cur) as [b [a [E [Hb Ha]]]]. rewrite E.
  repeat apply Forall_append.
  - apply (calls_weaken effect_call); auto using effect_call_component.
  - unfold approval_trace. apply Forall_if. apply isApprovedEffect_component.
  - apply (calls_weaken effect_call); auto using effect_call_component.
Qed.

Lemma Forall_remove_nth {A : Type} (P : A -> Prop) l : forall n,
  Forall P l -> Forall P (remove_nth n l).
Proof.
  induction l as [|x l IH]; intros [|n] H; simpl; auto;
    inversion H; subst; auto.
Qed.

Lemma turn_well_formed m remaining hooked announce p :
  well_formed m ->
  Forall good_task remaining ->
  Forall (calls component_call) announce ->
  always handler_call p ->
  well_formed (turn m remaining hooked announce p).
Proof.
  intros [Ht Hh] Hr Ha Hp.
  destruct (always_exec handler_call p [] Hp) as [Htr Hts].
  fold (trace [] p) in Htr. fold (outcome [] p) in Hts.
  apply (calls_weaken _ component_call) in Htr;
    [|exact handler_call_component].
  destruct (mounted m) eqn:Hm.
  - rewrite turn_mounted by assumption. split; simpl.
    + repeat apply Forall_append; auto. apply due_tasks.
    + repeat apply Forall_append; auto. apply due_component.
  - rewrite turn_unmounted by assumption. split; simpl.
    + repeat apply Forall_append; auto.
    + repeat apply Forall_append; auto.
Qed.

Lemma typing_well_formed m v :
  well_formed m ->
  well_formed (turn m (tasks m) (view m) [] (call (setAmount v))).
Proof.
  intros [Ht Hh]. destruct (mounted m) eqn:Hm.
  - rewrite turn_mounted by assumption. split; simpl.
    + apply Forall_append; auto. apply due_tasks.
    + apply Forall_append; auto. apply Forall_cons; [exact I|].
      apply due_component.
  - rewrite turn_unmounted by assumption. split; simpl.
    + rewrite app_nil_r. assumption.
    + apply Forall_append; auto. repeat constructor.
Qed.

Lemma step_well_formed m i : well_formed m -> well_formed (step m i).
Proof.
  intros H. pose proof H as [Ht Hh].
  destruct i as [v| | |c a|c|d|d|h res|n o]; simpl;
    try (destruct (mounted m) eqn:Hm; [|assumption]).
  - apply typing_well_formed; assumption.
  - apply turn_well_formed; auto. apply depositButton_calls.
  - apply turn_well_formed; auto. apply withdrawButton_calls.
  - apply turn_well_formed; auto. constructor.
  - apply turn_well_formed; auto. constructor.
  - apply turn_well_formed; auto. constructor.
  - apply turn_well_formed; auto. constructor.
  - apply turn_well_formed; auto. constructor.
  - destruct (nth_error (tasks m) n) as [t|] eqn:E; [|assumption].
    apply turn_well_formed; auto.
    + apply Forall_remove_nth; assumption.
    + repeat constructor.
    + apply nth_error_In in E. rewrite Forall_forall in Ht.
      apply (Ht t E).
Qed.

Lemma mount_well_formed c : well_formed (mount c).
Proof.
  destruct c; unfold mount, effects, initial; simpl; split; repeat constructor.
Qed.

Lemma run_well_formed inputs : forall m,
  well_formed m -> well_formed (run m inputs).
Proof.
  induction inputs as [|i inputs IH]; intros m H; simpl; auto.
  apply IH. apply step_well_formed. assumption.
Qed.

(** ** The [isApproved] flag follows the allowance and the amount *)

Lemma same_bigint_eq a b : same_bigint a b = true -> a = b.
Proof.
  destruct a, b; simpl; intros H; try discriminate; auto.
  apply Z.eqb_eq in H. congruence.
Qed.

Lemma hooks_isApproved s i : isApproved (hooks s i) = isApproved s.
Proof.
  destruct i as [| | | | | | |h res|]; simpl; try reflexivity.
  destruct h, (depositM s), (withdrawM s), (approveM s); reflexivity.
Qed.

Lemma hooks_amount s i : amount (hooks s i) = amount s.
Proof.
  destruct i as [| | | | | | |h res|]; simpl; try reflexivity.
  destruct h, (depositM s), (withdrawM s), (approveM s); reflexivity.
Qed.

Lemma hooks_isLoading s i : isLoading (hooks s i) = isLoading s.
Proof.
  destruct i as [| | | | | | |h res|]; simpl; try reflexivity.
  destruct h, (depositM s), (withdrawM s), (approveM s); reflexivity.
Qed.


Lemma approval_trace_keeps_amount prev cur s :
  amount (after (approval_trace prev cur) s) = amount s.
Proof.
  unfold approval_trace, trace. rewrite isApprovedEffect_run.
  destruct (negb _); [|reflexivity].
  destruct (allowance cur); [|reflexivity].
  destruct (truthy_string (amount cur)); [|reflexivity].
  destruct (parseUnits (amount cur) 18); reflexivity.
Qed.

(** The render a commit ends in, field by field. *)
Lemma commit_amount prev cur :
  amount (after (effects_trace (due prev cur)) cur) = amount cur.
Proof.
  destruct (due_trace prev cur) as [b [a [E [Hb Ha]]]]. rewrite E.
  repeat rewrite after_app.
  rewrite (effect_keeps_amount a) by assumption.
  rewrite approval_trace_keeps_amount. apply effect_keeps_amount; assumption.
Qed.

Lemma approval_trace_isApproved prev cur s s' :
  isApproved s = isApproved s' ->
  isApproved (after (approval_trace prev cur) s) =
  isApproved (after (approval_trace prev cur) s').
Proof.
  intros H. unfold approval_trace, trace. rewrite isApprovedEffect_run.
  destruct (negb _); [|exact H].
  destruct (allowance cur); [|exact H].
  destruct (truthy_string (amount cur)); [|reflexivity].
  destruct (parseUnits (amount cur) 18); [reflexivity | exact H].
Qed.

Lemma commit_isApproved prev cur :
  isApproved (after (effects_trace (due prev cur)) cur) =
  isApproved (after (approval_trace prev cur) cur).
Proof.
  destruct (due_trace prev cur) as [b [a [E [Hb Ha]]]]. rewrite E.
  repeat rewrite after_app.
  rewrite (effect_keeps_isApproved a) by assumption.
  apply approval_trace_isApproved. apply effect_keeps_isApproved; assumption.
Qed.

Lemma commit_in_sync prev cur :
  isApproved cur = isApproved prev ->
  in_sync prev ->
  effects_crash (due prev cur) = false ->
  in_sync (after (effects_trace (due prev cur)) cur).
Proof.
  intros Hi Hs Hc. unfold in_sync.
  rewrite after_allowance, commit_amount, commit_isApproved.
  rewrite due_crash in Hc. unfold approval_trace, trace, outcome in *.
  rewrite isApprovedEffect_run in *.
  destruct (same_bigint (allowance prev) (allowance cur)
            && String.eqb (amount prev) (amount cur)) eqn:Same; simpl in *.
  - apply andb_prop in Same. destruct Same as [Ha Hm].
    apply same_bigint_eq in Ha. apply String.eqb_eq in Hm.
    unfold in_sync in Hs. rewrite Ha, Hm in Hs. rewrite Hi. exact Hs.
  - destruct (allowance cur) as [h|]; [|exact I].
    destruct (truthy_string (amount cur)); [|reflexivity].
    destruct (parseUnits (amount cur) 18) as [a|]; [|discriminate].
    exists a. split; reflexivity.
Qed.


Lemma handler_spares p : always handler_call p -> spares_isApproved p.
Proof.
  intros H s. apply handler_keeps_isApproved.
  apply (always_exec handler_call p [] H).
Qed.

Lemma typing_spares v : spares_isApproved (call (setAmount v)).
Proof. intros s. reflexivity. Qed.

Lemma turn_in_sync m remaining hooked announce p :
  spares_isApproved p ->
  isApproved hooked = isApproved (view m) ->
  (mounted m = true -> in_sync (view m)) ->
  mounted (turn m remaining hooked announce p) = true ->
  in_sync (view (turn m remaining hooked announce p)).
Proof.
  intros Hp Hh Hs. destruct (mounted m) eqn:Hm.
  - rewrite turn_mounted by assumption. simpl. intros Hc.
    apply negb_true_iff in Hc.
    apply commit_in_sync; auto. rewrite Hp. assumption.
  - rewrite turn_unmounted by assumption. simpl. discriminate.
Qed.


Lemma task_spares m n t o :
  well_formed m -> nth_error (tasks m) n = Some t ->
  spares_isApproved (resume t o).
Proof.
  intros [Ht _] E. apply handler_spares.
  apply nth_error_In in E. rewrite Forall_forall in Ht. apply (Ht t E).
Qed.

Lemma input_spares m i :
  well_formed m ->
  match i with
  | settled n o =>
      forall t, nth_error (tasks m) n = Some t -> spares_isApproved (resume t o)
  | onChange v => spares_isApproved (call (setAmount v))
  | clickDeposit => spares_isApproved (depositButton (view m))
  | clickWithdraw => spares_isApproved (withdrawButton (view m))
  | _ => spares_isApproved (Ret tt)
  end.
Proof.
  intros Hw.
  destruct i as [v| | |c a|c|d|d|h res|n o];
    try solve [apply handler_spares; constructor].
  - apply typing_spares.
  - apply handler_spares, depositButton_calls.
  - apply handler_spares, withdrawButton_calls.
  - intros t E. apply (task_spares m n t o Hw E).
Qed.

Lemma step_in_sync m i :
  well_formed m ->
  (mounted m = true -> in_sync (view m)) ->
  mounted (step m i) = true -> in_sync (view (step m i)).
Proof.
  intros Hw Hs. pose proof (input_spares m i Hw) as Hp.
  pose proof (hooks_isApproved (view m) i) as Hh.
  destruct i as [v| | |c a|c|d|d|h res|n o]; simpl;
    try (destruct (mounted m) eqn:Hm; [|intros H; simpl in H; congruence];
         apply turn_in_sync; auto).
  destruct (nth_error (tasks m) n) as [t|] eqn:E; [|exact Hs].
  apply turn_in_sync; auto.
Qed.


Lemma run_in_sync inputs : forall m,
  well_formed m ->
  (mounted m = true -> in_sync (view m)) ->
  mounted (run m inputs) = true -> in_sync (view (run m inputs)).
Proof.
  induction inputs as [|i inputs IH]; intros m Hw Hs; simpl; auto.
  apply IH; [apply step_well_formed; assumption|].
  apply step_in_sync; assumption.
Qed.


(** ** A confirmation wait and its continuation *)

Section Wait.

Variable r : State.
Variable h : string.
Variable cb : Prog unit.
Hypothesis client : publicClient r = true.

Lemma wait_pending :
  exists k, exec [] (waitForTransaction r h ;; cb) =
            (waiting h, Suspended (receipt h) k).
Proof.
  unfold waitForTransaction. rewrite client. simpl. eexists; reflexivity.
Qed.

Lemma wait_rejected replies :
  exec (Rejected :: replies) (waitForTransaction r h ;; cb) =
  (waiting h ++ failed h, Thrown "rejected").
Proof. unfold waitForTransaction. rewrite client. reflexivity. Qed.

Lemma wait_sleeping :
  exists k, exec [Fulfilled] (waitForTransaction r h ;; cb) =
            (waiting h ++ confirmed h, Suspended (timer 500) k).
Proof.
  unfold waitForTransaction. rewrite client. simpl. eexists; reflexivity.
Qed.

Lemma wait_confirmed o replies :
  exec (Fulfilled :: o :: replies) (waitForTransaction r h ;; cb) =
  (waiting h ++ confirmed h ++ Settle (timer 500) o :: cleared
     ++ trace replies cb,
   outcome replies cb).
Proof.
  unfold waitForTransaction, trace, outcome. rewrite client. simpl.
  destruct (exec replies cb). reflexivity.
Qed.

End Wait.

(** Without a public client the wait is skipped ([publicClient?.]) and the
    continuation, when it is [handleDeposit], returns at its guard. *)
Lemma wait_clientless r h cb :
  publicClient r = false ->
  (exists k, exec [] (waitForTransaction r h ;; cb) =
             ([Did (setProgress 50); Did (setProgress 100);
               Did (setTimeout 500)], Suspended (timer 500) k))
  /\ forall o replies,
       exec (o :: replies) (waitForTransaction r h ;; cb) =
       ([Did (setProgress 50); Did (setProgress 100); Did (setTimeout 500)]
          ++ Settle (timer 500) o :: cleared ++ trace replies cb,
        outcome replies cb).
Proof.
  intros Hc. unfold waitForTransaction, trace, outcome. rewrite Hc. simpl.
  split; [eexists; reflexivity|]. intros o replies.
  destruct (exec replies cb). reflexivity.
Qed.

Lemma handleDeposit_clientless r skip replies :
  publicClient r = false -> exec replies (handleDeposit r skip) = ([], Returned).
Proof.
  intros Hc. unfold handleDeposit. rewrite Hc, orb_true_r. reflexivity.
Qed.

(** The guard of a mutation effect. *)
Lemma approveEffect_guard r :
  (exists h, approveM r = success h /\ truthy_string h = true
             /\ approveEffect r =
                (waitForTransaction r h ;; call refetchAllowance ;;
                 handleDeposit r true))
  \/ (approveEffect r = Ret tt /\ truthy_hash (data (approveM r)) = false).
Proof.
  unfold approveEffect, approveHash, approveSuccess.
  destruct (approveM r) as [| |h|]; simpl; auto.
  destruct (truthy_string h) eqn:Ht; auto. left. exists h. auto.
Qed.

Lemma withdrawEffect_guard r :
  (exists h, withdrawM r = success h /\ truthy_string h = true
             /\ withdrawEffect r =
                (waitForTransaction r h ;; call refetchBalance ;;
                 call (setAmount EmptyString)))
  \/ (withdrawEffect r = Ret tt /\ truthy_hash (data (withdrawM r)) = false).
Proof.
  unfold withdrawEffect, withdrawHash, withdrawSuccess.
  destruct (withdrawM r) as [| |h|]; simpl; auto.
  destruct (truthy_string h) eqn:Ht; auto. left. exists h. auto.
Qed.

Lemma depositEffect_guard r :
  (exists h, depositM r = success h /\ truthy_string h = true
             /\ depositEffect r =
                (waitForTransaction r h ;; call refetchBalance ;;
                 call (setAmount EmptyString)))
  \/ (depositEffect r = Ret tt /\ truthy_hash (data (depositM r)) = false).
Proof.
  unfold depositEffect, depositHash, depositSuccess.
  destruct (depositM r) as [| |h|]; simpl; auto.
  destruct (truthy_string h) eqn:Ht; auto. left. exists h. auto.
Qed.

(** The continuation of a confirmed approval. *)
Lemma approve_callback r replies :
  exec replies (call refetchAllowance ;; handleDeposit r true) =
  (Did refetchAllowance :: trace [] (handleDeposit r true),
   outcome [] (handleDeposit r true)).
Proof.
  unfold trace, outcome. simpl. rewrite handleDeposit_replies.
  destruct (exec [] (handleDeposit r true)). reflexivity.
Qed.

(** ** Order of events in a trace *)

Lemma deposits_wait_spec mark tr :
  deposits_wait mark tr = true ->
  forall pre post c v,
    tr = pre ++ Did (deposit c v) :: post ->
    exists e, In e pre /\ mark e = true.
Proof.
  induction tr as [|e tr IH]; intros H pre post c v E.
  - destruct pre; discriminate.
  - simpl in H. destruct pre as [|e' pre]; simpl in E; inversion E; subst.
    + simpl in H. discriminate.
    + destruct (is_deposit e'); [discriminate|].
      destruct (mark e') eqn:M.
      * exists e'. split; [left; reflexivity | assumption].
      * destruct (IH H pre post c v eq_refl) as [e [Hin Hm]].
        exists e. split; [right; assumption | assumption].
Qed.

(** ** Chains and the tasks they leave *)

Lemma closing_callback r :
  callback (call refetchAllowance ;; handleDeposit r true)
  /\ callback (call refetchBalance ;; call (setAmount EmptyString)).
Proof.
  split.
  - unfold callback, trace, outcome. rewrite approve_callback.
    unfold trace, outcome.
    destruct (handleDeposit_cases r true)
      as [E | [[_ [F _]] | [[a [_ [_ E]]] | E]]];
      try discriminate; rewrite E; simpl; (split; [reflexivity|]).
    + left. repeat constructor.
    + right. exists a. reflexivity.
    + left. repeat constructor.
  - split; [reflexivity|]. left. repeat constructor.
Qed.

(** The task of a chain started with a public client: it waits for the
    receipt. *)
Lemma wait_task r h cb :
  publicClient r = true -> callback cb ->
  exists k, exec [] (waitForTransaction r h ;; cb) =
            (waiting h, Suspended (receipt h) k)
            /\ receiving k.
Proof.
  intros Hc [Ho Ht]. unfold waitForTransaction. rewrite Hc. simpl.
  eexists. split; [reflexivity|]. unfold receiving. simpl.
  split; [reflexivity|]. eexists. split; [reflexivity|].
  intros o. unfold trace, outcome in *. simpl.
  destruct (exec [] cb) as [tail out]. simpl in *.
  split; [assumption|]. exists tail. split; [reflexivity | assumption].
Qed.

(** Without a public client the chain goes straight to its pause. *)
Lemma wait_task_clientless r h cb :
  publicClient r = false -> callback cb ->
  exists k, exec [] (waitForTransaction r h ;; cb) =
            ([Did (setProgress 50); Did (setProgress 100);
              Did (setTimeout 500)], Suspended (timer 500) k)
            /\ sleeping k.
Proof.
  intros Hc [Ho Ht]. unfold waitForTransaction. rewrite Hc. simpl.
  eexists. split; [reflexivity|].
  intros o. unfold trace, outcome in *. simpl.
  destruct (exec [] cb) as [tail out]. simpl in *.
  split; [assumption|]. exists tail. split; [reflexivity | assumption].
Qed.

Lemma chain_task r h cb :
  callback cb ->
  exists t, task_of (outcome [] (waitForTransaction r h ;; cb)) = [t]
            /\ lane_task t /\ is_lane t = true
            /\ (publicClient r = true -> awaited t = receipt h).
Proof.
  intros Hcb. unfold outcome. destruct (publicClient r) eqn:Hc.
  - destruct (wait_task r h cb Hc Hcb) as [k [E Hk]]. rewrite E. simpl.
    eexists. split; [reflexivity|]. split; [|split; [reflexivity | reflexivity]].
    right. exists h. split; [reflexivity | exact Hk].
  - destruct (wait_task_clientless r h cb Hc Hcb) as [k [E Hk]]. rewrite E.
    simpl. eexists. split; [reflexivity|].
    split; [|split; [reflexivity | discriminate]].
    left. split; [reflexivity | exact Hk].
Qed.

Lemma handleGetBalance_task r :
  exists t, task_of (outcome [] (handleGetBalance r)) = [t]
            /\ balance_task t /\ is_lane t = false.
Proof.
  unfold handleGetBalance, outcome. simpl. eexists.
  split; [reflexivity|]. split; [|reflexivity]. split; [reflexivity|].
  intros o. unfold trace, outcome. simpl.
  destruct o; simpl.
  - destruct (bankBalance r) as [v|]; simpl;
      [destruct (negb (v =? 0)); simpl|]; split; repeat constructor.
  - split; repeat constructor.
Qed.

(** ** The tasks of a commit *)

Lemma lanes_app ts1 ts2 : lanes (ts1 ++ ts2) = (lanes ts1 + lanes ts2)%nat.
Proof. unfold lanes. rewrite filter_app, length_app. reflexivity. Qed.

Lemma lanes_remove ts : forall n t,
  nth_error ts n = Some t ->
  lanes ts = ((if is_lane t then 1 else 0) + lanes (remove_nth n ts))%nat.
Proof.
  induction ts as [|x ts IH]; intros [|n] t E; simpl in *; try discriminate.
  - inversion E; subst. unfold lanes. simpl. destruct (is_lane t); reflexivity.
  - change (x :: ts) with ([x] ++ ts).
    change (x :: remove_nth n ts) with ([x] ++ remove_nth n ts).
    rewrite !lanes_app, (IH n t E). lia.
Qed.

Section Chain.

Variable mutation : State -> Mutation.
Variable effect : State -> Prog unit.
Variable cb : State -> Prog unit.

Hypothesis guard : forall r,
  (exists h, mutation r = success h /\ truthy_string h = true
             /\ effect r = (waitForTransaction r h ;; cb r))
  \/ (effect r = Ret tt /\ truthy_hash (data (mutation r)) = false).
Hypothesis closes : forall r, callback (cb r).

(** The effect of a mutation hook leaves a task exactly when it fires;
    with a public client the task waits for the receipt of the hook's
    hash. *)
Lemma chain_fires prev cur :
  let ts := fired_tasks (negb (same_mutation (mutation prev) (mutation cur)),
                         mkEffect false (effect cur)) in
  Forall lane_task ts
  /\ lanes ts = (if fires (mutation prev) (mutation cur) then 1 else 0)%nat
  /\ (publicClient cur = true ->
      Forall (fun t => exists h, mutation cur = success h
                                 /\ awaited t = receipt h
                                 /\ receiving (resume t)
                                 /\ fires (mutation prev) (mutation cur) = true)
             ts).
Proof.
  cbv zeta. rewrite fired_tasks_spec. unfold fires. simpl body.
  destruct (negb (same_mutation (mutation prev) (mutation cur))); simpl;
    [|split; [constructor|]; split; [reflexivity|]; intros _; constructor].
  destruct (guard cur) as [[h [Hm [Ht E]]] | [E Hg]]; rewrite E.
  - destruct (chain_task cur h (cb cur) (closes cur)) as [t [Ets [Hl [Hi Hc]]]].
    rewrite Ets, Hm. simpl. rewrite Ht.
    split; [constructor; [assumption | constructor]|].
    split; [unfold lanes; simpl; rewrite Hi; reflexivity|].
    intros Hp. constructor; [|constructor]. exists h.
    split; [reflexivity|]. split; [auto|]. split; [|reflexivity].
    destruct Hl as [[Ha _] | [h' [_ Hr]]]; [|exact Hr].
    rewrite (Hc Hp) in Ha. discriminate.
  - rewrite Hg. simpl. split; [constructor|]. split; [reflexivity|].
    intros _. constructor.
Qed.

End Chain.

Lemma connect_fires flag cur :
  let ts := fired_tasks (flag, mkEffect false (connectEffect cur)) in
  Forall balance_task ts /\ lanes ts = 0%nat.
Proof.
  cbv zeta. rewrite fired_tasks_spec. simpl body.
  destruct flag; [|split; [constructor | reflexivity]].
  unfold connectEffect.
  destruct (isConnected cur && truthy_hash (address cur)).
  - destruct (handleGetBalance_task cur) as [t [E [Hb Hi]]]. rewrite E.
    split; [constructor; [assumption | constructor]|].
    unfold lanes. simpl. rewrite Hi. reflexivity.
  - split; [constructor | reflexivity].
Qed.

Lemma synchronous_fires flag cur :
  fired_tasks (flag, mkEffect true (balanceEffect cur)) = []
  /\ fired_tasks (flag, mkEffect true (isApprovedEffect cur)) = [].
Proof.
  rewrite !fired_tasks_spec. simpl body. unfold outcome.
  rewrite balanceEffect_run, isApprovedEffect_run.
  destruct flag; split; try reflexivity.
  destruct (allowance cur); [|reflexivity].
  destruct (truthy_string (amount cur)); [|reflexivity].
  destruct (parseUnits (amount cur) 18); reflexivity.
Qed.

(** The tasks a commit adds. *)
Lemma due_tasks_spec prev cur :
  Forall known_task (effects_tasks (due prev cur))
  /\ lanes (effects_tasks (due prev cur)) =
     ((if fires (approveM prev) (approveM cur) then 1 else 0)
      + (if fires (depositM prev) (depositM cur) then 1 else 0)
      + (if fires (withdrawM prev) (withdrawM cur) then 1 else 0))%nat
  /\ (publicClient cur = true ->
      Forall (fun t =>
                is_lane t = true ->
                exists h,
                  awaited t = receipt h /\ receiving (resume t)
                  /\ ((approveM cur = success h
                       /\ fires (approveM prev) (approveM cur) = true)
                      \/ (depositM cur = success h
                          /\ fires (depositM prev) (depositM cur) = true)
                      \/ (withdrawM cur = success h
                          /\ fires (withdrawM prev) (withdrawM cur) = true)))
             (effects_tasks (due prev cur))).
Proof.
  unfold due, changed, effects. simpl combine.
  repeat rewrite effects_tasks_cons.
  destruct (synchronous_fires
              (negb (same_bigint (bankBalance prev) (bankBalance cur))) cur)
    as [Eb _].
  destruct (synchronous_fires
              (negb (same_bigint (allowance prev) (allowance cur)
                     && String.eqb (amount prev) (amount cur))) cur)
    as [_ Ei].
  rewrite Eb, Ei. simpl app.
  destruct (connect_fires
              (negb (Bool.eqb (isConnected prev) (isConnected cur)
                     && same_string (address prev) (address cur))) cur)
    as [Hc1 Hc2].
  destruct (chain_fires approveM approveEffect
              (fun r => call refetchAllowance ;; handleDeposit r true)
              approveEffect_guard (fun r => proj1 (closing_callback r))
              prev cur) as [Ha1 [Ha2 Ha3]].
  destruct (chain_fires depositM depositEffect
              (fun r => call refetchBalance ;; call (setAmount EmptyString))
              depositEffect_guard (fun r => proj2 (closing_callback r))
              prev cur) as [Hd1 [Hd2 Hd3]].
  destruct (chain_fires withdrawM withdrawEffect
              (fun r => call refetchBalance ;; call (setAmount EmptyString))
              withdrawEffect_guard (fun r => proj2 (closing_callback r))
              prev cur) as [Hw1 [Hw2 Hw3]].
  cbv zeta in *. split; [|split].
  - repeat apply Forall_append.
    + revert Hc1. apply Forall_impl. intros t H. left. exact H.
    + revert Ha1. apply Forall_impl. intros t H. right. exact H.
    + revert Hd1. apply Forall_impl. intros t H. right. exact H.
    + revert Hw1. apply Forall_impl. intros t H. right. exact H.
    + constructor.
  - rewrite !lanes_app, Hc2, Ha2, Hd2, Hw2.
    change (lanes (effects_tasks [])) with 0%nat. lia.
  - intros Hp. repeat apply Forall_append.
    + revert Hc1. apply Forall_impl. intros t [Hb _] Hl.
      unfold is_lane in Hl. rewrite Hb in Hl. discriminate.
    + generalize (Ha3 Hp). apply Forall_impl.
      intros t [h [Hm [Hr [Hk Hf]]]] _. exists h. auto.
    + generalize (Hd3 Hp). apply Forall_impl.
      intros t [h [Hm [Hr [Hk Hf]]]] _. exists h. auto 6.
    + generalize (Hw3 Hp). apply Forall_impl.
      intros t [h [Hm [Hr [Hk Hf]]]] _. exists h. auto 6.
    + constructor.
Qed.

(** ** What a run does to the lane *)

Lemma neutral_quiet tr : Forall (calls lane_neutral) tr -> summarises quiet tr.
Proof.
  intros H s. split.
  - apply (after_keeps isLoading lane_neutral); [|assumption].
    intros [] ? Hn; simpl in *; try reflexivity; contradiction.
  - intros h.
    apply (after_keeps (mutation_of h) lane_neutral); [|assumption].
    intros [] ? Hn; destruct h; simpl in *; try reflexivity; contradiction.
Qed.

Lemma commit_call_neutral a : commit_call a -> lane_neutral a.
Proof. destruct a; simpl; tauto. Qed.

Lemma balance_call_neutral a : balance_call a -> lane_neutral a.
Proof. destruct a; simpl; tauto. Qed.

Lemma due_commit_calls prev cur :
  Forall (calls commit_call) (effects_trace (due prev cur)).
Proof.
  destruct (due_trace prev cur) as [b [a [E [Hb Ha]]]]. rewrite E.
  assert (W : forall x, effect_call x -> commit_call x)
    by (intros []; simpl; tauto).
  repeat apply Forall_append.
  - apply (calls_weaken effect_call); auto.
  - unfold approval_trace, trace. rewrite isApprovedEffect_run.
    apply Forall_if. destruct (allowance cur); [|constructor].
    destruct (truthy_string (amount cur)); [|repeat constructor].
    destruct (parseUnits (amount cur) 18); repeat constructor.
  - apply (calls_weaken effect_call); auto.
Qed.

Lemma commit_quiet prev cur : summarises quiet (effects_trace (due prev cur)).
Proof.
  apply neutral_quiet.
  apply (calls_weaken commit_call); [exact commit_call_neutral|].
  apply due_commit_calls.
Qed.

Lemma pendings_mutations s s' :
  (forall h, mutation_of h s' = mutation_of h s) -> pendings s' = pendings s.
Proof.
  intros H. unfold pendings.
  rewrite (H approve_hook : approveM s' = approveM s),
    (H deposit_hook : depositM s' = depositM s),
    (H withdraw_hook : withdrawM s' = withdrawM s). reflexivity.
Qed.

Lemma fires_count_mutations prev s s' :
  (forall h, mutation_of h s' = mutation_of h s) ->
  fires_count prev s' = fires_count prev s.
Proof.
  intros H. unfold fires_count.
  rewrite (H approve_hook : approveM s' = approveM s),
    (H deposit_hook : depositM s' = depositM s),
    (H withdraw_hook : withdrawM s' = withdrawM s). reflexivity.
Qed.

Lemma fires_same m : fires m m = false.
Proof. unfold fires. rewrite same_mutation_refl. reflexivity. Qed.

Lemma fires_pending m : fires m pending = false.
Proof. unfold fires. simpl. apply andb_false_r. Qed.

Lemma fires_count_same s : fires_count s s = 0%nat.
Proof. unfold fires_count. rewrite !fires_same. reflexivity. Qed.

(** A turn keeps the lane discipline when the tasks it leaves and the
    submissions it makes add up. *)
Lemma turn_one_lane m remaining hooked announce p :
  Forall known_task remaining ->
  Forall known_task (task_of (outcome [] p)) ->
  (mounted m = true ->
   (pendings (after (trace [] p) hooked)
    + (lanes remaining + lanes (task_of (outcome [] p)))
    + fires_count (view m) (after (trace [] p) hooked) <= 1)%nat
   /\ (isLoading (after (trace [] p) hooked) = false ->
       (pendings (after (trace [] p) hooked)
        + (lanes remaining + lanes (task_of (outcome [] p)))
        + fires_count (view m) (after (trace [] p) hooked) = 0)%nat)) ->
  one_lane (turn m remaining hooked announce p).
Proof.
  intros Hr Hp Hn. destruct (mounted m) eqn:Hm.
  - rewrite turn_mounted by assumption. cbv zeta.
    destruct (Hn eq_refl) as [H1 H0]. clear Hn.
    set (s1 := after (trace [] p) hooked) in *.
    destruct (due_tasks_spec (view m) s1) as [Hk [Hl _]].
    destruct (commit_quiet (view m) s1 s1) as [Hi Hmut].
    split; simpl.
    + repeat apply Forall_append; assumption.
    + intros _. unfold in_flight. simpl.
      rewrite (pendings_mutations _ _ Hmut), !lanes_app, Hl, Hi.
      fold (fires_count (view m) s1). split; [lia|].
      intros Hf. specialize (H0 Hf). lia.
  - rewrite turn_unmounted by assumption. split; simpl.
    + repeat apply Forall_append; assumption.
    + discriminate.
Qed.

Ltac summarise :=
  intros ?s; unfold after; simpl;
  repeat split; try reflexivity;
  intros [] ?; try reflexivity; congruence.

Lemma approving_submits : summarises (submit approve_hook) approving.
Proof. summarise. Qed.

Lemma depositing_submits a : summarises (submit deposit_hook) (depositing a).
Proof. summarise. Qed.

Lemma withdrawing_submits a : summarises (submit withdraw_hook) (withdrawing a).
Proof. summarise. Qed.

Lemma failing_releases : summarises release failing.
Proof. intros s. split; [reflexivity|]. intros []; reflexivity. Qed.

Lemma chained_deposit_submits a :
  summarises (submit deposit_hook)
    (cleared ++ Did refetchAllowance :: depositing a).
Proof. summarise. Qed.

Lemma idle_stays_released tail : forall s,
  Forall (calls idle_call) tail -> isLoading s = false ->
  isLoading (after tail s) = false
  /\ forall h, mutation_of h (after tail s) = mutation_of h s.
Proof.
  induction tail as [|e tail IH]; intros s H Hs; [split; auto|].
  inversion H as [|? ? He Ht]; subst.
  unfold after in *. simpl.
  destruct (IH (observe s e) Ht) as [I1 I2].
  - destruct e as [[| | |[]| | | | | | | | |]|]; simpl in *;
      try assumption; try reflexivity; contradiction.
  - split; [exact I1|]. intros h. rewrite I2.
    destruct e as [[| | |[]| | | | | | | | |]|], h; simpl in *;
      try reflexivity; contradiction.
Qed.

Lemma idle_tail_releases tail :
  Forall (calls idle_call) tail -> summarises release (cleared ++ tail).
Proof.
  intros H s. rewrite after_app.
  destruct (idle_stays_released tail (after cleared s) H eq_refl) as [I1 I2].
  split; [exact I1|]. intros h. rewrite I2. destruct h; reflexivity.
Qed.

Lemma handleWithdraw_cases r :
  exec [] (handleWithdraw r) = ([], Returned)
  \/ (exists a, parseUnits (amount r) 18 = Some a
                /\ exec [] (handleWithdraw r) = (withdrawing a, Returned))
  \/ exec [] (handleWithdraw r) =
     ([Did (setIsLoading true); Did (setProgress 25);
       Did (console_error "Error withdrawing:"); Did (setIsLoading false);
       Did (setProgress 0)], Returned).
Proof.
  destruct (negb (truthy_string (amount r)) || negb (publicClient r)) eqn:G.
  - left. unfold handleWithdraw. rewrite G. reflexivity.
  - apply guard_closed in G. destruct G as [Ht Hc].
    destruct (parseUnits (amount r) 18) as [a|] eqn:Hp.
    + right; left. exists a. split; [reflexivity|].
      apply handleWithdraw_withdraws; auto.
    + right; right. apply handleWithdraw_unparseable; auto.
Qed.

(** A click, summarised. *)
Lemma depositButton_kind r :
  task_of (outcome [] (depositButton r)) = []
  /\ ((disabled r = true /\ trace [] (depositButton r) = [])
      \/ (disabled r = false
          /\ exists k, summarises k (trace [] (depositButton r)))).
Proof.
  unfold depositButton, trace, outcome.
  destruct (disabled r); [split; [reflexivity | left; auto]|].
  destruct (handleDeposit_cases r false)
    as [E | [[E _] | [[a [_ [_ E]]] | E]]]; rewrite E;
    (split; [reflexivity|]); right; (split; [reflexivity|]).
  - exists quiet. apply neutral_quiet. constructor.
  - exists (submit approve_hook). apply approving_submits.
  - exists (submit deposit_hook). apply depositing_submits.
  - exists release. summarise.
Qed.

Lemma withdrawButton_kind r :
  task_of (outcome [] (withdrawButton r)) = []
  /\ ((disabled r = true /\ trace [] (withdrawButton r) = [])
      \/ (disabled r = false
          /\ exists k, summarises k (trace [] (withdrawButton r)))).
Proof.
  unfold withdrawButton, trace, outcome.
  destruct (disabled r); [split; [reflexivity | left; auto]|].
  destruct (handleWithdraw_cases r) as [E | [[a [_ E]] | E]]; rewrite E;
    (split; [reflexivity|]); right; (split; [reflexivity|]).
  - exists quiet. apply neutral_quiet. constructor.
  - exists (submit withdraw_hook). apply withdrawing_submits.
  - exists release. summarise.
Qed.

(** A known task, resumed. *)
Lemma resume_known t o :
  known_task t ->
  exists k,
    summarises k (trace [] (resume t o))
    /\ Forall known_task (task_of (outcome [] (resume t o)))
    /\ match k with
       | quiet =>
           (lanes (task_of (outcome [] (resume t o)))
            <= (if is_lane t then 1 else 0))%nat
       | _ => is_lane t = true /\ task_of (outcome [] (resume t o)) = []
       end.
Proof.
  intros [[Ha Hb] | [[Ha Hs] | [h [Ha Hr]]]].
  - destruct (Hb o) as [Ho Ht]. exists quiet. rewrite Ho. split.
    + apply neutral_quiet.
      apply (calls_weaken balance_call); [exact balance_call_neutral | exact Ht].
    + split; [apply Forall_nil|]. unfold lanes. simpl. lia.
  - destruct (Hs o) as [Ho [tail [Et [Hi | [a Ea]]]]]; rewrite Ho, Et.
    + exists release. split; [apply idle_tail_releases; assumption|].
      split; [apply Forall_nil|]. split; [|reflexivity].
      unfold is_lane. rewrite Ha. reflexivity.
    + subst tail. exists (submit deposit_hook).
      split; [apply chained_deposit_submits|].
      split; [apply Forall_nil|]. split; [|reflexivity].
      unfold is_lane. rewrite Ha. reflexivity.
  - destruct Hr as [Hrej [k' [Hful Hk']]]. unfold trace, outcome.
    destruct o.
    + rewrite Hful. simpl. exists quiet.
      split; [apply neutral_quiet; repeat constructor|].
      split.
      * apply Forall_cons; [|apply Forall_nil].
        right. left. split; [reflexivity | exact Hk'].
      * unfold is_lane. rewrite Ha. unfold lanes. simpl. lia.
    + rewrite Hrej. simpl. exists release.
      split; [apply failing_releases|]. split; [apply Forall_nil|].
      split; [|reflexivity]. unfold is_lane. rewrite Ha. reflexivity.
Qed.

(** ** The lane discipline is kept *)

Lemma submit_counts h0 s s' :
  mutation_of h0 s' = pending ->
  (forall h, h <> h0 -> mutation_of h s' = mutation_of h s) ->
  pendings s = 0%nat ->
  pendings s' = 1%nat /\ fires_count s s' = 0%nat.
Proof.
  intros Hp Ho Hz. unfold pendings, fires_count in *.
  assert (Ha : h0 = approve_hook \/ approveM s' = approveM s)
    by (destruct h0; [left; reflexivity | right; apply (Ho approve_hook);
                      discriminate | right; apply (Ho approve_hook);
                      discriminate]).
  assert (Hd : h0 = deposit_hook \/ depositM s' = depositM s)
    by (destruct h0; [right; apply (Ho deposit_hook); discriminate
                     | left; reflexivity
                     | right; apply (Ho deposit_hook); discriminate]).
  assert (Hw : h0 = withdraw_hook \/ withdrawM s' = withdrawM s)
    by (destruct h0; [right; apply (Ho withdraw_hook); discriminate
                     | right; apply (Ho withdraw_hook); discriminate
                     | left; reflexivity]).
  destruct h0; simpl in Hp;
    destruct Ha as [Ha | Ha]; try discriminate;
    destruct Hd as [Hd | Hd]; try discriminate;
    destruct Hw as [Hw | Hw]; try discriminate;
    rewrite ?Hp, ?Ha, ?Hd, ?Hw; rewrite ?fires_pending, ?fires_same; simpl;
    destruct (is_pending (approveM s)), (is_pending (depositM s)),
      (is_pending (withdrawM s)); simpl in *; split; lia.
Qed.

(** A turn on the current render, by the kind of its run. *)
Lemma lane_turn m remaining announce p k :
  one_lane m ->
  Forall known_task remaining ->
  Forall known_task (task_of (outcome [] p)) ->
  summarises k (trace [] p) ->
  (mounted m = true ->
   match k with
   | quiet =>
       (lanes remaining + lanes (task_of (outcome [] p))
        <= lanes (tasks m))%nat
   | _ =>
       (pendings (view m)
        + (lanes remaining + lanes (task_of (outcome [] p))) = 0)%nat
   end) ->
  one_lane (turn m remaining (view m) announce p).
Proof.
  intros [Hk Hl] Hr Hp Hs Hn. apply turn_one_lane; auto.
  intros Hm. destruct (Hl Hm) as [L1 L0]. specialize (Hn Hm).
  specialize (Hs (view m)). unfold in_flight in *.
  destruct k as [| |h0].
  - destruct Hs as [Hi Hmut].
    rewrite (pendings_mutations _ _ Hmut), (fires_count_mutations _ _ _ Hmut),
      fires_count_same, Hi.
    split; [lia|]. intros Hf. specialize (L0 Hf). lia.
  - destruct Hs as [Hi Hmut].
    rewrite (pendings_mutations _ _ Hmut), (fires_count_mutations _ _ _ Hmut),
      fires_count_same.
    split; [lia|]. intros _. lia.
  - destruct Hs as [Hi [Hpend Hoth]].
    destruct (submit_counts h0 (view m) _ Hpend Hoth) as [P1 F0]; [lia|].
    rewrite P1, F0, Hi. split; [lia | discriminate].
Qed.

Lemma hooks_lane s i :
  (pendings (hooks s i) + fires_count s (hooks s i) <= pendings s)%nat.
Proof.
  unfold pendings, fires_count.
  destruct i as [v| | |c a|c|d|d|h res|n o]; simpl;
    try (rewrite !fires_same; lia).
  destruct h, (depositM s) eqn:D, (withdrawM s) eqn:W, (approveM s) eqn:A;
    simpl; rewrite ?D, ?W, ?A; rewrite ?fires_same; simpl; try lia;
    destruct res; unfold fires; simpl;
    repeat match goal with
           | |- context [truthy_string ?x] => destruct (truthy_string x)
           end; simpl; lia.
Qed.

Lemma hooked_turn m i :
  one_lane m -> one_lane (turn m (tasks m) (hooks (view m) i) [] (Ret tt)).
Proof.
  intros [Hk Hl]. apply turn_one_lane; [assumption | apply Forall_nil |].
  intros Hm. destruct (Hl Hm) as [L1 L0]. unfold in_flight in *.
  change (after (trace [] (Ret tt)) (hooks (view m) i))
    with (hooks (view m) i).
  change (lanes (task_of (outcome [] (Ret tt)))) with 0%nat.
  pose proof (hooks_lane (view m) i) as H. rewrite hooks_isLoading.
  split; [lia|]. intros Hf. specialize (L0 Hf). lia.
Qed.

Lemma step_one_lane m i : one_lane m -> one_lane (step m i).
Proof.
  intros H. pose proof H as [Hk Hl].
  destruct i as [v| | |c a|c|d|d|h res|n o]; cbv beta iota delta [step];
    try (destruct (mounted m) eqn:Hm; [|assumption]);
    try (apply hooked_turn; assumption).
  - apply (lane_turn m (tasks m) [] _ quiet);
      [exact H | exact Hk | apply Forall_nil | |].
    + apply neutral_quiet. repeat constructor.
    + intros _. change (lanes (task_of (outcome [] (call (setAmount v)))))
        with 0%nat. lia.
  - destruct (depositButton_kind (view m)) as [Ho [[Hd Et] | [Hd [k Hs]]]].
    + apply (lane_turn m (tasks m) [] _ quiet);
        [exact H | exact Hk | rewrite Ho; apply Forall_nil | |].
      * rewrite Et. apply neutral_quiet. constructor.
      * intros _. rewrite Ho. change (lanes []) with 0%nat. lia.
    + apply (lane_turn m (tasks m) [] _ k);
        [exact H | exact Hk | rewrite Ho; apply Forall_nil | exact Hs |].
      intros _. rewrite Ho. change (lanes []) with 0%nat.
      unfold disabled in Hd. apply orb_false_elim in Hd.
      destruct Hd as [_ Hd]. destruct (Hl eq_refl) as [L1 L0].
      specialize (L0 Hd). unfold in_flight in L0.
      destruct k; lia.
  - destruct (withdrawButton_kind (view m)) as [Ho [[Hd Et] | [Hd [k Hs]]]].
    + apply (lane_turn m (tasks m) [] _ quiet);
        [exact H | exact Hk | rewrite Ho; apply Forall_nil | |].
      * rewrite Et. apply neutral_quiet. constructor.
      * intros _. rewrite Ho. change (lanes []) with 0%nat. lia.
    + apply (lane_turn m (tasks m) [] _ k);
        [exact H | exact Hk | rewrite Ho; apply Forall_nil | exact Hs |].
      intros _. rewrite Ho. change (lanes []) with 0%nat.
      unfold disabled in Hd. apply orb_false_elim in Hd.
      destruct Hd as [_ Hd]. destruct (Hl eq_refl) as [L1 L0].
      specialize (L0 Hd). unfold in_flight in L0.
      destruct k; lia.
  - destruct (nth_error (tasks m) n) as [t|] eqn:E; [|assumption].
    assert (Kt : known_task t).
    { apply nth_error_In in E. rewrite Forall_forall in Hk. apply (Hk t E). }
    destruct (resume_known t o Kt) as [k [Hs [Hn Hc]]].
    apply (lane_turn m _ _ _ k);
      [exact H | apply Forall_remove_nth; exact Hk | exact Hn | exact Hs |].
    intros Hm. destruct (Hl Hm) as [L1 _]. unfold in_flight in L1.
    pose proof (lanes_remove (tasks m) n t E) as R.
    destruct k.
    + lia.
    + destruct Hc as [Hc1 Hc2]. rewrite Hc1 in R. rewrite Hc2.
      change (lanes []) with 0%nat. lia.
    + destruct Hc as [Hc1 Hc2]. rewrite Hc1 in R. rewrite Hc2.
      change (lanes []) with 0%nat. lia.
Qed.

Lemma mount_one_lane c : one_lane (mount c).
Proof.
  destruct c; split; simpl; try constructor; unfold in_flight; simpl; auto.
Qed.

Lemma run_one_lane inputs : forall m, one_lane m -> one_lane (run m inputs).
Proof.
  induction inputs as [|i inputs IH]; intros m H; simpl; auto.
  apply IH. apply step_one_lane. assumption.
Qed.

(** ** Turns that leave the lane as it is *)

Lemma lane_task_is_lane t : lane_task t -> is_lane t = true.
Proof.
  intros [[Ha _] | [h [Ha _]]]; unfold is_lane; rewrite Ha; reflexivity.
Qed.

Lemma known_not_lane t : known_task t -> is_lane t = false -> balance_task t.
Proof.
  intros [H | H] Hl; [exact H|].
  apply lane_task_is_lane in H. congruence.
Qed.

Lemma lanes_none ts :
  Forall known_task ts -> lanes ts = 0%nat -> Forall balance_task ts.
Proof.
  induction ts as [|t ts IH]; intros H Hl; [constructor|].
  inversion H; subst. unfold lanes in *. simpl in Hl.
  destruct (is_lane t) eqn:E; simpl in Hl; [discriminate|].
  constructor; [apply known_not_lane; assumption | auto].
Qed.

Lemma fires_count_hooked prev s s' :
  (forall h, mutation_of h s' = mutation_of h s) ->
  fires (approveM prev) (approveM s') = fires (approveM prev) (approveM s)
  /\ fires (depositM prev) (depositM s') = fires (depositM prev) (depositM s)
  /\ fires (withdrawM prev) (withdrawM s') = fires (withdrawM prev) (withdrawM s).
Proof.
  intros H.
  rewrite (H approve_hook : approveM s' = approveM s),
    (H deposit_hook : depositM s' = depositM s),
    (H withdraw_hook : withdrawM s' = withdrawM s). repeat split.
Qed.

(** Without replies a run records calls only. *)
Lemma exec_nil_calls p :
  Forall (fun e => exists a, e = Did a) (trace [] p).
Proof.
  unfold trace. induction p as [u | e | a p IH | pr k IH]; simpl;
    try constructor.
  - destruct (exec [] p) as [tr out]. simpl in *.
    constructor; [exists a; reflexivity | exact IH].
Qed.

Lemma effects_trace_calls es :
  Forall (fun e => exists a, e = Did a) (effects_trace es).
Proof.
  induction es as [|[b e] es IH]; [constructor|].
  rewrite effects_trace_cons, fired_trace_spec.
  apply Forall_append; [|exact IH].
  destruct b; [apply exec_nil_calls | constructor].
Qed.

Lemma calls_uneventful (P : Action -> Prop) tr :
  (forall a, P a -> uneventful (Did a)) ->
  Forall (fun e => exists a, e = Did a) tr ->
  Forall (calls P) tr -> Forall uneventful tr.
Proof.
  intros HP Hd Hc. induction tr as [|e tr IH]; [constructor|].
  inversion Hd as [|? ? [a Ea] Hd']; inversion Hc; subst.
  constructor; [apply HP; assumption | auto].
Qed.

Lemma commit_uneventful prev cur :
  Forall uneventful (effects_trace (due prev cur)).
Proof.
  apply (calls_uneventful commit_call).
  - intros []; simpl; tauto.
  - apply effects_trace_calls.
  - apply due_commit_calls.
Qed.

Lemma balance_call_uneventful p :
  Forall (calls balance_call) (trace [] p) -> Forall uneventful (trace [] p).
Proof.
  apply (calls_uneventful balance_call).
  - intros []; simpl; tauto.
  - apply exec_nil_calls.
Qed.

(** What a turn with a quiet run leaves. *)
Lemma quiet_turn_facts m remaining hooked announce p :
  mounted m = true ->
  task_of (outcome [] p) = [] ->
  summarises quiet (trace [] p) ->
  isLoading (view (turn m remaining hooked announce p)) = isLoading hooked
  /\ (forall h, mutation_of h (view (turn m remaining hooked announce p))
                = mutation_of h hooked)
  /\ publicClient (view (turn m remaining hooked announce p))
     = publicClient hooked
  /\ (exists added,
        history (turn m remaining hooked announce p) =
          history m ++ announce ++ trace [] p ++ added
        /\ Forall uneventful added)
  /\ exists added,
       tasks (turn m remaining hooked announce p) = remaining ++ added
       /\ Forall known_task added
       /\ lanes added = fires_count (view m) hooked
       /\ (publicClient hooked = true ->
           Forall (fun t =>
                     is_lane t = true ->
                     exists h,
                       awaited t = receipt h /\ receiving (resume t)
                       /\ ((approveM hooked = success h
                            /\ fires (approveM (view m)) (approveM hooked) = true)
                           \/ (depositM hooked = success h
                               /\ fires (depositM (view m)) (depositM hooked)
                                  = true)
                           \/ (withdrawM hooked = success h
                               /\ fires (withdrawM (view m)) (withdrawM hooked)
                                  = true)))
                  added).
Proof.
  intros Hm Ho Hq. rewrite turn_mounted by assumption. cbv zeta. simpl.
  set (s1 := after (trace [] p) hooked).
  destruct (Hq hooked) as [Hi Hmut]. fold s1 in Hi, Hmut.
  destruct (commit_quiet (view m) s1 s1) as [Ci Cmut].
  destruct (due_tasks_spec (view m) s1) as [Hk [Hl Hc]].
  destruct (fires_count_hooked (view m) hooked s1 Hmut) as [Fa [Fd Fw]].
  assert (Hpc : publicClient s1 = publicClient hooked)
    by apply after_publicClient.
  split; [congruence|]. split; [intros h; rewrite Cmut; apply Hmut|].
  split; [rewrite after_publicClient; exact Hpc|].
  split.
  - eexists. split; [reflexivity|]. apply commit_uneventful.
  - exists (effects_tasks (due (view m) s1)). rewrite Ho.
    split; [reflexivity|]. split; [assumption|]. split.
    + rewrite Hl. unfold fires_count. rewrite Fa, Fd, Fw. reflexivity.
    + intros Hp. rewrite <- Hpc in Hp. specialize (Hc Hp).
      revert Hc. apply Forall_impl. intros t Ht Hlane.
      destruct (Ht Hlane) as [h [Ha [Hr Hmu]]]. exists h.
      rewrite Fa, Fd, Fw in Hmu.
      rewrite (Hmut approve_hook : approveM s1 = approveM hooked),
        (Hmut deposit_hook : depositM s1 = depositM hooked),
        (Hmut withdraw_hook : withdrawM s1 = withdrawM hooked) in Hmu.
      auto.
Qed.

(** ** Facts about the hooks after an input *)

Lemma hooks_publicClient s i :
  publicClient (hooks s i) =
  match i with clientChanged c => c | _ => publicClient s end.
Proof.
  destruct i as [| | | | | | |h res|]; simpl; try reflexivity.
  destruct h, (depositM s), (withdrawM s), (approveM s); reflexivity.
Qed.

Lemma hooks_mutation s i h :
  mutation_of h (hooks s i) = mutation_of h s
  \/ (mutation_of h s = pending
      /\ exists res, i = submitted h res
                     /\ mutation_of h (hooks s i) =
                        match res with
                        | Some hash => success hash
                        | None => error
                        end).
Proof.
  destruct i as [| | | | | | |h' res|]; try (left; destruct h; reflexivity).
  destruct h, h'; simpl;
    destruct (depositM s) eqn:D, (withdrawM s) eqn:W, (approveM s) eqn:A;
    simpl; rewrite ?D, ?W, ?A; try (left; reflexivity);
    right; (split; [reflexivity|]); exists res; split; reflexivity.
Qed.

Lemma hooks_not_pending s i h :
  is_pending (mutation_of h s) = false ->
  mutation_of h (hooks s i) = mutation_of h s.
Proof.
  intros Hn. destruct (hooks_mutation s i h) as [E | [E _]]; [exact E|].
  rewrite E in Hn. discriminate.
Qed.

(** ** An approval holds the lane until its receipt settles *)

Lemma approve_wait_more seen extra t :
  balance_task t \/ approve_wait seen t ->
  balance_task t \/ approve_wait (seen ++ extra) t.
Proof.
  intros [H | [h [Ha [Hr Hi]]]]; [left; exact H|].
  right. exists h. split; [exact Ha|]. split; [exact Hr|].
  apply in_or_app. left. exact Hi.
Qed.

Lemma held_more seen extra m : held seen m -> held (seen ++ extra) m.
Proof.
  intros [Ht Hv]. split.
  - revert Ht. apply Forall_impl. intros t. apply approve_wait_more.
  - intros Hm. destruct (Hv Hm) as [H1 [H2 [H3 [H4 H5]]]].
    repeat split; auto. intros h Hh. apply in_or_app. left. auto.
Qed.

Lemma held_turn seen seen' m remaining hooked announce p :
  held seen m -> mounted m = true ->
  Forall (fun t => balance_task t \/ approve_wait seen' t) remaining ->
  task_of (outcome [] p) = [] ->
  summarises quiet (trace [] p) ->
  Forall uneventful (announce ++ trace [] p) ->
  isLoading hooked = true ->
  publicClient hooked = true ->
  depositM hooked = depositM (view m) ->
  withdrawM hooked = withdrawM (view m) ->
  (forall h, approveM hooked = success h -> In h seen') ->
  exists new,
    history (turn m remaining hooked announce p) = history m ++ new
    /\ Forall uneventful new
    /\ held seen' (turn m remaining hooked announce p).
Proof.
  intros [Ht Hv] Hm Hr Ho Hq Hu Hl Hc Hd Hw Ha.
  destruct (Hv Hm) as [_ [_ [Pd [Pw _]]]].
  destruct (quiet_turn_facts m remaining hooked announce p Hm Ho Hq)
    as [Fi [Fm [Fc [[added [Eh Hadd]] [new [Et [Hk [_ Hnew]]]]]]]].
  exists (announce ++ trace [] p ++ added). split; [exact Eh|].
  split; [rewrite app_assoc; apply Forall_append; assumption|].
  split.
  - rewrite Et. apply Forall_append; [exact Hr|].
    specialize (Hnew Hc). rewrite Forall_forall in *.
    intros t Hin. destruct (is_lane t) eqn:L.
    + right. destruct (Hnew t Hin L)
        as [h [Haw [Hrec [[Hs _] | [[_ Hf] | [_ Hf]]]]]].
      * exists h. auto.
      * rewrite Hd, fires_same in Hf. discriminate.
      * rewrite Hw, fires_same in Hf. discriminate.
    + left. apply known_not_lane; auto.
  - intros _. rewrite Fi, Fc.
    rewrite (Fm deposit_hook : depositM _ = depositM hooked),
      (Fm withdraw_hook : withdrawM _ = withdrawM hooked),
      (Fm approve_hook : approveM _ = approveM hooked), Hd, Hw.
    auto.
Qed.

Lemma held_stops seen m n t o :
  nth_error (tasks m) n = Some t -> approve_wait seen t ->
  exists h rest,
    history (step m (settled n o)) = history m ++ Settle (receipt h) o :: rest
    /\ In h seen.
Proof.
  intros E [h [Ha [_ Hi]]]. exists h. simpl. rewrite E.
  destruct (mounted m) eqn:Hm.
  - rewrite turn_mounted by assumption. simpl. rewrite Ha.
    eexists. split; [reflexivity | exact Hi].
  - rewrite turn_unmounted by assumption. simpl. rewrite Ha.
    eexists. split; [reflexivity | exact Hi].
Qed.

Lemma held_disabled m seen :
  held seen m -> mounted m = true ->
  depositButton (view m) = Ret tt /\ withdrawButton (view m) = Ret tt.
Proof.
  intros [_ Hv] Hm. destruct (Hv Hm) as [Hl _].
  unfold depositButton, withdrawButton, disabled.
  rewrite Hl, orb_true_r. split; reflexivity.
Qed.

Lemma quiet_Ret : summarises quiet (trace [] (Ret tt)).
Proof. apply neutral_quiet. constructor. Qed.

Lemma held_hooked seen m i :
  held seen m -> mounted m = true -> client_stays i ->
  exists new,
    history (turn m (tasks m) (hooks (view m) i) [] (Ret tt)) = history m ++ new
    /\ Forall uneventful new
    /\ held (seen ++ approval_hash i)
         (turn m (tasks m) (hooks (view m) i) [] (Ret tt)).
Proof.
  intros H Hm Hc. pose proof H as [Ht Hv].
  destruct (Hv Hm) as [V1 [V2 [V3 [V4 V5]]]].
  apply (held_turn seen).
  - exact H.
  - exact Hm.
  - revert Ht. apply Forall_impl. intros t. apply approve_wait_more.
  - reflexivity.
  - apply quiet_Ret.
  - apply Forall_nil.
  - rewrite hooks_isLoading. exact V1.
  - rewrite hooks_publicClient. destruct i; try exact V2.
    destruct defined; [reflexivity | contradiction].
  - apply (hooks_not_pending (view m) i deposit_hook V3).
  - apply (hooks_not_pending (view m) i withdraw_hook V4).
  - intros h' Hh. apply in_or_app.
    destruct (hooks_mutation (view m) i approve_hook)
      as [E | [_ [res [Ei E]]]]; simpl in E; rewrite E in Hh.
    + left. auto.
    + subst i. destruct res as [hash|]; [|discriminate].
      inversion Hh; subst. right. left. reflexivity.
Qed.

Lemma held_ignored seen seen' m p :
  held seen m -> mounted m = true -> incl seen seen' ->
  task_of (outcome [] p) = [] ->
  Forall (calls lane_neutral) (trace [] p) ->
  Forall uneventful (trace [] p) ->
  exists new,
    history (turn m (tasks m) (view m) [] p) = history m ++ new
    /\ Forall uneventful new
    /\ held seen' (turn m (tasks m) (view m) [] p).
Proof.
  intros H Hm Hi Ho Hn Hu. pose proof H as [Ht Hv].
  destruct (Hv Hm) as [V1 [V2 [V3 [V4 V5]]]].
  apply (held_turn seen).
  - exact H.
  - exact Hm.
  - revert Ht. apply Forall_impl.
    intros t [Hb | [h [Ha [Hr Hin]]]]; [left; exact Hb|].
    right. exists h. split; [exact Ha|]. split; [exact Hr|]. apply Hi, Hin.
  - exact Ho.
  - apply neutral_quiet. exact Hn.
  - exact Hu.
  - exact V1.
  - exact V2.
  - reflexivity.
  - reflexivity.
  - intros h Hh. apply Hi, V5, Hh.
Qed.

(** One input while the lane is held: either nothing is deposited and no
    receipt settles, and the lane is still held; or the turn starts with
    the settlement of the approval's receipt. *)
Lemma held_step seen m i :
  held seen m -> client_stays i ->
  (exists new,
     history (step m i) = history m ++ new
     /\ Forall uneventful new
     /\ held (seen ++ approval_hash i) (step m i))
  \/ (exists h o rest,
        history (step m i) = history m ++ Settle (receipt h) o :: rest
        /\ In h seen).
Proof.
  intros H Hc. pose proof H as [Ht Hv].
  assert (Same : step m i = m ->
                 exists new, history (step m i) = history m ++ new
                             /\ Forall uneventful new
                             /\ held (seen ++ approval_hash i) (step m i)).
  { intros E. rewrite E. exists []. rewrite app_nil_r.
    split; [reflexivity|]. split; [apply Forall_nil | apply held_more; exact H]. }
  assert (More : Forall (fun t => balance_task t
                                  \/ approve_wait (seen ++ approval_hash i) t)
                   (tasks m)).
  { revert Ht. apply Forall_impl. intros t. apply approve_wait_more. }
  assert (Inc : incl seen (seen ++ approval_hash i)).
  { intros h Hh. apply in_or_app. left. exact Hh. }
  destruct i as [v| | |c a|c|d|d|h res|n o]; cbv beta iota delta [step] in *.
  - destruct (mounted m) eqn:Hm; [|left; apply Same; reflexivity].
    left. apply (held_ignored seen); auto.
    + apply Forall_cons; [exact I | apply Forall_nil].
    + apply Forall_cons; [exact I | apply Forall_nil].
  - destruct (mounted m) eqn:Hm; [|left; apply Same; reflexivity].
    destruct (held_disabled m seen H Hm) as [Ed _]. rewrite Ed in *.
    left. apply (held_ignored seen); auto; apply Forall_nil.
  - destruct (mounted m) eqn:Hm; [|left; apply Same; reflexivity].
    destruct (held_disabled m seen H Hm) as [_ Ew]. rewrite Ew in *.
    left. apply (held_ignored seen); auto; apply Forall_nil.
  - destruct (mounted m) eqn:Hm; [|left; apply Same; reflexivity].
    left. apply held_hooked; auto.
  - destruct (mounted m) eqn:Hm; [|left; apply Same; reflexivity].
    left. apply held_hooked; auto.
  - destruct (mounted m) eqn:Hm; [|left; apply Same; reflexivity].
    left. apply held_hooked; auto.
  - destruct (mounted m) eqn:Hm; [|left; apply Same; reflexivity].
    left. apply held_hooked; auto.
  - destruct (mounted m) eqn:Hm; [|left; apply Same; reflexivity].
    left. apply held_hooked; auto.
  - destruct (nth_error (tasks m) n) as [t|] eqn:E;
      [|left; apply Same; reflexivity].
    assert (Kt : balance_task t \/ approve_wait seen t).
    { apply nth_error_In in E. rewrite Forall_forall in Ht. apply (Ht t E). }
    destruct Kt as [[Ha Hb] | Hw].
    + left. destruct (Hb o) as [Ho Hcalls].
      assert (Hq : summarises quiet (trace [] (resume t o))).
      { apply neutral_quiet. revert Hcalls. apply calls_weaken.
        exact balance_call_neutral. }
      assert (Hu : Forall uneventful
                     ([Settle (awaited t) o] ++ trace [] (resume t o))).
      { apply Forall_append; [|apply balance_call_uneventful; exact Hcalls].
        rewrite Ha. apply Forall_cons; [exact I | apply Forall_nil]. }
      destruct (mounted m) eqn:Hm.
      * destruct (Hv eq_refl) as [V1 [V2 [V3 [V4 V5]]]].
        apply (held_turn seen); auto.
        apply Forall_remove_nth. exact More.
      * rewrite turn_unmounted by assumption. rewrite Ho.
        cbn [history approval_hash]. rewrite !app_nil_r.
        eexists. split; [reflexivity|]. split; [exact Hu|].
        split; [|intros Hx; simpl in Hx; discriminate].
        cbn [tasks]. apply Forall_remove_nth. exact Ht.
    + right. destruct (held_stops seen m n t o E Hw) as [h [rest [Eh Hi]]].
      exists h, o, rest. simpl in Eh. rewrite E in Eh. auto.
Qed.

(** ** Histories over many inputs *)

Lemma step_history m i : exists new, history (step m i) = history m ++ new.
Proof.
  assert (T : forall remaining hooked announce p,
             exists new,
               history (turn m remaining hooked announce p) = history m ++ new).
  { intros. destruct (mounted m) eqn:Hm.
    - rewrite turn_mounted by assumption. eexists. reflexivity.
    - rewrite turn_unmounted by assumption. eexists. reflexivity. }
  assert (S : exists new, history m = history m ++ new).
  { exists []. rewrite app_nil_r. reflexivity. }
  destruct i; cbv beta iota delta [step];
    try (destruct (mounted m); [apply T | exact S]).
  destruct (nth_error (tasks m) n); [apply T | exact S].
Qed.

Lemma run_history inputs : forall m,
  exists new, history (run m inputs) = history m ++ new.
Proof.
  induction inputs as [|i inputs IH]; intros m; simpl.
  - exists []. rewrite app_nil_r. reflexivity.
  - destruct (IH (step m i)) as [new2 E2].
    destruct (step_history m i) as [new1 E1].
    exists (new1 ++ new2). rewrite E2, E1, app_assoc. reflexivity.
Qed.

Lemma deposits_wait_uneventful mark pre post :
  Forall uneventful pre ->
  deposits_wait mark post = true ->
  deposits_wait mark (pre ++ post) = true.
Proof.
  induction 1 as [|e pre He _ IH]; intros Hp; simpl; [exact Hp|].
  assert (Hd : is_deposit e = false).
  { destruct e as [[]|]; simpl in *; try reflexivity; contradiction. }
  rewrite Hd. destruct (mark e); [reflexivity | auto].
Qed.

Lemma receipt_of_seen h o hashes :
  In h hashes -> receipt_of hashes (Settle (receipt h) o) = true.
Proof.
  intros Hi. simpl. apply existsb_exists. exists h.
  split; [exact Hi | apply String.eqb_refl].
Qed.

(** While an approval holds the lane, whatever comes in, no deposit goes
    out before the receipt of a hash of the approve hook settles. *)
Lemma held_run inputs : forall seen m,
  held seen m -> Forall client_stays inputs ->
  exists new,
    history (run m inputs) = history m ++ new
    /\ deposits_wait (receipt_of (seen ++ flat_map approval_hash inputs)) new
       = true.
Proof.
  induction inputs as [|i inputs IH]; intros seen m H Hc; simpl.
  - exists []. rewrite app_nil_r. split; reflexivity.
  - inversion Hc as [|? ? Hi Hrest]; subst.
    destruct (held_step seen m i H Hi)
      as [[new1 [E1 [U1 H1]]] | [h [o [rest [E1 Hin]]]]].
    + destruct (IH _ _ H1 Hrest) as [new2 [E2 W2]].
      exists (new1 ++ new2). split.
      * rewrite E2, E1, app_assoc. reflexivity.
      * apply deposits_wait_uneventful; [exact U1|].
        rewrite <- app_assoc in W2. exact W2.
    + destruct (run_history inputs (step m i)) as [more E2].
      exists (Settle (receipt h) o :: rest ++ more). split.
      * rewrite E2, E1, <- app_assoc. reflexivity.
      * cbn [deposits_wait is_deposit].
        rewrite receipt_of_seen; [reflexivity|].
        apply in_or_app. left. exact Hin.
Qed.

Lemma receipt_of_spec hashes e :
  receipt_of hashes e = true ->
  exists h o, e = Settle (receipt h) o /\ In h hashes.
Proof.
  destruct e as [a|p o]; simpl; [discriminate|].
  destruct p as [|h|ms]; try discriminate.
  intros Hx. apply existsb_exists in Hx. destruct Hx as [h' [Hin He]].
  apply String.eqb_eq in He. subst h'. exists h, o. split; [reflexivity | exact Hin].
Qed.

Lemma approval_hash_spec h inputs :
  In h (flat_map approval_hash inputs) ->
  In (submitted approve_hook (Some h)) inputs.
Proof.
  intros Hi. apply in_flat_map in Hi. destruct Hi as [i [Hin Hh]].
  destruct i as [| | | | | | |k res|]; simpl in Hh; try contradiction.
  destruct k; try contradiction.
  destruct res as [h'|]; [|contradiction].
  destruct Hh as [Hh | []]. subst h'. exact Hin.
Qed.

(** ** The click that submits an approval *)

Lemma approve_commit s :
  run_effects (due s (after approving s)) = ([], [], false).
Proof.
  unfold due, changed, effects. simpl.
  rewrite !same_string_refl, !same_bigint_refl, !same_mutation_refl,
    String.eqb_refl, Bool.eqb_reflx. simpl.
  destruct (negb (same_mutation (approveM s) pending)); reflexivity.
Qed.

Lemma approve_click m a :
  mounted m = true -> disabled (view m) = false ->
  publicClient (view m) = true ->
  parseUnits (amount (view m)) 18 = Some a ->
  approval_required (view m) false a = true ->
  step m clickDeposit =
  mkMachine (after approving (view m)) true (tasks m) (history m ++ approving).
Proof.
  intros Hm Hd Hc Hp Hr.
  assert (Ht : truthy_string (amount (view m)) = true).
  { unfold disabled in Hd. apply orb_false_elim in Hd.
    destruct Hd as [Hd _]. apply negb_false_iff in Hd. exact Hd. }
  simpl. rewrite Hm, turn_mounted by assumption.
  unfold depositButton. rewrite Hd. unfold trace, outcome.
  rewrite (handleDeposit_approves _ Ht Hc a Hp Hr). simpl fst. simpl snd.
  cbv zeta. unfold effects_trace, effects_tasks, effects_crash.
  rewrite approve_commit. simpl. rewrite !app_nil_r. reflexivity.
Qed.

Lemma approve_click_held m a :
  one_lane m ->
  mounted m = true -> disabled (view m) = false ->
  publicClient (view m) = true ->
  parseUnits (amount (view m)) 18 = Some a ->
  approval_required (view m) false a = true ->
  held [] (step m clickDeposit).
Proof.
  intros [Hk Hl] Hm Hd Hc Hp Hr.
  rewrite (approve_click m a Hm Hd Hc Hp Hr).
  assert (Hf : isLoading (view m) = false).
  { unfold disabled in Hd. apply orb_false_elim in Hd. tauto. }
  destruct (Hl Hm) as [_ H0]. specialize (H0 Hf).
  unfold in_flight in H0.
  assert (Hp0 : pendings (view m) = 0%nat) by lia.
  assert (Hl0 : lanes (tasks m) = 0%nat) by lia.
  split; cbn [tasks mounted view].
  - pose proof (lanes_none (tasks m) Hk Hl0) as Hb.
    revert Hb. apply Forall_impl. intros t Hb. left. exact Hb.
  - intros _. unfold pendings in Hp0. simpl.
    destruct (approveM (view m)), (depositM (view m)), (withdrawM (view m));
      simpl in Hp0; try discriminate; repeat split; try exact Hc;
      intros h Hh; discriminate.
Qed.

(** ** After a refused submission *)

Lemma neutral_silent tr : Forall (calls lane_neutral) tr -> Forall silent tr.
Proof.
  apply Forall_impl. intros [a|p o] H; [|reflexivity].
  destruct a; simpl in H; try contradiction; reflexivity.
Qed.

Lemma pendings_none s h : pendings s = 0%nat -> is_pending (mutation_of h s) = false.
Proof.
  unfold pendings. intros H.
  destruct h; simpl;
    destruct (approveM s), (depositM s), (withdrawM s); simpl in *;
    try reflexivity; discriminate.
Qed.

Lemma stuck_turn m remaining hooked announce p :
  stuck m -> mounted m = true ->
  Forall balance_task remaining ->
  task_of (outcome [] p) = [] ->
  Forall (calls lane_neutral) (trace [] p) ->
  isLoading hooked = true ->
  (forall h, mutation_of h hooked = mutation_of h (view m)) ->
  stuck (turn m remaining hooked announce p)
  /\ exists new,
       history (turn m remaining hooked announce p)
       = history m ++ announce ++ new
       /\ Forall silent new.
Proof.
  intros [Ht Hv] Hm Hr Ho Hn Hl Hmut.
  destruct (Hv Hm) as [_ Hp].
  destruct (quiet_turn_facts m remaining hooked announce p Hm Ho
              (neutral_quiet _ Hn))
    as [Fi [Fm [_ [_ [added [Et [Hk [Hlanes _]]]]]]]].
  split; [split|].
  - rewrite Et. apply Forall_append; [exact Hr|].
    apply lanes_none; [exact Hk|].
    rewrite Hlanes, (fires_count_mutations (view m) (view m) hooked Hmut).
    apply fires_count_same.
  - intros _. split; [rewrite Fi; exact Hl|].
    rewrite <- Hp. apply pendings_mutations.
    intros h. rewrite Fm. apply Hmut.
  - rewrite turn_mounted by assumption. cbn [history]. eexists.
    split; [reflexivity|].
    apply neutral_silent. apply Forall_append; [exact Hn|].
    apply (calls_weaken commit_call); [exact commit_call_neutral|].
    apply due_commit_calls.
Qed.

Lemma stuck_disabled m :
  stuck m -> mounted m = true ->
  depositButton (view m) = Ret tt /\ withdrawButton (view m) = Ret tt.
Proof.
  intros [_ Hv] Hm. destruct (Hv Hm) as [Hl _].
  unfold depositButton, withdrawButton, disabled.
  rewrite Hl, orb_true_r. split; reflexivity.
Qed.

(** Nothing gets a stuck machine going again. *)
Lemma stuck_step m i :
  stuck m ->
  stuck (step m i)
  /\ exists new, history (step m i) = history m ++ new /\ Forall silent new.
Proof.
  intros H. pose proof H as [Ht Hv].
  assert (Same : stuck m /\ exists new, history m = history m ++ new
                                        /\ Forall silent new).
  { split; [exact H|]. exists []. rewrite app_nil_r.
    split; [reflexivity | apply Forall_nil]. }
  assert (Plain : forall p,
             mounted m = true ->
             task_of (outcome [] p) = [] ->
             Forall (calls lane_neutral) (trace [] p) ->
             stuck (turn m (tasks m) (view m) [] p)
             /\ exists new,
                  history (turn m (tasks m) (view m) [] p) = history m ++ new
                  /\ Forall silent new).
  { intros p Hm Ho Hn. destruct (Hv Hm) as [Hl _].
    apply (stuck_turn m (tasks m) (view m) [] p);
      [exact H | exact Hm | exact Ht | exact Ho | exact Hn | exact Hl
      | reflexivity]. }
  assert (Hooked : forall j,
             mounted m = true ->
             stuck (turn m (tasks m) (hooks (view m) j) [] (Ret tt))
             /\ exists new,
                  history (turn m (tasks m) (hooks (view m) j) [] (Ret tt))
                  = history m ++ new
                  /\ Forall silent new).
  { intros j Hm. destruct (Hv Hm) as [Hl Hp].
    apply (stuck_turn m (tasks m) (hooks (view m) j) [] (Ret tt));
      [exact H | exact Hm | exact Ht | reflexivity | apply Forall_nil
      | rewrite hooks_isLoading; exact Hl |].
    intros h. apply hooks_not_pending. apply pendings_none. exact Hp. }
  destruct i as [v| | |c a|c|d|d|h res|n o]; cbv beta iota delta [step] in *;
    try (destruct (mounted m) eqn:Hm; [|exact Same]);
    try (apply Hooked; reflexivity).
  - apply Plain; [reflexivity | reflexivity|].
    apply Forall_cons; [exact I | apply Forall_nil].
  - destruct (stuck_disabled m H Hm) as [Ed _]. rewrite Ed.
    apply Plain; [reflexivity | reflexivity | apply Forall_nil].
  - destruct (stuck_disabled m H Hm) as [_ Ew]. rewrite Ew.
    apply Plain; [reflexivity | reflexivity | apply Forall_nil].
  - destruct (nth_error (tasks m) n) as [t|] eqn:E; [|exact Same].
    assert (Kt : balance_task t).
    { apply nth_error_In in E. rewrite Forall_forall in Ht. apply (Ht t E). }
    destruct Kt as [Ha Hb]. destruct (Hb o) as [Ho Hcalls].
    assert (Hn : Forall (calls lane_neutral) (trace [] (resume t o))).
    { revert Hcalls. apply calls_weaken. exact balance_call_neutral. }
    destruct (mounted m) eqn:Hm.
    + destruct (Hv eq_refl) as [Hl _].
      destruct (stuck_turn m (remove_nth n (tasks m)) (view m)
                  [Settle (awaited t) o] (resume t o) H Hm
                  (Forall_remove_nth _ _ _ Ht) Ho Hn Hl (fun h => eq_refl))
        as [S [new [Eh Hs]]].
      split; [exact S|]. exists ([Settle (awaited t) o] ++ new).
      split; [exact Eh|].
      apply Forall_append; [|exact Hs].
      apply Forall_cons; [reflexivity | apply Forall_nil].
    + rewrite turn_unmounted by assumption. rewrite Ho, app_nil_r.
      split.
      * split; cbn [tasks mounted]; [|intros Hx; discriminate].
        apply Forall_remove_nth. exact Ht.
      * cbn [history]. eexists. split; [reflexivity|].
        apply Forall_append.
        -- apply Forall_cons; [reflexivity | apply Forall_nil].
        -- apply neutral_silent. exact Hn.
Qed.

Lemma stuck_run inputs : forall m,
  stuck m ->
  stuck (run m inputs)
  /\ exists new, history (run m inputs) = history m ++ new /\ Forall silent new.
Proof.
  induction inputs as [|i inputs IH]; intros m H; simpl.
  - split; [exact H|]. exists []. rewrite app_nil_r.
    split; [reflexivity | apply Forall_nil].
  - destruct (stuck_step m i H) as [H1 [new1 [E1 S1]]].
    destruct (IH _ H1) as [H2 [new2 [E2 S2]]].
    split; [exact H2|]. exists (new1 ++ new2).
    split; [rewrite E2, E1, app_assoc; reflexivity|].
    apply Forall_append; assumption.
Qed.

(** A refusal by the wallet leaves the machine stuck. *)
Lemma refusal_sticks m h :
  one_lane m -> mounted m = true ->
  mutation_of h (view m) = pending ->
  stuck (step m (submitted h None))
  /\ exists new, history (step m (submitted h None)) = history m ++ new
                 /\ Forall silent new.
Proof.
  intros [Hk Hl] Hm Hp. destruct (Hl Hm) as [H1 H0].
  assert (P1 : (1 <= pendings (view m))%nat).
  { unfold pendings. destruct h; simpl in Hp; rewrite Hp; simpl; lia. }
  unfold in_flight in *.
  assert (L0 : lanes (tasks m) = 0%nat) by lia.
  assert (P : pendings (view m) = 1%nat) by lia.
  assert (Hload : isLoading (view m) = true).
  { destruct (isLoading (view m)); [reflexivity|].
    specialize (H0 eq_refl). lia. }
  cbv beta iota delta [step]. rewrite Hm.
  set (hooked := hooks (view m) (submitted h None)).
  assert (Hh : mutation_of h hooked = error
               /\ forall k, k <> h -> mutation_of k hooked = mutation_of k (view m)).
  { unfold hooked, pendings in *.
    destruct h; simpl in Hp |- *; rewrite Hp in *;
      destruct (approveM (view m)) eqn:A, (depositM (view m)) eqn:D,
        (withdrawM (view m)) eqn:W; simpl in P; try discriminate;
      (split; [simpl; try rewrite A; try rewrite D; try rewrite W; reflexivity|]);
      intros k Hk'; destruct k; simpl; try congruence; reflexivity. }
  destruct Hh as [He Hother].
  assert (Pend : pendings hooked = 0%nat).
  { unfold pendings in *.
    pose proof (Hother approve_hook) as Oa.
    pose proof (Hother deposit_hook) as Od.
    pose proof (Hother withdraw_hook) as Ow.
    destruct h; simpl in *;
      rewrite He; rewrite Hp in P; simpl in *;
      try rewrite Oa by discriminate; try rewrite Od by discriminate;
      try rewrite Ow by discriminate; lia. }
  assert (Fires : fires_count (view m) hooked = 0%nat).
  { unfold fires_count.
    pose proof (Hother approve_hook) as Oa.
    pose proof (Hother deposit_hook) as Od.
    pose proof (Hother withdraw_hook) as Ow.
    destruct h; simpl in *; rewrite He;
      try rewrite Oa by discriminate; try rewrite Od by discriminate;
      try rewrite Ow by discriminate; rewrite ?fires_same;
      unfold fires; simpl; rewrite ?andb_false_r; reflexivity. }
  destruct (quiet_turn_facts m (tasks m) hooked [] (Ret tt) Hm eq_refl quiet_Ret)
    as [Fi [Fm [_ [_ [added [Et [Hka [Hlanes _]]]]]]]].
  split; [split|].
  - rewrite Et. apply Forall_append.
    + apply lanes_none; assumption.
    + apply lanes_none; [exact Hka | congruence].
  - intros _. split.
    + rewrite Fi. unfold hooked. rewrite hooks_isLoading. exact Hload.
    + rewrite <- Pend. apply pendings_mutations. exact Fm.
  - rewrite turn_mounted by assumption. cbn [history]. eexists.
    split; [reflexivity|].
    apply neutral_silent. apply Forall_append; [apply Forall_nil|].
    apply (calls_weaken commit_call); [exact commit_call_neutral|].
    apply due_commit_calls.
Qed.

(** ** With nothing under way, only a click submits *)

Lemma settled_turn m remaining hooked announce p :
  settled_down m -> mounted m = true ->
  Forall balance_task remaining ->
  task_of (outcome [] p) = [] ->
  Forall (calls lane_neutral) (trace [] p) ->
  (forall h, mutation_of h hooked = mutation_of h (view m)) ->
  settled_down (turn m remaining hooked announce p)
  /\ exists new,
       history (turn m remaining hooked announce p)
       = history m ++ announce ++ new
       /\ Forall silent new.
Proof.
  intros [Ht Hv] Hm Hr Ho Hn Hmut.
  pose proof (Hv Hm) as Hp.
  destruct (quiet_turn_facts m remaining hooked announce p Hm Ho
              (neutral_quiet _ Hn))
    as [_ [Fm [_ [_ [added [Et [Hk [Hlanes _]]]]]]]].
  split; [split|].
  - rewrite Et. apply Forall_append; [exact Hr|].
    apply lanes_none; [exact Hk|].
    rewrite Hlanes, (fires_count_mutations (view m) (view m) hooked Hmut).
    apply fires_count_same.
  - intros _. rewrite <- Hp. apply pendings_mutations.
    intros h. rewrite Fm. apply Hmut.
  - rewrite turn_mounted by assumption. cbn [history]. eexists.
    split; [reflexivity|].
    apply neutral_silent. apply Forall_append; [exact Hn|].
    apply (calls_weaken commit_call); [exact commit_call_neutral|].
    apply due_commit_calls.
Qed.

Lemma settled_step m i :
  settled_down m -> no_click i ->
  settled_down (step m i)
  /\ exists new, history (step m i) = history m ++ new /\ Forall silent new.
Proof.
  intros H Hi. pose proof H as [Ht Hv].
  assert (Same : settled_down m
                 /\ exists new, history m = history m ++ new
                                /\ Forall silent new).
  { split; [exact H|]. exists []. rewrite app_nil_r.
    split; [reflexivity | apply Forall_nil]. }
  assert (Hooked : forall j,
             mounted m = true ->
             settled_down (turn m (tasks m) (hooks (view m) j) [] (Ret tt))
             /\ exists new,
                  history (turn m (tasks m) (hooks (view m) j) [] (Ret tt))
                  = history m ++ new
                  /\ Forall silent new).
  { intros j Hm.
    apply (settled_turn m (tasks m) (hooks (view m) j) [] (Ret tt));
      [exact H | exact Hm | exact Ht | reflexivity | apply Forall_nil |].
    intros h. apply hooks_not_pending. apply pendings_none. apply Hv, Hm. }
  destruct i as [v| | |c a|c|d|d|h res|n o]; cbv beta iota delta [step] in *;
    try contradiction;
    try (destruct (mounted m) eqn:Hm; [|exact Same]);
    try (apply Hooked; reflexivity).
  - apply (settled_turn m (tasks m) (view m) [] (call (setAmount v)));
      [exact H | exact Hm | exact Ht | reflexivity | | reflexivity].
    apply Forall_cons; [exact I | apply Forall_nil].
  - destruct (nth_error (tasks m) n) as [t|] eqn:E; [|exact Same].
    assert (Kt : balance_task t).
    { apply nth_error_In in E. rewrite Forall_forall in Ht. apply (Ht t E). }
    destruct Kt as [Ha Hb]. destruct (Hb o) as [Ho Hcalls].
    assert (Hn : Forall (calls lane_neutral) (trace [] (resume t o))).
    { revert Hcalls. apply calls_weaken. exact balance_call_neutral. }
    destruct (mounted m) eqn:Hm.
    + destruct (settled_turn m (remove_nth n (tasks m)) (view m)
                  [Settle (awaited t) o] (resume t o) H Hm
                  (Forall_remove_nth _ _ _ Ht) Ho Hn (fun h => eq_refl))
        as [S [new [Eh Hs]]].
      split; [exact S|]. exists ([Settle (awaited t) o] ++ new).
      split; [exact Eh|].
      apply Forall_append; [|exact Hs].
      apply Forall_cons; [reflexivity | apply Forall_nil].
    + rewrite turn_unmounted by assumption. rewrite Ho, app_nil_r.
      split.
      * split; cbn [tasks mounted]; [|intros Hx; discriminate].
        apply Forall_remove_nth. exact Ht.
      * cbn [history]. eexists. split; [reflexivity|].
        apply Forall_append.
        -- apply Forall_cons; [reflexivity | apply Forall_nil].
        -- apply neutral_silent. exact Hn.
Qed.

Lemma settled_run inputs : forall m,
  settled_down m -> Forall no_click inputs ->
  settled_down (run m inputs)
  /\ exists new, history (run m inputs) = history m ++ new /\ Forall silent new.
Proof.
  induction inputs as [|i inputs IH]; intros m H Hi; simpl.
  - split; [exact H|]. exists []. rewrite app_nil_r.
    split; [reflexivity | apply Forall_nil].
  - inversion Hi as [|? ? Hi1 Hrest]; subst.
    destruct (settled_step m i H Hi1) as [H1 [new1 [E1 S1]]].
    destruct (IH _ H1 Hrest) as [H2 [new2 [E2 S2]]].
    split; [exact H2|]. exists (new1 ++ new2).
    split; [rewrite E2, E1, app_assoc; reflexivity|].
    apply Forall_append; assumption.
Qed.

(** A mounted machine that is not loading has nothing under way. *)
Lemma idle_settled m :
  one_lane m -> mounted m = true -> isLoading (view m) = false ->
  settled_down m.
Proof.
  intros [Hk Hl] Hm Hf. destruct (Hl Hm) as [_ H0]. specialize (H0 Hf).
  unfold in_flight in H0. split.
  - apply lanes_none; [exact Hk | lia].
  - intros _. lia.
Qed.

(** ** The effects of a commit, one by one *)

Lemma commit_trace prev cur :
  effects_trace (due prev cur) =
  (if connect_due prev cur then trace [] (connectEffect cur) else [])
  ++ (if balance_due prev cur then trace [] (balanceEffect cur) else [])
  ++ (if isApproved_due prev cur then trace [] (isApprovedEffect cur) else [])
  ++ (if mutation_due approve_hook prev cur
      then trace [] (approveEffect cur) else [])
  ++ (if mutation_due deposit_hook prev cur
      then trace [] (depositEffect cur) else [])
  ++ (if mutation_due withdraw_hook prev cur
      then trace [] (withdrawEffect cur) else []).
Proof.
  unfold due, changed, effects. simpl combine.
  repeat rewrite effects_trace_cons. repeat rewrite fired_trace_spec.
  simpl body. unfold effects_trace. simpl run_effects. cbn [fst].
  rewrite app_nil_r. reflexivity.
Qed.

Lemma commit_tasks prev cur :
  effects_tasks (due prev cur) =
  (if connect_due prev cur
   then task_of (outcome [] (connectEffect cur)) else [])
  ++ (if mutation_due approve_hook prev cur
      then task_of (outcome [] (approveEffect cur)) else [])
  ++ (if mutation_due deposit_hook prev cur
      then task_of (outcome [] (depositEffect cur)) else [])
  ++ (if mutation_due withdraw_hook prev cur
      then task_of (outcome [] (withdrawEffect cur)) else []).
Proof.
  unfold due, changed, effects. simpl combine.
  repeat rewrite effects_tasks_cons.
  destruct (synchronous_fires
              (negb (same_bigint (bankBalance prev) (bankBalance cur))) cur)
    as [Eb _].
  destruct (synchronous_fires
              (negb (same_bigint (allowance prev) (allowance cur)
                     && String.eqb (amount prev) (amount cur))) cur)
    as [_ Ei].
  rewrite Eb, Ei. repeat rewrite fired_tasks_spec.
  simpl body. unfold effects_tasks. simpl run_effects. cbn [snd fst].
  rewrite app_nil_r. reflexivity.
Qed.

Lemma same_string_eq a b : same_string a b = true <-> a = b.
Proof.
  split; [|intros ->; apply same_string_refl].
  destruct a, b; simpl; intros H; try discriminate; auto.
  apply String.eqb_eq in H. congruence.
Qed.

Lemma same_bigint_iff a b : same_bigint a b = true <-> a = b.
Proof.
  split; [apply same_bigint_eq | intros ->; apply same_bigint_refl].
Qed.

(** A turn that only takes new hook outputs, when these leave the three
    mutation hooks, the allowance and the amount alone. *)
Lemma hooked_commit m hooked :
  mounted m = true ->
  (forall h, mutation_of h hooked = mutation_of h (view m)) ->
  allowance hooked = allowance (view m) ->
  amount hooked = amount (view m) ->
  turn m (tasks m) hooked [] (Ret tt) =
  let tr :=
    (if connect_due (view m) hooked then trace [] (connectEffect hooked) else [])
    ++ (if balance_due (view m) hooked
        then trace [] (balanceEffect hooked) else []) in
  mkMachine (after tr hooked) true
    (tasks m ++
     (if connect_due (view m) hooked
      then task_of (outcome [] (connectEffect hooked)) else []))
    (history m ++ tr).
Proof.
  intros Hm Hmut Hal Ham. rewrite turn_mounted by assumption.
  cbv zeta. change (after (trace [] (Ret tt)) hooked) with hooked.
  change (trace [] (Ret tt)) with (@nil Event).
  change (task_of (outcome [] (Ret tt))) with (@nil Task).
  rewrite commit_trace, commit_tasks, due_crash.
  unfold isApproved_due, mutation_due.
  rewrite !Hmut, Hal, Ham, same_bigint_refl, String.eqb_refl,
    !same_mutation_refl.
  simpl negb. cbn iota. rewrite !app_nil_r. reflexivity.
Qed.

(** ** A confirmation chain, turn by turn *)

Lemma same_deps_commit prev cur :
  same_deps prev cur -> run_effects (due prev cur) = ([], [], false).
Proof.
  intros [Hc [Ha [Hb [Hal [Ham Hmut]]]]].
  pose proof (commit_trace prev cur) as Et.
  pose proof (commit_tasks prev cur) as Ets.
  pose proof (due_crash prev cur) as Ec.
  unfold connect_due, balance_due, isApproved_due, mutation_due in *.
  rewrite !Hmut, Hc, Ha, Hb, Hal, Ham in *.
  rewrite !same_mutation_refl, same_string_refl, !same_bigint_refl,
    String.eqb_refl, Bool.eqb_reflx in *.
  simpl in Et, Ets, Ec.
  unfold effects_trace, effects_tasks, effects_crash in *.
  destruct (run_effects (due prev cur)) as [[tr ts] c]. simpl in *.
  congruence.
Qed.

Lemma neutral_same_deps tr s :
  Forall (calls dep_neutral) tr -> same_deps s (after tr s).
Proof.
  intros H. repeat split; try intros h;
    apply (after_keeps _ dep_neutral); try exact H;
    intros [] ? Hn; simpl in *; try reflexivity; try contradiction;
    destruct h; reflexivity.
Qed.

(** The three stages of a chain started with a public client. *)
Lemma wait_chain r h cb :
  publicClient r = true ->
  exists k k',
    exec [] (waitForTransaction r h ;; cb) = (waiting h, Suspended (receipt h) k)
    /\ exec [] (k Rejected) = (failing, Thrown "rejected")
    /\ exec [] (k Fulfilled) =
       ([Did (setProgress 100); Did (setTimeout 500)], Suspended (timer 500) k')
    /\ forall o, exec [] (k' o) = (cleared ++ trace [] cb, outcome [] cb).
Proof.
  intros Hc. unfold waitForTransaction. rewrite Hc. simpl.
  eexists. eexists. split; [reflexivity|]. split; [reflexivity|].
  split; [reflexivity|]. intros o. unfold trace, outcome. simpl.
  destruct (exec [] cb). reflexivity.
Qed.

Lemma submitted_hooks s hk res :
  mutation_of hk s = pending ->
  mutation_of hk (hooks s (submitted hk res))
  = match res with Some hash => success hash | None => error end
  /\ (forall k, k <> hk ->
        mutation_of k (hooks s (submitted hk res)) = mutation_of k s)
  /\ amount (hooks s (submitted hk res)) = amount s
  /\ address (hooks s (submitted hk res)) = address s
  /\ isConnected (hooks s (submitted hk res)) = isConnected s
  /\ bankBalance (hooks s (submitted hk res)) = bankBalance s
  /\ allowance (hooks s (submitted hk res)) = allowance s
  /\ publicClient (hooks s (submitted hk res)) = publicClient s
  /\ isLoading (hooks s (submitted hk res)) = isLoading s.
Proof.
  intros Hp.
  destruct hk; simpl in Hp |- *;
    destruct (depositM s) eqn:D, (withdrawM s) eqn:W, (approveM s) eqn:A;
    try discriminate;
    repeat split; try reflexivity;
    intros k Hk; destruct k; simpl; congruence.
Qed.

Lemma last_task {A : Type} (ts : list A) t :
  nth_error (ts ++ [t]) (List.length ts) = Some t
  /\ remove_nth (List.length ts) (ts ++ [t]) = ts.
Proof.
  induction ts as [|x ts [IH1 IH2]]; simpl; [split; reflexivity|].
  split; [exact IH1 | rewrite IH2; reflexivity].
Qed.

(** A turn with no effect due. *)
Lemma plain_turn m remaining announce p :
  mounted m = true ->
  same_deps (view m) (after (trace [] p) (view m)) ->
  turn m remaining (view m) announce p =
  mkMachine (after (trace [] p) (view m)) true
    (remaining ++ task_of (outcome [] p))
    (history m ++ announce ++ trace [] p).
Proof.
  intros Hm Hs. rewrite turn_mounted by assumption. cbv zeta.
  unfold effects_trace, effects_tasks, effects_crash.
  rewrite (same_deps_commit _ _ Hs). simpl. rewrite !app_nil_r. reflexivity.
Qed.

(** ** Chains on the machine *)

Lemma closing_fields s :
  let s' := after (cleared ++ [Did refetchBalance; Did (setAmount EmptyString)]) s in
  isConnected s' = isConnected s /\ address s' = address s
  /\ bankBalance s' = bankBalance s /\ allowance s' = allowance s
  /\ (forall k, mutation_of k s' = mutation_of k s)
  /\ amount s' = EmptyString /\ isLoading s' = false /\ progress s' = 0.
Proof. repeat split. Qed.

(** The machine after the wallet's hash for a pending deposit or
    withdrawal, the receipt and the pause, given the chain the effect of
    the hook starts. *)
Lemma transfer_completes m hk h o k k' :
  mounted m = true ->
  publicClient (view m) = true ->
  hk <> approve_hook ->
  mutation_of hk (view m) = pending ->
  step m (submitted hk (Some h)) =
    mkMachine (after (waiting h) (hooks (view m) (submitted hk (Some h))))
      true (tasks m ++ [mkTask (receipt h) k]) (history m ++ waiting h) ->
  exec [] (k Fulfilled) =
    ([Did (setProgress 100); Did (setTimeout 500)], Suspended (timer 500) k') ->
  exec [] (k' o) =
    (cleared ++ [Did refetchBalance; Did (setAmount EmptyString)], Returned) ->
  let m' := run m [submitted hk (Some h);
                   settled (List.length (tasks m)) Fulfilled;
                   settled (List.length (tasks m)) o] in
  mounted m' = true
  /\ amount (view m') = EmptyString
  /\ isLoading (view m') = false
  /\ progress (view m') = 0
  /\ mutation_of hk (view m') = success h
  /\ tasks m' = tasks m
  /\ exists tail,
       history m' = history m ++ waiting h ++ confirmed h
                      ++ Settle (timer 500) o :: cleared
                      ++ [Did refetchBalance; Did (setAmount EmptyString)]
                      ++ tail
       /\ (tail = [] \/ exists b, tail = [Did (setIsApproved b)]).
Proof.
  intros Hm Hc Hk Hp E1 Eful Eslp m'.
  destruct (submitted_hooks (view m) hk (Some h) Hp)
    as [Hs [Ho [Ham [Had [Hic [Hbb [Hal [Hpc Hil]]]]]]]].
  set (hooked := hooks (view m) (submitted hk (Some h))) in *.
  set (n := List.length (tasks m)) in *.
  set (m1 := mkMachine (after (waiting h) hooked) true
               (tasks m ++ [mkTask (receipt h) k]) (history m ++ waiting h))
    in *.
  destruct (last_task (tasks m) (mkTask (receipt h) k)) as [N1 R1].
  destruct (last_task (tasks m) (mkTask (timer 500) k')) as [N2 R2].
  fold n in N1, R1, N2, R2.
  (* the receipt *)
  assert (E2 : step m1 (settled n Fulfilled) =
               mkMachine (after [Did (setProgress 100); Did (setTimeout 500)]
                            (view m1))
                 true (tasks m ++ [mkTask (timer 500) k'])
                 (history m1 ++ [Settle (receipt h) Fulfilled]
                    ++ [Did (setProgress 100); Did (setTimeout 500)])).
  { cbv beta iota delta [step]. cbn [tasks m1]. rewrite N1, R1.
    cbn [resume awaited].
    rewrite plain_turn;
      [unfold trace, outcome; rewrite Eful; reflexivity | reflexivity |].
    unfold trace. rewrite Eful. cbn [fst].
    apply neutral_same_deps. repeat constructor. }
  set (m2 := mkMachine (after [Did (setProgress 100); Did (setTimeout 500)]
                          (view m1))
               true (tasks m ++ [mkTask (timer 500) k'])
               (history m1 ++ [Settle (receipt h) Fulfilled]
                  ++ [Did (setProgress 100); Did (setTimeout 500)])) in *.
  (* the pause *)
  set (closing := cleared ++ [Did refetchBalance; Did (setAmount EmptyString)])
    in *.
  set (s3 := after closing (view m2)).
  destruct (closing_fields (view m2))
    as [F1 [F2 [F3 [F4 [F5 [F6 [F7 F8]]]]]]].
  fold closing in F1, F2, F3, F4, F5, F6, F7, F8.
  fold s3 in F1, F2, F3, F4, F5, F6, F7, F8.
  set (tail := if isApproved_due (view m2) s3
               then trace [] (isApprovedEffect s3) else []).
  assert (Hrun : exec [] (isApprovedEffect s3) =
                 (match allowance s3 with
                  | Some al => [Did (setIsApproved (0 <? al))]
                  | None => []
                  end, Returned)).
  { rewrite isApprovedEffect_run, F6. cbn [truthy_string String.eqb negb].
    destruct (allowance s3); reflexivity. }
  assert (E3 : step m2 (settled n o) =
               mkMachine (after tail s3) true (tasks m)
                 (history m2 ++ [Settle (timer 500) o] ++ closing ++ tail)).
  { cbv beta iota delta [step]. cbn [tasks m2]. rewrite N2, R2.
    cbn [resume awaited]. rewrite turn_mounted by reflexivity. cbv zeta.
    assert (Etr : trace [] (k' o) = closing)
      by (unfold trace; rewrite Eslp; reflexivity).
    assert (Eout : outcome [] (k' o) = Returned)
      by (unfold outcome; rewrite Eslp; reflexivity).
    rewrite !Etr, Eout. cbn [task_of].
    fold s3. rewrite commit_trace, commit_tasks, due_crash.
    unfold connect_due, balance_due, mutation_due.
    rewrite !F5, F1, F2, F3.
    rewrite !same_mutation_refl, same_string_refl, same_bigint_refl,
      Bool.eqb_reflx.
    fold (isApproved_due (view m2) s3).
    unfold outcome. rewrite Hrun. cbn [snd threw negb andb app].
    rewrite andb_false_r, !app_nil_r. fold tail. reflexivity. }
  assert (Em' : m' = step m2 (settled n o)).
  { unfold m'. cbn [run fold_left]. rewrite E1. fold hooked. fold m1.
    rewrite E2. reflexivity. }
  assert (Htail : tail = [] \/ exists b, tail = [Did (setIsApproved b)]).
  { unfold tail, trace. rewrite Hrun. cbn [fst].
    destruct (isApproved_due (view m2) s3); [|left; reflexivity].
    destruct (allowance s3); [right; eexists; reflexivity | left; reflexivity]. }
  assert (Keep : forall {A : Type} (f : State -> A),
             (forall s b, f (write s (setIsApproved b)) = f s) ->
             f (after tail s3) = f s3).
  { intros A f Hf. destruct Htail as [-> | [b ->]]; [reflexivity|].
    apply Hf. }
  rewrite Em', E3. cbn [mounted view tasks history].
  split; [reflexivity|].
  split; [rewrite (Keep _ amount) by reflexivity; exact F6|].
  split; [rewrite (Keep _ isLoading) by reflexivity; exact F7|].
  split; [rewrite (Keep _ progress) by reflexivity; exact F8|].
  split.
  { rewrite (Keep _ (mutation_of hk)) by (intros; destruct hk; reflexivity).
    rewrite F5. unfold m2, m1. cbn [view].
    transitivity (mutation_of hk hooked); [|exact Hs].
    destruct hk; reflexivity. }
  split; [reflexivity|].
  exists tail. split; [|exact Htail].
  unfold m2, m1. cbn [history]. unfold confirmed, closing.
  rewrite <- !app_assoc. reflexivity.
Qed.

Lemma deposit_accepted m h :
  mounted m = true -> publicClient (view m) = true ->
  mutation_of deposit_hook (view m) = pending -> truthy_string h = true ->
  exists k k',
    step m (submitted deposit_hook (Some h)) =
      mkMachine
        (after (waiting h) (hooks (view m) (submitted deposit_hook (Some h))))
        true (tasks m ++ [mkTask (receipt h) k]) (history m ++ waiting h)
    /\ exec [] (k Rejected) = (failing, Thrown "rejected")
    /\ exec [] (k Fulfilled) =
       ([Did (setProgress 100); Did (setTimeout 500)],
        Suspended (timer 500) k')
    /\ forall o,
         exec [] (k' o) =
         (cleared ++ trace [] (call refetchBalance ;; call (setAmount EmptyString)),
          outcome [] (call refetchBalance ;; call (setAmount EmptyString))).
Proof.
  intros Hm Hc Hp Ht.
  destruct (submitted_hooks (view m) deposit_hook (Some h) Hp)
    as [Hs [Ho [Ham [Had [Hic [Hbb [Hal [Hpc Hil]]]]]]]].
  set (hooked := hooks (view m) (submitted deposit_hook (Some h))) in *.
  simpl in Hs, Hp.
  destruct (depositEffect_guard hooked) as [[h' [Hm' [_ E]]] | [_ Hf]].
  2:{ rewrite Hs in Hf. simpl in Hf. rewrite Ht in Hf. discriminate. }
  rewrite Hs in Hm'. inversion Hm'; subst h'.
  rewrite Hc in Hpc.
  destruct (wait_chain hooked h
              (call refetchBalance ;; call (setAmount EmptyString)) Hpc)
    as [k [k' [E0 [Er [Ef Es]]]]].
  exists k, k'.
  split; [|split; [exact Er | split; [exact Ef | exact Es]]].
  cbv beta iota delta [step]. rewrite Hm. fold hooked.
  rewrite turn_mounted by assumption. cbv zeta.
  change (after (trace [] (Ret tt)) hooked) with hooked.
  change (trace [] (Ret tt)) with (@nil Event).
  change (task_of (outcome [] (Ret tt))) with (@nil Task).
  rewrite commit_trace, commit_tasks, due_crash.
  unfold connect_due, balance_due, isApproved_due, mutation_due.
  rewrite Hic, Had, Hbb, Hal, Ham.
  rewrite ?(Ho approve_hook) by discriminate.
  rewrite ?(Ho deposit_hook) by discriminate.
  rewrite ?(Ho withdraw_hook) by discriminate.
  rewrite ?same_mutation_refl, same_string_refl, !same_bigint_refl,
    String.eqb_refl, Bool.eqb_reflx.
  simpl mutation_of. rewrite Hp, Hs.
  unfold trace, outcome. rewrite E, E0.
  simpl. rewrite ?app_nil_r. reflexivity.
Qed.

Lemma withdraw_accepted m h :
  mounted m = true -> publicClient (view m) = true ->
  mutation_of withdraw_hook (view m) = pending -> truthy_string h = true ->
  exists k k',
    step m (submitted withdraw_hook (Some h)) =
      mkMachine
        (after (waiting h) (hooks (view m) (submitted withdraw_hook (Some h))))
        true (tasks m ++ [mkTask (receipt h) k]) (history m ++ waiting h)
    /\ exec [] (k Rejected) = (failing, Thrown "rejected")
    /\ exec [] (k Fulfilled) =
       ([Did (setProgress 100); Did (setTimeout 500)],
        Suspended (timer 500) k')
    /\ forall o,
         exec [] (k' o) =
         (cleared ++ trace [] (call refetchBalance ;; call (setAmount EmptyString)),
          outcome [] (call refetchBalance ;; call (setAmount EmptyString))).
Proof.
  intros Hm Hc Hp Ht.
  destruct (submitted_hooks (view m) withdraw_hook (Some h) Hp)
    as [Hs [Ho [Ham [Had [Hic [Hbb [Hal [Hpc Hil]]]]]]]].
  set (hooked := hooks (view m) (submitted withdraw_hook (Some h))) in *.
  simpl in Hs, Hp.
  destruct (withdrawEffect_guard hooked) as [[h' [Hm' [_ E]]] | [_ Hf]].
  2:{ rewrite Hs in Hf. simpl in Hf. rewrite Ht in Hf. discriminate. }
  rewrite Hs in Hm'. inversion Hm'; subst h'.
  rewrite Hc in Hpc.
  destruct (wait_chain hooked h
              (call refetchBalance ;; call (setAmount EmptyString)) Hpc)
    as [k [k' [E0 [Er [Ef Es]]]]].
  exists k, k'.
  split; [|split; [exact Er | split; [exact Ef | exact Es]]].
  cbv beta iota delta [step]. rewrite Hm. fold hooked.
  rewrite turn_mounted by assumption. cbv zeta.
  change (after (trace [] (Ret tt)) hooked) with hooked.
  change (trace [] (Ret tt)) with (@nil Event).
  change (task_of (outcome [] (Ret tt))) with (@nil Task).
  rewrite commit_trace, commit_tasks, due_crash.
  unfold connect_due, balance_due, isApproved_due, mutation_due.
  rewrite Hic, Had, Hbb, Hal, Ham.
  rewrite ?(Ho approve_hook) by discriminate.
  rewrite ?(Ho deposit_hook) by discriminate.
  rewrite ?(Ho withdraw_hook) by discriminate.
  rewrite ?same_mutation_refl, same_string_refl, !same_bigint_refl,
    String.eqb_refl, Bool.eqb_reflx.
  simpl mutation_of. rewrite Hp, Hs.
  unfold trace, outcome. rewrite E, E0.
  simpl. rewrite ?app_nil_r. reflexivity.
Qed.

Lemma transfer_fails m hk h k :
  mounted m = true ->
  mutation_of hk (view m) = pending ->
  step m (submitted hk (Some h)) =
    mkMachine (after (waiting h) (hooks (view m) (submitted hk (Some h))))
      true (tasks m ++ [mkTask (receipt h) k]) (history m ++ waiting h) ->
  exec [] (k Rejected) = (failing, Thrown "rejected") ->
  let m' := run m [submitted hk (Some h);
                   settled (List.length (tasks m)) Rejected] in
  mounted m' = true
  /\ amount (view m') = amount (view m)
  /\ isLoading (view m') = false
  /\ progress (view m') = 0
  /\ mutation_of hk (view m') = success h
  /\ tasks m' = tasks m
  /\ history m' = history m ++ waiting h ++ failed h.
Proof.
  intros Hm Hp E1 Er m'.
  destruct (submitted_hooks (view m) hk (Some h) Hp)
    as [Hs [Ho [Ham [Had [Hic [Hbb [Hal [Hpc Hil]]]]]]]].
  set (hooked := hooks (view m) (submitted hk (Some h))) in *.
  set (n := List.length (tasks m)) in *.
  set (m1 := mkMachine (after (waiting h) hooked) true
               (tasks m ++ [mkTask (receipt h) k]) (history m ++ waiting h))
    in *.
  destruct (last_task (tasks m) (mkTask (receipt h) k)) as [N1 R1].
  fold n in N1, R1.
  assert (E2 : step m1 (settled n Rejected) =
               mkMachine (after failing (view m1)) true (tasks m)
                 (history m1 ++ [Settle (receipt h) Rejected] ++ failing)).
  { cbv beta iota delta [step]. cbn [tasks m1]. rewrite N1, R1.
    cbn [resume awaited].
    rewrite plain_turn;
      [unfold trace, outcome; rewrite Er; cbn [fst snd task_of];
       rewrite app_nil_r; reflexivity
      | reflexivity |].
    unfold trace. rewrite Er. cbn [fst].
    apply neutral_same_deps. repeat constructor. }
  assert (Em' : m' = step m1 (settled n Rejected)).
  { unfold m'. cbn [run fold_left]. rewrite E1. reflexivity. }
  rewrite Em', E2. cbn [mounted view tasks history m1].
  split; [reflexivity|]. split; [exact Ham|].
  split; [reflexivity|]. split; [reflexivity|].
  split.
  { transitivity (mutation_of hk hooked); [|exact Hs].
    destruct hk; reflexivity. }
  split; [reflexivity|].
  unfold failed, failing. rewrite <- !app_assoc. reflexivity.
Qed.

(** Typing an amount [parseUnits] accepts: the amount is set, and at most
    the [isApproved] effect runs. *)
Lemma typing_step m v a :
  mounted m = true ->
  parseUnits v 18 = Some a ->
  exists mid,
    step m (onChange v) =
      mkMachine (after mid (write (view m) (setAmount v))) true (tasks m)
        (history m ++ Did (setAmount v) :: mid)
    /\ (mid = [] \/ exists b, mid = [Did (setIsApproved b)]).
Proof.
  intros Hm Hp.
  set (s2 := write (view m) (setAmount v)).
  assert (Hrun : exists tr,
             exec [] (isApprovedEffect s2) = (tr, Returned)
             /\ (tr = [] \/ exists b, tr = [Did (setIsApproved b)])).
  { rewrite isApprovedEffect_run. change (amount s2) with v. rewrite Hp.
    destruct (allowance s2) as [al|]; [|eexists; split; [reflexivity | auto]].
    destruct (truthy_string v); eexists; (split; [reflexivity|]);
      right; eexists; reflexivity. }
  destruct Hrun as [tr [Er Htr]].
  exists (if isApproved_due (view m) s2 then tr else []). split.
  - cbv beta iota delta [step]. rewrite Hm.
    rewrite turn_mounted by assumption. cbv zeta.
    change (after (trace [] (call (setAmount v))) (view m)) with s2.
    change (trace [] (call (setAmount v))) with [Did (setAmount v)].
    change (task_of (outcome [] (call (setAmount v)))) with (@nil Task).
    rewrite commit_trace, commit_tasks, due_crash.
    unfold connect_due, balance_due, mutation_due.
    change (isConnected s2) with (isConnected (view m)).
    change (address s2) with (address (view m)).
    change (bankBalance s2) with (bankBalance (view m)).
    change (mutation_of approve_hook s2)
      with (mutation_of approve_hook (view m)).
    change (mutation_of deposit_hook s2)
      with (mutation_of deposit_hook (view m)).
    change (mutation_of withdraw_hook s2)
      with (mutation_of withdraw_hook (view m)).
    rewrite !same_mutation_refl, same_string_refl, same_bigint_refl,
      Bool.eqb_reflx.
    fold (isApproved_due (view m) s2).
    unfold trace, outcome. rewrite Er. cbn [fst snd threw negb andb app].
    rewrite andb_false_r, !app_nil_r. reflexivity.
  - destruct (isApproved_due (view m) s2); [exact Htr | left; reflexivity].
Qed.

Lemma chained_fields a s :
  let s' := after (cleared ++ Did refetchAllowance :: depositing a) s in
  isConnected s' = isConnected s /\ address s' = address s
  /\ bankBalance s' = bankBalance s /\ allowance s' = allowance s
  /\ amount s' = amount s
  /\ approveM s' = approveM s /\ withdrawM s' = withdrawM s
  /\ depositM s' = pending /\ isLoading s' = true /\ progress s' = 25.
Proof. repeat split. Qed.

Lemma approve_accepted m h a :
  mounted m = true -> publicClient (view m) = true ->
  mutation_of approve_hook (view m) = pending -> truthy_string h = true ->
  truthy_string (amount (view m)) = true ->
  parseUnits (amount (view m)) 18 = Some a ->
  exists k k',
    step m (submitted approve_hook (Some h)) =
      mkMachine
        (after (waiting h) (hooks (view m) (submitted approve_hook (Some h))))
        true (tasks m ++ [mkTask (receipt h) k]) (history m ++ waiting h)
    /\ exec [] (k Rejected) = (failing, Thrown "rejected")
    /\ exec [] (k Fulfilled) =
       ([Did (setProgress 100); Did (setTimeout 500)],
        Suspended (timer 500) k')
    /\ forall o,
         exec [] (k' o) =
         (cleared ++ Did refetchAllowance :: depositing a, Returned).
Proof.
  intros Hm Hc Hp Ht Hty Hpa.
  destruct (submitted_hooks (view m) approve_hook (Some h) Hp)
    as [Hs [Ho [Ham [Had [Hic [Hbb [Hal [Hpc Hil]]]]]]]].
  set (hooked := hooks (view m) (submitted approve_hook (Some h))) in *.
  simpl in Hs, Hp.
  destruct (approveEffect_guard hooked) as [[h' [Hm' [_ E]]] | [_ Hf]].
  2:{ rewrite Hs in Hf. simpl in Hf. rewrite Ht in Hf. discriminate. }
  rewrite Hs in Hm'. inversion Hm'; subst h'.
  rewrite Hc in Hpc.
  destruct (wait_chain hooked h
              (call refetchAllowance ;; handleDeposit hooked true) Hpc)
    as [k [k' [E0 [Er [Ef Es]]]]].
  assert (Ecb : exec [] (call refetchAllowance ;; handleDeposit hooked true)
                = (Did refetchAllowance :: depositing a, Returned)).
  { rewrite approve_callback. unfold trace, outcome.
    rewrite (handleDeposit_deposits hooked) with (a := a);
      [reflexivity | rewrite Ham; exact Hty | exact Hpc
      | rewrite Ham; exact Hpa | apply skip_never_requires]. }
  exists k, k'.
  split; [|split; [exact Er | split; [exact Ef|]]].
  2:{ intros o. rewrite Es. unfold trace, outcome. rewrite Ecb. reflexivity. }
  cbv beta iota delta [step]. rewrite Hm. fold hooked.
  rewrite turn_mounted by assumption. cbv zeta.
  change (after (trace [] (Ret tt)) hooked) with hooked.
  change (trace [] (Ret tt)) with (@nil Event).
  change (task_of (outcome [] (Ret tt))) with (@nil Task).
  rewrite commit_trace, commit_tasks, due_crash.
  unfold connect_due, balance_due, isApproved_due, mutation_due.
  rewrite Hic, Had, Hbb, Hal, Ham.
  rewrite ?(Ho deposit_hook) by discriminate.
  rewrite ?(Ho withdraw_hook) by discriminate.
  rewrite ?same_mutation_refl, same_string_refl, !same_bigint_refl,
    String.eqb_refl, Bool.eqb_reflx.
  simpl mutation_of. rewrite Hp, Hs.
  unfold trace, outcome. rewrite E, E0.
  simpl. rewrite ?app_nil_r. reflexivity.
Qed.


(** The machine after the wallet's hash for a pending approval, the
    receipt and the pause, given the chain the effect starts. *)
Lemma approval_completes m h a o k k' :
  mounted m = true ->
  step m (submitted approve_hook (Some h)) =
    mkMachine (after (waiting h) (hooks (view m) (submitted approve_hook (Some h))))
      true (tasks m ++ [mkTask (receipt h) k]) (history m ++ waiting h) ->
  exec [] (k Fulfilled) =
    ([Did (setProgress 100); Did (setTimeout 500)], Suspended (timer 500) k') ->
  exec [] (k' o) = (cleared ++ Did refetchAllowance :: depositing a, Returned) ->
  run m [submitted approve_hook (Some h);
         settled (List.length (tasks m)) Fulfilled;
         settled (List.length (tasks m)) o]
  = mkMachine
      (after (cleared ++ Did refetchAllowance :: depositing a)
         (after [Did (setProgress 100); Did (setTimeout 500)]
            (after (waiting h)
               (hooks (view m) (submitted approve_hook (Some h))))))
      true (tasks m)
      (history m ++ waiting h ++ confirmed h
         ++ Settle (timer 500) o :: cleared
         ++ Did refetchAllowance :: depositing a).
Proof.
  intros Hm E1 Ef Es.
  set (hooked := hooks (view m) (submitted approve_hook (Some h))) in *.
  set (n := List.length (tasks m)) in *.
  set (m1 := mkMachine (after (waiting h) hooked) true
               (tasks m ++ [mkTask (receipt h) k]) (history m ++ waiting h))
    in *.
  destruct (last_task (tasks m) (mkTask (receipt h) k)) as [N1 R1].
  destruct (last_task (tasks m) (mkTask (timer 500) k')) as [N2 R2].
  fold n in N1, R1, N2, R2.
  assert (E3 : step m1 (settled n Fulfilled) =
               mkMachine (after [Did (setProgress 100); Did (setTimeout 500)]
                            (view m1))
                 true (tasks m ++ [mkTask (timer 500) k'])
                 (history m1 ++ [Settle (receipt h) Fulfilled]
                    ++ [Did (setProgress 100); Did (setTimeout 500)])).
  { cbv beta iota delta [step]. cbn [tasks m1]. rewrite N1, R1.
    cbn [resume awaited].
    rewrite plain_turn;
      [unfold trace, outcome; rewrite Ef; reflexivity | reflexivity |].
    unfold trace. rewrite Ef. cbn [fst].
    apply neutral_same_deps. repeat constructor. }
  set (m3 := mkMachine (after [Did (setProgress 100); Did (setTimeout 500)]
                          (view m1))
               true (tasks m ++ [mkTask (timer 500) k'])
               (history m1 ++ [Settle (receipt h) Fulfilled]
                  ++ [Did (setProgress 100); Did (setTimeout 500)])) in *.
  set (closing := cleared ++ Did refetchAllowance :: depositing a) in *.
  set (s4 := after closing (view m3)).
  destruct (chained_fields a (view m3))
    as [F1 [F2 [F3 [F4 [F5 [F6 [F7 [F8 [F9 F10]]]]]]]]].
  fold closing in F1, F2, F3, F4, F5, F6, F7, F8, F9, F10.
  fold s4 in F1, F2, F3, F4, F5, F6, F7, F8, F9, F10.
  assert (Hd : depositEffect s4 = Ret tt).
  { destruct (depositEffect_guard s4) as [[h' [Hx _]] | [E _]];
      [rewrite F8 in Hx; discriminate | exact E]. }
  assert (E4 : step m3 (settled n o) =
               mkMachine s4 true (tasks m)
                 (history m3 ++ [Settle (timer 500) o] ++ closing)).
  { cbv beta iota delta [step]. cbn [tasks m3]. rewrite N2, R2.
    cbn [resume awaited]. rewrite turn_mounted by reflexivity. cbv zeta.
    assert (Etr : trace [] (k' o) = closing)
      by (unfold trace; rewrite Es; reflexivity).
    assert (Eout : outcome [] (k' o) = Returned)
      by (unfold outcome; rewrite Es; reflexivity).
    rewrite !Etr, Eout. cbn [task_of]. fold s4.
    rewrite commit_trace, commit_tasks, due_crash.
    unfold connect_due, balance_due, isApproved_due, mutation_due.
    change (mutation_of approve_hook s4) with (approveM s4).
    change (mutation_of withdraw_hook s4) with (withdrawM s4).
    change (mutation_of deposit_hook s4) with (depositM s4).
    rewrite F1, F2, F3, F4, F5, F6, F7, Hd.
    change (mutation_of approve_hook (view m3)) with (approveM (view m3)).
    change (mutation_of withdraw_hook (view m3)) with (withdrawM (view m3)).
    change (mutation_of deposit_hook (view m3)) with (depositM (view m3)).
    rewrite !same_mutation_refl, same_string_refl, !same_bigint_refl,
      String.eqb_refl, Bool.eqb_reflx.
    cbn [negb andb app trace outcome exec fst snd task_of].
    destruct (negb (same_mutation (depositM (view m3)) (depositM s4)));
      rewrite !app_nil_r; reflexivity. }
  cbn [run fold_left]. rewrite E1. fold m1. rewrite E3. fold m3. rewrite E4.
  unfold s4, m3, m1. cbn [view history]. unfold confirmed, closing.
  rewrite <- ?app_assoc. cbn [app]. rewrite <- ?app_assoc. reflexivity.
Qed.

(** ** The balance read *)

(** What the effect on [bankBalance] displays when the read delivers [d]. *)
Lemma balance_data_commit m d :
  mounted m = true ->
  step m (balanceData d) =
  mkMachine
    (after
       (if same_bigint (bankBalance (view m)) d then []
        else match d with
             | Some v =>
                 if v =? 0 then [] else [Did (setBalance (displayBalance v))]
             | None => []
             end)
       (hooks (view m) (balanceData d)))
    true (tasks m)
    (history m ++
       (if same_bigint (bankBalance (view m)) d then []
        else match d with
             | Some v =>
                 if v =? 0 then [] else [Did (setBalance (displayBalance v))]
             | None => []
             end)).
Proof.
  intros Hm.
  assert (E : step m (balanceData d) =
              turn m (tasks m) (hooks (view m) (balanceData d)) [] (Ret tt)).
  { cbv beta iota delta [step]. rewrite Hm. reflexivity. }
  rewrite E, hooked_commit;
    [|exact Hm | intros []; reflexivity | reflexivity | reflexivity].
  assert (Hc : connect_due (view m) (hooks (view m) (balanceData d)) = false).
  { unfold connect_due. cbn [hooks isConnected address].
    rewrite same_string_refl, Bool.eqb_reflx. reflexivity. }
  cbv zeta. rewrite Hc. unfold balance_due, trace.
  rewrite balanceEffect_run. cbn [hooks bankBalance fst view app].
  rewrite app_nil_r.
  destruct (same_bigint (bankBalance (view m)) d); cbn [negb];
    [reflexivity|].
  destruct d as [v|]; [|reflexivity].
  unfold truthy_bigint. destruct (v =? 0); reflexivity.
Qed.



(** ** Invariants kept by every call of the component *)

Section Safety.

Variable P : Action -> Prop.
Variable Q : State -> Prop.

Hypothesis P_setProgress0 : P (setProgress 0).
Hypothesis P_setProgress10 : P (setProgress 10).
Hypothesis P_setProgress25 : P (setProgress 25).
Hypothesis P_setProgress50 : P (setProgress 50).
Hypothesis P_setProgress100 : P (setProgress 100).
Hypothesis P_setIsLoading : forall b, P (setIsLoading b).
Hypothesis P_console_error : forall msg, P (console_error msg).
Hypothesis P_setTimeout : forall ms, P (setTimeout ms).
Hypothesis P_wait : forall h, P (waitForTransactionReceipt h).
Hypothesis P_refetchBalance : P refetchBalance.
Hypothesis P_refetchAllowance : P refetchAllowance.
Hypothesis P_setBalance : forall v, P (setBalance v).
Hypothesis P_approve : P (approve ERC20_ADDRESS BANK_CONTRACT_ADDRESS maxUint256).
Hypothesis P_deposit : forall v, P (deposit BANK_CONTRACT_ADDRESS v).
Hypothesis P_withdraw : forall v, P (withdraw BANK_CONTRACT_ADDRESS v).
Hypothesis P_setAmount : forall v, P (setAmount v).
Hypothesis P_setIsApproved : forall b, P (setIsApproved b).
Hypothesis Q_write : forall s a, P a -> Q s -> Q (write s a).
Hypothesis Q_hooks : forall s i, Q s -> Q (hooks s i).
Hypothesis Q_initial : forall client, Q (initial client).

Lemma Q_after tr : forall s, Forall (calls P) tr -> Q s -> Q (after tr s).
Proof.
  induction tr as [|e tr IH]; intros s H Hs; [exact Hs|].
  inversion H; subst. unfold after in *. simpl. apply IH; [assumption|].
  destruct e as [a|]; simpl in *; auto.
Qed.

Lemma always_isApprovedEffect r : always P (isApprovedEffect r).
Proof.
  unfold isApprovedEffect. destruct (allowance r) as [al|]; [|always_auto].
  destruct (truthy_string (amount r)); always_auto.
Qed.

Ltac by_safety lem :=
  apply lem; auto.

Lemma safe_effect p :
  always P p ->
  Forall (calls P) (trace [] p)
  /\ Forall (safe_task P) (task_of (outcome [] p)).
Proof. intros H. apply (always_exec P p [] H). Qed.

Lemma safe_commit prev cur :
  Forall (calls P) (effects_trace (due prev cur))
  /\ Forall (safe_task P) (effects_tasks (due prev cur)).
Proof.
  rewrite commit_trace, commit_tasks.
  assert (A1 : always P (connectEffect cur)) by by_safety always_connectEffect.
  assert (A2 : always P (balanceEffect cur)) by by_safety always_balanceEffect.
  assert (A3 : always P (isApprovedEffect cur))
    by apply always_isApprovedEffect.
  assert (A4 : always P (approveEffect cur)) by by_safety always_approveEffect.
  assert (A5 : always P (depositEffect cur)) by by_safety always_depositEffect.
  assert (A6 : always P (withdrawEffect cur))
    by by_safety always_withdrawEffect.
  apply safe_effect in A1, A2, A3, A4, A5, A6.
  destruct A1, A2, A3, A4, A5, A6.
  split; repeat apply Forall_append; apply Forall_if; assumption.
Qed.

Lemma safe_turn m remaining hooked announce p :
  safe P Q m ->
  Forall (safe_task P) remaining ->
  always P p ->
  Q hooked ->
  safe P Q (turn m remaining hooked announce p).
Proof.
  intros [Ht Hq] Hr Hp Hh.
  destruct (safe_effect p Hp) as [Htr Hts].
  destruct (mounted m) eqn:Hm.
  - rewrite turn_mounted by assumption. cbv zeta.
    destruct (safe_commit (view m) (after (trace [] p) hooked)) as [Ctr Cts].
    split; cbn [tasks view].
    + repeat apply Forall_append; assumption.
    + apply Q_after; [exact Ctr|]. apply Q_after; assumption.
  - rewrite turn_unmounted by assumption. split; cbn [tasks view].
    + apply Forall_append; assumption.
    + exact Hq.
Qed.

Lemma safe_step m i : safe P Q m -> safe P Q (step m i).
Proof.
  intros H. pose proof H as [Ht Hq].
  destruct i as [v| | |c a|c|d|d|h res|n o]; cbv beta iota delta [step];
    try (destruct (mounted m) eqn:Hm; [|exact H]);
    try (apply safe_turn; auto; [apply always_Ret]).
  - apply safe_turn; auto. apply always_call. apply P_setAmount.
  - apply safe_turn; auto. by_safety always_depositButton.
  - apply safe_turn; auto. by_safety always_withdrawButton.
  - destruct (nth_error (tasks m) n) as [t|] eqn:E; [|exact H].
    apply safe_turn; auto.
    + apply Forall_remove_nth. exact Ht.
    + apply nth_error_In in E. rewrite Forall_forall in Ht. apply (Ht t E).
Qed.

Lemma safe_mount client : safe P Q (mount client).
Proof.
  split.
  - destruct client; exact (Forall_nil _).
  - destruct client;
      [change (Q (write (initial true) (setBalance EmptyString)))
      |change (Q (write (initial false) (setBalance EmptyString)))];
      apply Q_write; auto.
Qed.

Lemma safe_run inputs : forall m, safe P Q m -> safe P Q (run m inputs).
Proof.
  induction inputs as [|i inputs IH]; intros m H; simpl; auto.
  apply IH. apply safe_step. exact H.
Qed.

End Safety.

(** ** The authorization decision *)






Lemma mount_in_sync c : in_sync (view (mount c)).
Proof. destruct c; exact I. Qed.



(** ** Approve first, deposit after the confirmation *)

Lemma approval_confirmed_eq h e :
  approval_confirmed h e = true -> e = Settle (receipt h) Fulfilled.
Proof.
  destruct e as [|[|h'|] []]; simpl; try discriminate.
  intros H. apply String.eqb_eq in H. congruence.
Qed.

Lemma deposits_wait_no_deposit mark tr :
  existsb is_deposit tr = false -> deposits_wait mark tr = true.
Proof.
  induction tr as [|e tr IH]; simpl; [reflexivity|].
  destruct (is_deposit e); simpl; [discriminate|].
  intros H. destruct (mark e); auto.
Qed.

(** In the approval's promise chain a deposit only comes after the
    receipt of the approval. *)
Lemma approveEffect_order r replies :
  exists h, deposits_wait (approval_confirmed h) (trace replies (approveEffect r))
            = true
            /\ (approveHash r = Some h \/ trace replies (approveEffect r) = []).
Proof.
  destruct (approveEffect_guard r) as [[h [Hm [Ht E]]] | [E _]]; rewrite E.
  2:{ exists EmptyString. split; [reflexivity | right; reflexivity]. }
  exists h. split; [|left; unfold approveHash; rewrite Hm; reflexivity].
  unfold trace. destruct (publicClient r) eqn:Hc.
  - destruct replies as [|[] [|o replies]].
    + destruct (wait_pending r h (call refetchAllowance ;; handleDeposit r true) Hc)
        as [k Hk]. rewrite Hk. reflexivity.
    + destruct (wait_sleeping r h (call refetchAllowance ;; handleDeposit r true) Hc)
        as [k Hk]. rewrite Hk. simpl. rewrite String.eqb_refl. reflexivity.
    + rewrite wait_confirmed by assumption. simpl.
      rewrite String.eqb_refl. reflexivity.
    + rewrite wait_rejected by assumption. reflexivity.
    + rewrite wait_rejected by assumption. reflexivity.
  - destruct (wait_clientless r h (call refetchAllowance ;; handleDeposit r true) Hc)
      as [[k Hk] Hr].
    destruct replies as [|o replies].
    + rewrite Hk. reflexivity.
    + rewrite Hr. unfold trace. rewrite approve_callback.
      unfold trace. rewrite handleDeposit_clientless by assumption.
      reflexivity.
Qed.

(** C2.  A click whose decision is insufficient submits the approval and
    returns; and in the approval's promise chain, however the awaited
    promises settle, a deposit call is preceded by the fulfilled receipt
    of the approval's own transaction. *)
Theorem deposit_follows_approval r a :
  truthy_string (amount r) = true ->
  publicClient r = true ->
  parseUnits (amount r) 18 = Some a ->
  decide r a = false ->
  exec [] (depositButton r) =
    (if isLoading r then [] else approving, Returned)
  /\ forall r' replies pre post c v,
       trace replies (approveEffect r') = pre ++ Did (deposit c v) :: post ->
       exists h, approveHash r' = Some h
                 /\ In (Settle (receipt h) Fulfilled) pre.
Proof.
  intros Ht Hc Hp Hd. split.
  - unfold depositButton, disabled. rewrite Ht. simpl.
    destruct (isLoading r); [reflexivity|].
    apply (handleDeposit_approves r Ht Hc a Hp).
    unfold decide in Hd. apply negb_false_iff in Hd. exact Hd.
  - intros r' replies pre post c v E.
    destruct (approveEffect_order r' replies) as [h [Hw Hh]].
    destruct (deposits_wait_spec _ _ Hw pre post c v E) as [e [Hin Hm]].
    apply approval_confirmed_eq in Hm. subst e.
    exists h. split; [|assumption].
    destruct Hh as [Hh | Hn]; [assumption|].
    rewrite Hn in E. destruct pre; discriminate.
Qed.

(** ** Requests while the loading flag is set *)

Lemma due_same s : run_effects (due s s) = ([], [], false).
Proof.
  unfold due, changed.
  rewrite !same_string_refl, !same_bigint_refl, !same_mutation_refl,
    String.eqb_refl, Bool.eqb_reflx.
  reflexivity.
Qed.

Lemma idle_turn m :
  mounted m = true -> turn m (tasks m) (view m) [] (Ret tt) = m.
Proof.
  intros Hm. rewrite turn_mounted by assumption. simpl.
  unfold effects_trace, effects_tasks, effects_crash. rewrite due_same.
  simpl. rewrite !app_nil_r. destruct m; simpl in *; subst; reflexivity.
Qed.

(** The mutation effects of a commit in which a [writeContract] went
    out: the hook is pending, its effect finds no hash. *)
Lemma withdraw_commit s a :
  run_effects (due s (after (withdrawing a) s)) = ([], [], false).
Proof.
  unfold due, changed, effects. simpl.
  rewrite !same_string_refl, !same_bigint_refl, !same_mutation_refl,
    String.eqb_refl, Bool.eqb_reflx. simpl.
  destruct (negb (same_mutation (withdrawM s) pending)); reflexivity.
Qed.

Lemma loading_click m :
  mounted m = true -> isLoading (view m) = true ->
  step m clickDeposit = m /\ step m clickWithdraw = m.
Proof.
  intros Hm Hl. simpl. rewrite Hm.
  unfold depositButton, withdrawButton, disabled.
  rewrite Hl, orb_true_r. split; apply idle_turn; assumption.
Qed.

Lemma deposit_commit s a :
  run_effects (due s (after (depositing a) s)) = ([], [], false).
Proof.
  unfold due, changed, effects. simpl.
  rewrite !same_string_refl, !same_bigint_refl, !same_mutation_refl,
    String.eqb_refl, Bool.eqb_reflx. simpl.
  destruct (negb (same_mutation (depositM s) pending)); reflexivity.
Qed.

Lemma enabled_is_typed r :
  disabled r = false -> truthy_string (amount r) = true.
Proof.
  unfold disabled. intros Hd. apply orb_false_elim in Hd.
  destruct Hd as [Hd _]. apply negb_false_iff in Hd. exact Hd.
Qed.

Lemma withdraw_click m a :
  mounted m = true -> disabled (view m) = false ->
  publicClient (view m) = true ->
  parseUnits (amount (view m)) 18 = Some a ->
  step m clickWithdraw =
  mkMachine (after (withdrawing a) (view m)) true (tasks m)
    (history m ++ withdrawing a).
Proof.
  intros Hm Hd Hc Hp. pose proof (enabled_is_typed _ Hd) as Ht.
  simpl. rewrite Hm, turn_mounted by assumption.
  unfold withdrawButton. rewrite Hd. unfold trace, outcome.
  rewrite (handleWithdraw_withdraws _ Ht Hc a Hp). simpl fst. simpl snd.
  cbv zeta. unfold effects_trace, effects_tasks, effects_crash.
  rewrite withdraw_commit. simpl. rewrite !app_nil_r. reflexivity.
Qed.

Lemma deposit_click m a :
  mounted m = true -> disabled (view m) = false ->
  publicClient (view m) = true ->
  parseUnits (amount (view m)) 18 = Some a ->
  approval_required (view m) false a = false ->
  step m clickDeposit =
  mkMachine (after (depositing a) (view m)) true (tasks m)
    (history m ++ depositing a).
Proof.
  intros Hm Hd Hc Hp Hr. pose proof (enabled_is_typed _ Hd) as Ht.
  simpl. rewrite Hm, turn_mounted by assumption.
  unfold depositButton. rewrite Hd. unfold trace, outcome.
  rewrite (handleDeposit_deposits _ Ht Hc false a Hp Hr). simpl fst. simpl snd.
  cbv zeta. unfold effects_trace, effects_tasks, effects_crash.
  rewrite deposit_commit. simpl. rewrite !app_nil_r. reflexivity.
Qed.

Lemma in_flight_loading m :
  one_lane m -> mounted m = true -> (0 < in_flight m)%nat ->
  isLoading (view m) = true.
Proof.
  intros [_ Hl] Hm Hf. destruct (Hl Hm) as [_ H0].
  destruct (isLoading (view m)); [reflexivity|].
  specialize (H0 eq_refl). lia.
Qed.

(** C3 (amended).  In every state the component reaches, while an
    operation is under way (a submission the wallet has not answered, or a
    confirmation chain) the loading flag is set and both buttons are
    disabled, whichever button started the operation: a click then calls
    nothing, changes nothing and raises nothing.  A click that goes
    through puts its operation under way, so the same click again, or a
    click on the other button, is ignored. *)
Theorem duplicate_clicks_are_ignored client inputs m :
  m = run (mount client) inputs ->
  mounted m = true ->
  ((0 < in_flight m)%nat ->
   isLoading (view m) = true
   /\ exec [] (depositButton (view m)) = ([], Returned)
   /\ exec [] (withdrawButton (view m)) = ([], Returned)
   /\ step m clickDeposit = m
   /\ step m clickWithdraw = m)
  /\ (forall a,
        disabled (view m) = false ->
        publicClient (view m) = true ->
        parseUnits (amount (view m)) 18 = Some a ->
        (history (step m clickWithdraw) = history m ++ withdrawing a
         /\ (0 < in_flight (step m clickWithdraw))%nat
         /\ step (step m clickWithdraw) clickWithdraw = step m clickWithdraw
         /\ step (step m clickWithdraw) clickDeposit = step m clickWithdraw)
        /\ (history (step m clickDeposit)
            = history m ++ (if decide (view m) a then depositing a
                            else approving)
            /\ (0 < in_flight (step m clickDeposit))%nat
            /\ step (step m clickDeposit) clickDeposit = step m clickDeposit
            /\ step (step m clickDeposit) clickWithdraw
               = step m clickDeposit)).
Proof.
  intros Em Hm.
  assert (Lane : one_lane m).
  { subst m. apply run_one_lane. apply mount_one_lane. }
  split.
  - intros Hf. pose proof (in_flight_loading m Lane Hm Hf) as Hl.
    split; [exact Hl|].
    unfold depositButton, withdrawButton, disabled.
    rewrite Hl, orb_true_r.
    split; [reflexivity|]. split; [reflexivity|].
    apply loading_click; assumption.
  - intros a Hd Hc Hp. split.
    + rewrite (withdraw_click m a Hm Hd Hc Hp). cbn [history].
      split; [reflexivity|]. split.
      { unfold in_flight, pendings. cbn [view]. simpl.
        destruct (is_pending (approveM (view m))),
          (is_pending (depositM (view m))); lia. }
      match goal with
      | |- step ?M _ = _ /\ _ =>
          destruct (loading_click M eq_refl eq_refl) as [A B];
          split; assumption
      end.
    + destruct (decide (view m) a) eqn:Hdec; unfold decide in Hdec.
      * apply negb_true_iff in Hdec.
        rewrite (deposit_click m a Hm Hd Hc Hp Hdec). cbn [history].
        split; [reflexivity|]. split.
        { unfold in_flight, pendings. cbn [view]. simpl.
          destruct (is_pending (approveM (view m))),
            (is_pending (withdrawM (view m))); lia. }
        apply loading_click; reflexivity.
      * apply negb_false_iff in Hdec.
        rewrite (approve_click m a Hm Hd Hc Hp Hdec). cbn [history].
        split; [reflexivity|]. split.
        { unfold in_flight, pendings. cbn [view]. simpl.
          destruct (is_pending (depositM (view m))),
            (is_pending (withdrawM (view m))); lia. }
        apply loading_click; reflexivity.
Qed.

(** ** Amounts that are not accepted *)

(** C4 (amended).  With an empty amount, or without a public client, the
    two handlers return at once; with an amount [parseUnits] refuses they
    catch the exception, log it and clear the loading flag and the
    progress.  Either way no call reaches the ledger client and no
    exception reaches the caller. *)
Theorem invalid_amount_calls_nothing r skip replies :
  truthy_string (amount r) = false \/ parseUnits (amount r) 18 = None ->
  existsb ledger_call (trace replies (handleDeposit r skip)) = false
  /\ existsb ledger_call (trace replies (handleWithdraw r)) = false
  /\ outcome replies (handleDeposit r skip) = Returned
  /\ outcome replies (handleWithdraw r) = Returned
  /\ forall s,
       isLoading (after (trace replies (handleDeposit r skip)) s) =
         (if truthy_string (amount r) && publicClient r then false
          else isLoading s)
       /\ isLoading (after (trace replies (handleWithdraw r)) s) =
         (if truthy_string (amount r) && publicClient r then false
          else isLoading s).
Proof.
  intros H. unfold trace, outcome.
  rewrite handleDeposit_replies, handleWithdraw_replies.
  destruct (truthy_string (amount r)) eqn:Ht.
  - destruct H as [H | Hp]; [discriminate|].
    destruct (publicClient r) eqn:Hc.
    + rewrite (handleDeposit_unparseable r Ht Hc skip Hp),
        (handleWithdraw_unparseable r Ht Hc Hp).
      repeat split; reflexivity.
    + unfold handleDeposit, handleWithdraw. rewrite Ht, Hc.
      repeat split; reflexivity.
  - unfold handleDeposit, handleWithdraw. rewrite Ht.
    repeat split; reflexivity.
Qed.

(** ** The cached reads *)

Lemma keeps_cache_after tr s :
  Forall (calls keeps_cache) tr ->
  balance (after tr s) = balance s.
Proof.
  apply after_keeps. intros [] ? H; simpl in *; try reflexivity; contradiction.
Qed.

Lemma submissions_keep_cache r skip :
  always keeps_cache (handleApprove r)
  /\ always keeps_cache (handleDeposit r skip)
  /\ always keeps_cache (handleWithdraw r).
Proof.
  repeat split.
  - apply always_handleApprove; simpl; auto.
  - apply always_handleDeposit; simpl; auto.
  - apply always_handleWithdraw; simpl; auto.
Qed.

Lemma turn_reads m remaining announce p s :
  bankBalance (view (turn m remaining s announce p)) =
    (if mounted m then bankBalance s else bankBalance (view m))
  /\ allowance (view (turn m remaining s announce p)) =
    (if mounted m then allowance s else allowance (view m)).
Proof.
  destruct (mounted m) eqn:Hm.
  - rewrite turn_mounted by assumption. simpl.
    rewrite !after_bankBalance, !after_allowance. split; reflexivity.
  - rewrite turn_unmounted by assumption. split; reflexivity.
Qed.

Lemma step_reads m i :
  bankBalance (view (step m i)) =
    (if mounted m then match i with balanceData d => d | _ => bankBalance (view m) end
     else bankBalance (view m))
  /\ allowance (view (step m i)) =
    (if mounted m then match i with allowanceData d => d | _ => allowance (view m) end
     else allowance (view m)).
Proof.
  assert (T : forall remaining s announce p,
             bankBalance (view (turn m remaining s announce p)) =
               (if mounted m then bankBalance s else bankBalance (view m))
             /\ allowance (view (turn m remaining s announce p)) =
               (if mounted m then allowance s else allowance (view m)))
    by (intros; apply turn_reads).
  destruct i as [v| | |c a|c|d|d|h res|n o]; simpl;
    try (destruct (nth_error (tasks m) n) as [t|];
         [|destruct (mounted m); split; reflexivity]);
    try (destruct (mounted m) eqn:Hm; [|split; reflexivity]);
    match goal with
    | |- context [turn m ?rem ?s ?ann ?p] =>
        destruct (T rem s ann p) as [T1 T2]; rewrite T1, T2
    end;
    try (split; reflexivity).
  destruct h, (depositM (view m)), (withdrawM (view m)), (approveM (view m));
    split; reflexivity.
Qed.

(** *** The displayed balance, turn by turn *)

Lemma hooks_balance s i : balance (hooks s i) = balance s.
Proof.
  destruct i as [| | | | | | |h res|]; simpl; try reflexivity.
  destruct h, (depositM s), (withdrawM s), (approveM s); reflexivity.
Qed.

Lemma hooks_account s i :
  (forall c a, i <> accountChanged c a) ->
  isConnected (hooks s i) = isConnected s /\ address (hooks s i) = address s.
Proof.
  intros Hn. destruct i as [| | |c a| | | |h res|]; simpl;
    try (split; reflexivity).
  - exfalso. apply (Hn c a). reflexivity.
  - destruct h, (depositM s), (withdrawM s), (approveM s); split; reflexivity.
Qed.

Lemma hooks_bankBalance s i :
  (forall d, i <> balanceData d) -> bankBalance (hooks s i) = bankBalance s.
Proof.
  intros Hn. destruct i as [| | | | |d| |h res|]; simpl; try reflexivity.
  - exfalso. apply (Hn d). reflexivity.
  - destruct h, (depositM s), (withdrawM s), (approveM s); reflexivity.
Qed.

Lemma after_account tr s :
  isConnected (after tr s) = isConnected s /\ address (after tr s) = address s.
Proof.
  split.
  - apply (after_keeps isConnected (fun _ => True)).
    + intros [] ? _; reflexivity.
    + apply Forall_forall. intros [a|] _; exact I.
  - apply (after_keeps address (fun _ => True)).
    + intros [] ? _; reflexivity.
    + apply Forall_forall. intros [a|] _; exact I.
Qed.

Lemma idle_keeps_cache a : idle_call a -> keeps_cache a.
Proof. destruct a; simpl; tauto. Qed.

Lemma sleeping_keeps k o :
  sleeping k -> Forall (calls keeps_cache) (trace [] (k o)).
Proof.
  intros H. destruct (H o) as [_ [tail [E Ht]]]. rewrite E.
  apply Forall_append; [repeat constructor|].
  destruct Ht as [Hi | [a ->]].
  - revert Hi. apply calls_weaken. exact idle_keeps_cache.
  - repeat constructor.
Qed.

(** A confirmation chain never writes the displayed balance. *)
Lemma lane_task_keeps t o :
  lane_task t -> Forall (calls keeps_cache) (trace [] (resume t o)).
Proof.
  intros [[_ Hs] | [h [_ [Er [k' [Ef Hs]]]]]].
  - apply sleeping_keeps. exact Hs.
  - unfold trace. destruct o.
    + rewrite Ef. repeat constructor.
    + rewrite Er. repeat constructor.
Qed.

Lemma effect_keeps_cache p :
  always keeps_cache p -> Forall (calls keeps_cache) (trace [] p).
Proof. intros H. apply (always_exec keeps_cache p [] H). Qed.

(** The commit of a render in which neither effect that writes the
    displayed balance runs: the connect effect, if due, finds the account
    connected, and the balance effect is not due. *)
Lemma commit_keeps_cache prev cur :
  (connect_due prev cur = true ->
   isConnected cur && truthy_hash (address cur) = true) ->
  balance_due prev cur = false ->
  Forall (calls keeps_cache) (effects_trace (due prev cur)).
Proof.
  intros Hc Hb. rewrite commit_trace, Hb.
  repeat apply Forall_append; try apply Forall_nil.
  - destruct (connect_due prev cur); [|apply Forall_nil].
    unfold connectEffect. rewrite (Hc eq_refl).
    destruct (handleGetBalance_start cur) as [k E].
    unfold trace. rewrite E. repeat constructor.
  - apply Forall_if. unfold trace. rewrite isApprovedEffect_run.
    destruct (allowance cur); [|apply Forall_nil].
    destruct (truthy_string (amount cur)); [|repeat constructor].
    destruct (parseUnits (amount cur) 18); repeat constructor.
  - apply Forall_if. apply effect_keeps_cache.
    apply always_approveEffect; simpl; auto.
  - apply Forall_if. apply effect_keeps_cache.
    apply always_depositEffect; simpl; auto.
  - apply Forall_if. apply effect_keeps_cache.
    apply always_withdrawEffect; simpl; auto.
Qed.

Lemma turn_keeps_display m remaining hooked announce p :
  balance hooked = balance (view m) ->
  Forall (calls keeps_cache) (trace [] p) ->
  (connect_due (view m) hooked = true ->
   isConnected hooked && truthy_hash (address hooked) = true) ->
  bankBalance hooked = bankBalance (view m) ->
  balance (view (turn m remaining hooked announce p)) = balance (view m).
Proof.
  intros Hh Hp Hc Hb. destruct (mounted m) eqn:Hm.
  - rewrite turn_mounted by assumption. cbv zeta. cbn [view].
    set (s1 := after (trace [] p) hooked).
    destruct (after_account (trace [] p) hooked) as [A1 A2]. fold s1 in A1, A2.
    assert (B : bankBalance s1 = bankBalance hooked) by apply after_bankBalance.
    rewrite keeps_cache_after.
    + unfold s1. rewrite keeps_cache_after by assumption. exact Hh.
    + apply commit_keeps_cache.
      * unfold connect_due. rewrite A1, A2. exact Hc.
      * unfold balance_due. rewrite B, Hb, same_bigint_refl. reflexivity.
  - rewrite turn_unmounted by assumption. reflexivity.
Qed.

(** The turns in which the displayed balance can change: the balance read
    delivers data, the account disconnects or loses its address, or the
    refetch of [handleGetBalance] settles. *)
Lemma step_display m i :
  one_lane m ->
  balance (view (step m i)) <> balance (view m) ->
  (exists d, i = balanceData d)
  \/ (exists c a, i = accountChanged c a /\ c && truthy_hash a = false)
  \/ (exists n o t, i = settled n o /\ nth_error (tasks m) n = Some t
                    /\ awaited t = balance_read).
Proof.
  intros [Hk _] Hne.
  assert (Same : forall j,
             (forall c a, j <> accountChanged c a) ->
             (forall d, j <> balanceData d) ->
             balance (view (turn m (tasks m) (hooks (view m) j) [] (Ret tt)))
             = balance (view m)).
  { intros j Ha Hd. destruct (hooks_account (view m) j Ha) as [A1 A2].
    apply turn_keeps_display.
    - apply hooks_balance.
    - apply Forall_nil.
    - intros Hdue. unfold connect_due in Hdue.
      rewrite A1, A2, same_string_refl, Bool.eqb_reflx in Hdue. discriminate.
    - apply hooks_bankBalance. exact Hd. }
  assert (Plain : forall p,
             always keeps_cache p ->
             balance (view (turn m (tasks m) (view m) [] p))
             = balance (view m)).
  { intros p Hp. apply turn_keeps_display.
    - reflexivity.
    - apply effect_keeps_cache. exact Hp.
    - intros Hdue. unfold connect_due in Hdue.
      rewrite same_string_refl, Bool.eqb_reflx in Hdue. discriminate.
    - reflexivity. }
  destruct i as [v| | |c a|c|d|d|h res|n o];
    cbv beta iota delta [step] in Hne.
  - exfalso. apply Hne. destruct (mounted m); [|reflexivity].
    apply Plain. apply always_call. exact I.
  - exfalso. apply Hne. destruct (mounted m); [|reflexivity].
    apply Plain. apply always_depositButton; simpl; auto.
  - exfalso. apply Hne. destruct (mounted m); [|reflexivity].
    apply Plain. apply always_withdrawButton; simpl; auto.
  - right. left. exists c, a. split; [reflexivity|].
    destruct (c && truthy_hash a) eqn:Hca; [|reflexivity].
    exfalso. apply Hne. destruct (mounted m); [|reflexivity].
    apply turn_keeps_display.
    + reflexivity.
    + apply Forall_nil.
    + intros _. exact Hca.
    + reflexivity.
  - exfalso. apply Hne. destruct (mounted m); [|reflexivity].
    apply Same; intros; discriminate.
  - left. exists d. reflexivity.
  - exfalso. apply Hne. destruct (mounted m); [|reflexivity].
    apply Same; intros; discriminate.
  - exfalso. apply Hne. destruct (mounted m); [|reflexivity].
    apply Same; intros; discriminate.
  - destruct (nth_error (tasks m) n) as [t|] eqn:E;
      [|exfalso; apply Hne; reflexivity].
    assert (Kt : known_task t).
    { apply nth_error_In in E. rewrite Forall_forall in Hk. apply (Hk t E). }
    destruct Kt as [[Ha _] | Hl].
    + right. right. exists n, o, t. auto.
    + exfalso. apply Hne. apply turn_keeps_display.
      * reflexivity.
      * apply lane_task_keeps. exact Hl.
      * intros Hdue. unfold connect_due in Hdue.
        rewrite same_string_refl, Bool.eqb_reflx in Hdue. discriminate.
      * reflexivity.
Qed.

(** The machine after a pending withdrawal is accepted and the wait for
    its receipt fails. *)
Lemma withdraw_fails m h :
  mounted m = true -> publicClient (view m) = true ->
  withdrawM (view m) = pending -> truthy_string h = true ->
  run m [submitted withdraw_hook (Some h);
         settled (List.length (tasks m)) Rejected]
  = mkMachine
      (after (waiting h ++ failing)
         (hooks (view m) (submitted withdraw_hook (Some h))))
      true (tasks m) (history m ++ waiting h ++ failed h).
Proof.
  intros Hm Hc Hp Ht.
  destruct (withdraw_accepted m h Hm Hc Hp Ht) as [k [k' [E1 [Er _]]]].
  set (hooked := hooks (view m) (submitted withdraw_hook (Some h))) in *.
  destruct (last_task (tasks m) (mkTask (receipt h) k)) as [N1 R1].
  cbn [run fold_left]. rewrite E1.
  cbv beta iota delta [step]. cbn [tasks]. rewrite N1, R1.
  cbn [resume awaited].
  rewrite plain_turn;
    [|reflexivity
     |unfold trace; rewrite Er; cbn [fst view];
      apply neutral_same_deps; repeat constructor].
  unfold trace, outcome. rewrite Er. cbn [fst snd task_of view history].
  rewrite app_nil_r, after_app. unfold failed, failing.
  rewrite <- !app_assoc. reflexivity.
Qed.

(** C5 (amended).  No submission touches the cache: [handleApprove],
    [handleDeposit] and [handleWithdraw] leave the displayed balance, the
    cached balance and the cached allowance as they are.  In every state
    the component reaches, the two cached reads change only when their
    read delivers data, and the displayed balance changes only in three
    kinds of turn: the balance read delivers data, the account
    disconnects or loses its address (the display is cleared, with no
    read), or the refetch of [handleGetBalance] settles.  When the
    confirmation of an accepted withdrawal fails, the displayed balance,
    the two reads and the typed amount are as before the answer of the
    wallet, the loading flag is clear, and a click on withdraw submits the
    same amount again. *)
Theorem cache_only_follows_reads :
  (forall r skip p s,
     p = handleApprove r \/ p = handleDeposit r skip \/ p = handleWithdraw r ->
     balance (after (trace [] p) s) = balance s
     /\ bankBalance (after (trace [] p) s) = bankBalance s
     /\ allowance (after (trace [] p) s) = allowance s)
  /\ (forall client inputs i,
        (bankBalance (view (step (run (mount client) inputs) i))
         <> bankBalance (view (run (mount client) inputs)) ->
         i = balanceData
               (bankBalance (view (step (run (mount client) inputs) i))))
        /\ (allowance (view (step (run (mount client) inputs) i))
            <> allowance (view (run (mount client) inputs)) ->
            i = allowanceData
                  (allowance (view (step (run (mount client) inputs) i))))
        /\ (balance (view (step (run (mount client) inputs) i))
            <> balance (view (run (mount client) inputs)) ->
            (exists d, i = balanceData d)
            \/ (exists c a, i = accountChanged c a
                            /\ c && truthy_hash a = false)
            \/ (exists n o t,
                  i = settled n o
                  /\ nth_error (tasks (run (mount client) inputs)) n = Some t
                  /\ awaited t = balance_read)))
  /\ (forall m h a m',
        mounted m = true -> publicClient (view m) = true ->
        withdrawM (view m) = pending -> truthy_string h = true ->
        truthy_string (amount (view m)) = true ->
        parseUnits (amount (view m)) 18 = Some a ->
        m' = run m [submitted withdraw_hook (Some h);
                    settled (List.length (tasks m)) Rejected] ->
        balance (view m') = balance (view m)
        /\ bankBalance (view m') = bankBalance (view m)
        /\ allowance (view m') = allowance (view m)
        /\ amount (view m') = amount (view m)
        /\ isLoading (view m') = false
        /\ history m' = history m ++ waiting h ++ failed h
        /\ history (step m' clickWithdraw) = history m' ++ withdrawing a).
Proof.
  split; [|split].
  - intros r skip p s Hp.
    destruct (submissions_keep_cache r skip) as [Ha [Hd Hw]].
    assert (H : always keeps_cache p)
      by (destruct Hp as [-> | [-> | ->]]; assumption).
    rewrite after_bankBalance, after_allowance. repeat split.
    apply keeps_cache_after. apply (always_exec keeps_cache p [] H).
  - intros client inputs i.
    set (m := run (mount client) inputs).
    destruct (step_reads m i) as [Hb Ha]. split; [|split].
    + intros Hn. rewrite Hb in *. destruct (mounted m); [|congruence].
      destruct i; congruence.
    + intros Hn. rewrite Ha in *. destruct (mounted m); [|congruence].
      destruct i; congruence.
    + apply step_display. apply run_one_lane. apply mount_one_lane.
  - intros m h a m' Hm Hc Hp Ht Hty Hpa Em'.
    rewrite (withdraw_fails m h Hm Hc Hp Ht) in Em'. subst m'.
    destruct (submitted_hooks (view m) withdraw_hook (Some h) Hp)
      as [_ [_ [Ham [_ [_ [Hbb [Hal [Hpc _]]]]]]]].
    set (hooked := hooks (view m) (submitted withdraw_hook (Some h))) in *.
    cbn [view history].
    assert (Fa : amount (after (waiting h ++ failing) hooked) = amount hooked)
      by reflexivity.
    assert (Fc : publicClient (after (waiting h ++ failing) hooked)
                 = publicClient hooked) by reflexivity.
    split; [apply (hooks_balance (view m))|].
    split; [exact Hbb|]. split; [exact Hal|]. split; [exact Ham|].
    split; [reflexivity|]. split; [reflexivity|].
    rewrite (withdraw_click _ a); [reflexivity | reflexivity | |
                                   | ]; cbn [view].
    + unfold disabled. rewrite Fa, Ham, Hty. reflexivity.
    + rewrite Fc, Hpc. exact Hc.
    + rewrite Fa, Ham. exact Hpa.
Qed.

(** ** The continuation of an approval *)

(** C6.  In every state the component reaches with the deposit button
    enabled, a public client, a typed amount that [parseUnits] accepts
    and an insufficient decision: the click submits the approval and
    nothing else; when the wallet answers with a hash, the effect on the
    approval registers a task awaiting its receipt.  When the receipt
    arrives, the pause ends with the allowance refetch and one deposit of
    the typed amount, no second approval, and no task of the chain left;
    when the wait fails, the chain ends with the indicator cleared and no
    deposit, and no input other than a new click submits anything
    afterwards.  With the check skipped, [handleDeposit] never asks for an
    approval. *)
Theorem approval_continues_with_deposit client inputs m a h :
  m = run (mount client) inputs ->
  mounted m = true ->
  disabled (view m) = false ->
  publicClient (view m) = true ->
  parseUnits (amount (view m)) 18 = Some a ->
  decide (view m) a = false ->
  truthy_string h = true ->
  (history (step m clickDeposit) = history m ++ approving
   /\ tasks (step m clickDeposit) = tasks m
   /\ approveM (view (step m clickDeposit)) = pending)
  /\ (exists k,
        tasks (run m [clickDeposit; submitted approve_hook (Some h)])
        = tasks m ++ [mkTask (receipt h) k]
        /\ history (run m [clickDeposit; submitted approve_hook (Some h)])
           = history m ++ approving ++ waiting h)
  /\ (forall o,
        let m' := run m [clickDeposit; submitted approve_hook (Some h);
                         settled (List.length (tasks m)) Fulfilled;
                         settled (List.length (tasks m)) o] in
        history m' = history m ++ approving ++ waiting h ++ confirmed h
                       ++ Settle (timer 500) o :: cleared
                       ++ Did refetchAllowance :: depositing a
        /\ depositM (view m') = pending
        /\ isLoading (view m') = true
        /\ tasks m' = tasks m)
  /\ (let m' := run m [clickDeposit; submitted approve_hook (Some h);
                       settled (List.length (tasks m)) Rejected] in
      history m' = history m ++ approving ++ waiting h ++ failed h
      /\ isLoading (view m') = false
      /\ progress (view m') = 0
      /\ tasks m' = tasks m
      /\ forall later,
           Forall no_click later ->
           exists new,
             history (run m' later) = history m' ++ new
             /\ Forall silent new)
  /\ forall r' replies,
       existsb is_approve (trace replies (handleDeposit r' true)) = false.
Proof.
  intros Em Hm Hd Hc Hp Hdec Hh.
  pose proof (enabled_is_typed _ Hd) as Ht.
  assert (Hr : approval_required (view m) false a = true).
  { unfold decide in Hdec. apply negb_false_iff in Hdec. exact Hdec. }
  pose proof (approve_click m a Hm Hd Hc Hp Hr) as Ec.
  set (m1 := mkMachine (after approving (view m)) true (tasks m)
               (history m ++ approving)) in *.
  destruct (approve_accepted m1 h a eq_refl Hc eq_refl Hh Ht Hp)
    as [k [k' [E1 [Er [Ef Es]]]]].
  cbn [tasks history m1] in E1.
  split; [|split; [|split; [|split]]].
  - rewrite Ec. repeat split.
  - exists k. cbn [run fold_left]. rewrite Ec, E1. cbn [tasks history].
    split; [reflexivity | rewrite <- app_assoc; reflexivity].
  - intros o.
    pose proof (approval_completes m1 h a o k k' eq_refl E1 Ef (Es o)) as E.
    cbn [tasks m1] in E.
    change (run m [clickDeposit; submitted approve_hook (Some h);
                   settled (List.length (tasks m)) Fulfilled;
                   settled (List.length (tasks m)) o])
      with (run (step m clickDeposit)
              [submitted approve_hook (Some h);
               settled (List.length (tasks m)) Fulfilled;
               settled (List.length (tasks m)) o]).
    rewrite Ec. cbv zeta. rewrite E. cbn [history view tasks m1].
    split; [rewrite <- app_assoc; reflexivity|]. repeat split.
  - pose proof (transfer_fails m1 approve_hook h k eq_refl eq_refl E1 Er)
      as F. cbv zeta in F. cbn [tasks history m1] in F.
    change (run m [clickDeposit; submitted approve_hook (Some h);
                   settled (List.length (tasks m)) Rejected])
      with (run (step m clickDeposit)
              [submitted approve_hook (Some h);
               settled (List.length (tasks m)) Rejected]).
    cbv zeta. rewrite Ec.
    destruct F as [Fm [_ [Fl [Fp [_ [Ft Fh]]]]]].
    split; [rewrite Fh, <- app_assoc; reflexivity|].
    split; [exact Fl|]. split; [exact Fp|]. split; [exact Ft|].
    intros later Hl.
    apply settled_run; [|exact Hl].
    apply idle_settled; [|exact Fm | exact Fl].
    rewrite <- Ec. subst m.
    change (one_lane
              (run (run (mount client) inputs)
                 [clickDeposit; submitted approve_hook (Some h);
                  settled (List.length (tasks (run (mount client) inputs)))
                    Rejected])).
    apply run_one_lane, run_one_lane, mount_one_lane.
  - intros r' replies. unfold trace. rewrite handleDeposit_replies.
    destruct (handleDeposit_cases r' true)
      as [E | [[_ [F _]] | [[a' [_ [_ E]]] | E]]];
      try discriminate; rewrite E; reflexivity.
Qed.

(** ** The amount of an approval *)

(** C7.  In every history of the component, an approval is a call on the
    token contract that allows the bank to spend [2^256 - 1], whatever
    amount has been typed. *)
Theorem approvals_are_saturating client inputs c spender value :
  In (Did (approve c spender value)) (history (run (mount client) inputs)) ->
  c = ERC20_ADDRESS /\ spender = BANK_CONTRACT_ADDRESS
  /\ value = 2 ^ 256 - 1.
Proof.
  intros H.
  destruct (run_well_formed inputs (mount client) (mount_well_formed client))
    as [_ Hh].
  rewrite Forall_forall in Hh. apply (Hh _ H).
Qed.

(** ** Display of the balance *)


(** ** Withdrawals *)

(** C10 (amended).  For a typed amount that [parseUnits] accepts, with a
    public client, [handleWithdraw] submits the withdrawal of the parsed
    amount whatever the cached balance is. *)
Theorem withdraw_ignores_balance r a cached :
  truthy_string (amount r) = true ->
  publicClient r = true ->
  parseUnits (amount r) 18 = Some a ->
  exec [] (handleWithdraw (hooks r (balanceData cached))) =
  (withdrawing a, Returned).
Proof.
  intros Ht Hc Hp. apply handleWithdraw_withdraws; assumption.
Qed.

(** * Further properties of the component *)

(** ** One operation at a time *)

(** X1.  In every state the component reaches, every suspended handler is
    a balance refetch or a confirmation chain; while it is mounted at most
    one operation is under way (a submission the wallet has not answered,
    or a chain waiting for a receipt or in its pause); and none is under
    way when the loading flag is clear. *)
Theorem lane_discipline client inputs : one_lane (run (mount client) inputs).
Proof. apply run_one_lane. apply mount_one_lane. Qed.

(** X2.  After a click on the deposit button that asks for an approval,
    whatever happens next (further clicks, typing, hook updates, promises
    settling in any order and with any outcome), as long as the public
    client stays defined: no deposit goes to the wallet before the receipt
    of a transaction hash that the approve hook has reported has
    settled. *)
Theorem approval_precedes_deposit client before later m a :
  m = run (mount client) before ->
  mounted m = true ->
  disabled (view m) = false ->
  publicClient (view m) = true ->
  parseUnits (amount (view m)) 18 = Some a ->
  decide (view m) a = false ->
  Forall client_stays later ->
  exists new,
    history (run m (clickDeposit :: later)) = history m ++ approving ++ new
    /\ forall pre post c v,
         new = pre ++ Did (deposit c v) :: post ->
         exists h o,
           In (Settle (receipt h) o) pre
           /\ In (submitted approve_hook (Some h)) later.
Proof.
  intros Em Hm Hd Hc Hp Hdec Hl.
  assert (Hr : approval_required (view m) false a = true).
  { unfold decide in Hdec. apply negb_false_iff in Hdec. exact Hdec. }
  assert (Lane : one_lane m).
  { subst m. apply run_one_lane. apply mount_one_lane. }
  pose proof (approve_click_held m a Lane Hm Hd Hc Hp Hr) as Hh.
  destruct (held_run later [] (step m clickDeposit) Hh Hl) as [new [E W]].
  exists new. split.
  - change (run m (clickDeposit :: later))
      with (run (step m clickDeposit) later). rewrite E.
    rewrite (approve_click m a Hm Hd Hc Hp Hr). cbn [history].
    rewrite app_assoc. reflexivity.
  - intros pre post c v En.
    destruct (deposits_wait_spec _ _ W pre post c v En) as [e [Hin Hmark]].
    destruct (receipt_of_spec _ _ Hmark) as [h [o [Ee Hhash]]]. subst e.
    exists h, o. split; [exact Hin|].
    apply approval_hash_spec. exact Hhash.
Qed.

(** X3.  When the wallet refuses a pending submission (approve, deposit
    or withdraw), the component never recovers: whatever comes in
    afterwards, as long as it is mounted the loading flag stays set, so
    both buttons stay disabled, and nothing is submitted again. *)
Theorem refused_submission_is_permanent client before later m h :
  m = run (mount client) before ->
  mounted m = true ->
  mutation_of h (view m) = pending ->
  (mounted (run m (submitted h None :: later)) = true ->
   isLoading (view (run m (submitted h None :: later))) = true
   /\ disabled (view (run m (submitted h None :: later))) = true)
  /\ exists new,
       history (run m (submitted h None :: later)) = history m ++ new
       /\ Forall silent new.
Proof.
  intros Em Hm Hp.
  assert (Lane : one_lane m).
  { subst m. apply run_one_lane. apply mount_one_lane. }
  destruct (refusal_sticks m h Lane Hm Hp) as [S1 [new1 [E1 Q1]]].
  destruct (stuck_run later _ S1) as [[_ Hv] [new2 [E2 Q2]]].
  change (run m (submitted h None :: later))
    with (run (step m (submitted h None)) later).
  split.
  - intros Hm'. destruct (Hv Hm') as [Hl _]. split; [exact Hl|].
    unfold disabled. rewrite Hl. apply orb_true_r.
  - exists (new1 ++ new2). split.
    + rewrite E2, E1, app_assoc. reflexivity.
    + apply Forall_append; assumption.
Qed.

(** X4.  In every history of the component, a deposit and a withdrawal
    are calls on the bank contract, never on the token. *)
Theorem transfers_go_to_the_bank client inputs c v :
  In (Did (deposit c v)) (history (run (mount client) inputs))
  \/ In (Did (withdraw c v)) (history (run (mount client) inputs)) ->
  c = BANK_CONTRACT_ADDRESS.
Proof.
  intros H.
  destruct (run_well_formed inputs (mount client) (mount_well_formed client))
    as [_ Hh].
  rewrite Forall_forall in Hh.
  destruct H as [H | H]; apply (Hh _ H).
Qed.

(** ** The account and the balance display *)

(** X5.  When the account hook reports another connection state or
    address: if the account is connected and has an address, the commit
    starts a balance refetch and leaves the displayed balance as it was
    (that of the previous account, if any); otherwise it clears the
    displayed balance.  Nothing else happens in that commit. *)
Theorem account_change_effect m c a :
  mounted m = true ->
  isConnected (view m) <> c \/ address (view m) <> a ->
  mounted (step m (accountChanged c a)) = true
  /\ isConnected (view (step m (accountChanged c a))) = c
  /\ address (view (step m (accountChanged c a))) = a
  /\ (c && truthy_hash a = true ->
      history (step m (accountChanged c a)) = history m ++ [Did refetchBalance]
      /\ balance (view (step m (accountChanged c a))) = balance (view m)
      /\ exists t, tasks (step m (accountChanged c a)) = tasks m ++ [t]
                   /\ balance_task t)
  /\ (c && truthy_hash a = false ->
      history (step m (accountChanged c a))
      = history m ++ [Did (setBalance EmptyString)]
      /\ balance (view (step m (accountChanged c a))) = EmptyString
      /\ tasks (step m (accountChanged c a)) = tasks m).
Proof.
  intros Hm Hch.
  assert (E : step m (accountChanged c a) =
              turn m (tasks m) (hooks (view m) (accountChanged c a)) []
                (Ret tt)).
  { cbv beta iota delta [step]. rewrite Hm. reflexivity. }
  rewrite E, hooked_commit;
    [|exact Hm | intros []; reflexivity | reflexivity | reflexivity].
  assert (Hd : connect_due (view m) (hooks (view m) (accountChanged c a))
               = true).
  { unfold connect_due. cbn [hooks isConnected address].
    apply negb_true_iff. apply andb_false_iff.
    destruct Hch as [Hc | Ha].
    - left. apply Bool.eqb_false_iff. exact Hc.
    - right. destruct (same_string (address (view m)) a) eqn:S;
        [|reflexivity].
      apply same_string_eq in S. contradiction. }
  assert (Hb : balance_due (view m) (hooks (view m) (accountChanged c a))
               = false).
  { unfold balance_due. cbn [hooks bankBalance].
    rewrite same_bigint_refl. reflexivity. }
  cbv zeta. rewrite Hd, Hb, app_nil_r.
  unfold connectEffect.
  change (isConnected (hooks (view m) (accountChanged c a))) with c.
  change (address (hooks (view m) (accountChanged c a))) with a.
  split; [reflexivity|].
  destruct (c && truthy_hash a) eqn:Hca.
  - destruct (handleGetBalance_start (hooks (view m) (accountChanged c a)))
      as [k Hk].
    destruct (handleGetBalance_task (hooks (view m) (accountChanged c a)))
      as [t [Et [Hbt _]]].
    rewrite Et. unfold trace. rewrite Hk. cbn [fst].
    split; [reflexivity|]. split; [reflexivity|]. split.
    + intros _. split; [reflexivity|]. split; [reflexivity|].
      exists t. split; [reflexivity | exact Hbt].
    + discriminate.
  - split; [reflexivity|]. split; [reflexivity|]. split; [discriminate|].
    intros _. cbn. rewrite app_nil_r. repeat split.
Qed.

(** X6.  When the balance read delivers new data, the display follows it
    in the same commit, except for a balance of zero: [0n] is falsy in
    [if (bankBalance)], so the display keeps the text it had. *)
Theorem balance_display_follows_data m d :
  mounted m = true ->
  bankBalance (view (step m (balanceData d))) = d
  /\ balance (view (step m (balanceData d))) =
     match d with
     | Some v =>
         if same_bigint (bankBalance (view m)) d || (v =? 0)
         then balance (view m) else displayBalance v
     | None => balance (view m)
     end
  /\ balance (view (step m (balanceData (Some 0)))) = balance (view m).
Proof.
  intros Hm.
  assert (G : forall d',
             bankBalance (view (step m (balanceData d'))) = d'
             /\ balance (view (step m (balanceData d'))) =
                match d' with
                | Some v =>
                    if same_bigint (bankBalance (view m)) d' || (v =? 0)
                    then balance (view m) else displayBalance v
                | None => balance (view m)
                end).
  { intros d'. rewrite (balance_data_commit m d' Hm). cbn [view].
    rewrite after_bankBalance. split; [reflexivity|].
    destruct (same_bigint (bankBalance (view m)) d'); cbn [orb].
    - destruct d'; reflexivity.
    - destruct d' as [v|]; [|reflexivity]. destruct (v =? 0); reflexivity. }
  destruct (G d) as [G1 G2]. split; [exact G1|]. split; [exact G2|].
  destruct (G (Some 0)) as [_ G0]. rewrite G0.
  rewrite orb_true_r. reflexivity.
Qed.

(** ** The label of the deposit button *)

(** X7.  In every state the component reaches, the deposit button does
    what its label says: when it is enabled, with a public client and an
    amount [parseUnits] accepts, a click submits the deposit of that amount
    if the label is Deposit, and the approval if it is Approve Token. *)
Theorem label_tells_action client inputs m a :
  m = run (mount client) inputs ->
  mounted m = true ->
  disabled (view m) = false ->
  publicClient (view m) = true ->
  parseUnits (amount (view m)) 18 = Some a ->
  exec [] (depositButton (view m)) =
  (if String.eqb (depositLabel (view m)) "Deposit"
   then depositing a else approving, Returned).
Proof.
  intros Em Hm Hd Hc Hp.
  assert (Ht : truthy_string (amount (view m)) = true).
  { unfold disabled in Hd. apply orb_false_elim in Hd.
    destruct Hd as [Hd _]. apply negb_false_iff in Hd. exact Hd. }
  assert (Hs : in_sync (view m)).
  { subst m. apply run_in_sync; auto using mount_well_formed.
    intros _. apply mount_in_sync. }
  unfold depositButton, depositLabel. rewrite Hd.
  destruct (isApproved (view m)) eqn:Ha; simpl (String.eqb _ _).
  - apply (handleDeposit_deposits (view m) Ht Hc false a Hp).
    unfold approval_required, allowance_below. rewrite Ha.
    unfold in_sync in Hs. destruct (allowance (view m)) as [al|];
      [|reflexivity].
    rewrite Ht in Hs. destruct Hs as [a' [Hp' Hle]].
    rewrite Hp in Hp'. inversion Hp'; subst a'.
    rewrite Ha in Hle. symmetry in Hle. apply Z.leb_le in Hle.
    assert (Hlt : (al <? a) = false) by (apply Z.ltb_ge; lia).
    cbn [negb orb andb]. rewrite Hlt, andb_false_r. reflexivity.
  - apply (handleDeposit_approves (view m) Ht Hc a Hp).
    unfold approval_required. rewrite Ha. reflexivity.
Qed.

(** ** An amount the effect cannot parse *)

Lemma unmounted_step m i :
  mounted m = false ->
  mounted (step m i) = false /\ view (step m i) = view m.
Proof.
  intros Hm. destruct i; cbv beta iota delta [step]; rewrite ?Hm; auto.
  destruct (nth_error (tasks m) n); [|auto].
  rewrite turn_unmounted by assumption. split; reflexivity.
Qed.

Lemma unmounted_run inputs : forall m,
  mounted m = false ->
  mounted (run m inputs) = false /\ view (run m inputs) = view m.
Proof.
  induction inputs as [|i inputs IH]; intros m Hm; simpl; [auto|].
  destruct (unmounted_step m i Hm) as [H1 H2].
  destruct (IH _ H1) as [H3 H4]. split; [exact H3 | congruence].
Qed.

(** X8.  The effect of lines 62-69 calls [parseUnits] outside any [try]:
    once the allowance is known, typing a non-empty amount that
    [parseUnits] refuses throws in the effect and takes the component
    down, and so does an allowance arriving while such an amount is
    typed; from then on no input changes what the component shows. *)
Theorem unparseable_amount_unmounts m v al :
  mounted m = true ->
  truthy_string v = true ->
  parseUnits v 18 = None ->
  (allowance (view m) = Some al -> amount (view m) <> v ->
   mounted (step m (onChange v)) = false
   /\ forall inputs,
        mounted (run (step m (onChange v)) inputs) = false
        /\ view (run (step m (onChange v)) inputs)
           = view (step m (onChange v)))
  /\ (amount (view m) = v -> allowance (view m) <> Some al ->
      mounted (step m (allowanceData (Some al))) = false).
Proof.
  intros Hm Ht Hp. split.
  - intros Hal Hne.
    assert (Hu : mounted (step m (onChange v)) = false).
    { cbv beta iota delta [step]. rewrite Hm.
      rewrite turn_mounted by assumption. cbv zeta. cbn [mounted].
      rewrite due_crash. unfold outcome. rewrite isApprovedEffect_run.
      rewrite after_allowance. cbn [trace exec call fst after fold_left
                                      observe write amount allowance].
      change (amount (after (trace [] (call (setAmount v))) (view m)))
        with v.
      rewrite Hal, Ht, Hp. cbn [snd threw]. rewrite same_bigint_refl.
      assert (Hv : String.eqb (amount (view m)) v = false)
        by (apply String.eqb_neq; exact Hne).
      rewrite Hv. reflexivity. }
    split; [exact Hu|]. intros inputs. apply unmounted_run. exact Hu.
  - intros Ham Hne.
    cbv beta iota delta [step]. rewrite Hm.
    rewrite turn_mounted by assumption. cbv zeta. cbn [mounted].
    rewrite due_crash. unfold outcome. rewrite isApprovedEffect_run.
    change (after (trace [] (Ret tt)) (hooks (view m) (allowanceData (Some al))))
      with (hooks (view m) (allowanceData (Some al))).
    cbn [hooks allowance amount]. rewrite Ham, Ht, Hp. cbn [snd threw].
    rewrite String.eqb_refl.
    destruct (same_bigint (allowance (view m)) (Some al)) eqn:S;
      [|reflexivity].
    apply same_bigint_eq in S. contradiction.
Qed.

(** ** A transfer from the wallet's answer to the end of its chain *)

(** X9.  A deposit or withdrawal the wallet has accepted, with a public
    client: the hook's effect waits for the receipt of the hash.  When the
    receipt arrives and the 500 ms pause is over, the loading flag and the
    progress are cleared, the balance is refetched and the amount input is
    emptied; when the wait for the receipt fails, the flag and the
    progress are cleared and the typed amount stays.  Either way no chain
    is left and the component stays mounted. *)
Theorem transfer_chain_outcomes m hk h :
  hk = deposit_hook \/ hk = withdraw_hook ->
  mounted m = true ->
  publicClient (view m) = true ->
  mutation_of hk (view m) = pending ->
  truthy_string h = true ->
  (forall o m',
     m' = run m [submitted hk (Some h);
                 settled (List.length (tasks m)) Fulfilled;
                 settled (List.length (tasks m)) o] ->
     mounted m' = true
     /\ amount (view m') = EmptyString
     /\ isLoading (view m') = false
     /\ progress (view m') = 0
     /\ mutation_of hk (view m') = success h
     /\ tasks m' = tasks m
     /\ exists tail,
          history m' = history m ++ waiting h ++ confirmed h
                         ++ Settle (timer 500) o :: cleared
                         ++ [Did refetchBalance; Did (setAmount EmptyString)]
                         ++ tail
          /\ (tail = [] \/ exists b, tail = [Did (setIsApproved b)]))
  /\ (forall m',
        m' = run m [submitted hk (Some h);
                    settled (List.length (tasks m)) Rejected] ->
        mounted m' = true
        /\ amount (view m') = amount (view m)
        /\ isLoading (view m') = false
        /\ progress (view m') = 0
        /\ mutation_of hk (view m') = success h
        /\ tasks m' = tasks m
        /\ history m' = history m ++ waiting h ++ failed h).
Proof.
  intros Hhk Hm Hc Hp Ht.
  assert (A : exists k k',
             step m (submitted hk (Some h)) =
               mkMachine
                 (after (waiting h) (hooks (view m) (submitted hk (Some h))))
                 true (tasks m ++ [mkTask (receipt h) k])
                 (history m ++ waiting h)
             /\ exec [] (k Rejected) = (failing, Thrown "rejected")
             /\ exec [] (k Fulfilled) =
                ([Did (setProgress 100); Did (setTimeout 500)],
                 Suspended (timer 500) k')
             /\ forall o,
                  exec [] (k' o) =
                  (cleared ++ [Did refetchBalance; Did (setAmount EmptyString)],
                   Returned)).
  { destruct Hhk; subst hk.
    - apply deposit_accepted; assumption.
    - apply withdraw_accepted; assumption. }
  destruct A as [k [k' [E1 [Er [Ef Es]]]]].
  assert (Hk : hk <> approve_hook) by (destruct Hhk; subst hk; discriminate).
  split.
  - intros o m' Em'. subst m'.
    apply (transfer_completes m hk h o k k' Hm Hc Hk Hp E1 Ef (Es o)).
  - intros m' Em'. subst m'.
    apply (transfer_fails m hk h k Hm Hp E1 Er).
Qed.

(** ** The progress indicator *)

Lemma hooks_progress s i : progress (hooks s i) = progress s.
Proof.
  destruct i as [| | | | | | |h res|]; simpl; try reflexivity.
  destruct h, (depositM s), (withdrawM s), (approveM s); reflexivity.
Qed.

Lemma run_progress client inputs :
  safe progress_call (fun s => In (progress s) levels)
    (run (mount client) inputs).
Proof.
  apply safe_run; try apply safe_mount; try (intros; exact I);
    try (simpl; tauto).
  all: try (intros s a Ha Hs; destruct a; simpl in *; auto).
  all: try (intros s i Hs; rewrite hooks_progress; exact Hs).
  all: try (intros c; simpl; tauto).
Qed.

(** X10.  In every state the component reaches, [progress] is one of 0,
    10, 25, 50 and 100, so the progress bar is never wider than 100
    percent; and the progress block reads Transaction completed! exactly
    when the loading flag is set and [progress] is 100. *)
Theorem progress_is_a_level client inputs :
  In (progress (view (run (mount client) inputs))) levels
  /\ (forall w, progressWidth (view (run (mount client) inputs)) = Some w ->
                0 <= w <= 100)
  /\ (progressText (view (run (mount client) inputs))
      = Some "Transaction completed!"
      <-> isLoading (view (run (mount client) inputs)) = true
          /\ progress (view (run (mount client) inputs)) = 100).
Proof.
  destruct (run_progress client inputs) as [_ H].
  set (s := view (run (mount client) inputs)) in *.
  split; [exact H|].
  assert (Hb : 0 <= progress s <= 100).
  { unfold levels in H. simpl in H.
    destruct H as [H | [H | [H | [H | [H | []]]]]]; rewrite <- H; lia. }
  split.
  { unfold progressWidth. intros w Hw.
    destruct (isLoading s); inversion Hw; subst; exact Hb. }
  unfold progressText. destruct (isLoading s).
  - destruct (progress s <? 100) eqn:L.
    + apply Z.ltb_lt in L. split; [discriminate|]. intros [_ E]. lia.
    + apply Z.ltb_ge in L. split; [|reflexivity].
      intros _. split; [reflexivity | lia].
  - split; [discriminate|]. intros [E _]. discriminate.
Qed.

(** ** Edge cases of the waits *)

(** X11.  Without a public client [waitForTransaction] awaits no receipt
    ([publicClient?.]): the progress goes to 100 at once and, after the
    pause, the chain goes on as if the transaction had been confirmed.  A
    deposit or withdrawal then refetches the balance and empties the
    amount; an approval refetches the allowance, and the deposit that
    should follow is dropped at the guard of [handleDeposit]. *)
Theorem missing_client_skips_the_wait r h o :
  publicClient r = false ->
  truthy_string h = true ->
  (depositM r = success h ->
   exec [o] (depositEffect r) =
   ([Did (setProgress 50); Did (setProgress 100); Did (setTimeout 500);
     Settle (timer 500) o] ++ cleared
      ++ [Did refetchBalance; Did (setAmount EmptyString)], Returned))
  /\ (withdrawM r = success h ->
      exec [o] (withdrawEffect r) =
      ([Did (setProgress 50); Did (setProgress 100); Did (setTimeout 500);
        Settle (timer 500) o] ++ cleared
         ++ [Did refetchBalance; Did (setAmount EmptyString)], Returned))
  /\ (approveM r = success h ->
      exec [o] (approveEffect r) =
      ([Did (setProgress 50); Did (setProgress 100); Did (setTimeout 500);
        Settle (timer 500) o] ++ cleared ++ [Did refetchAllowance],
       Returned)).
Proof.
  intros Hc Ht. repeat split; intros Hm.
  - destruct (depositEffect_guard r) as [[h' [Hm' [_ E]]] | [_ Hf]].
    2:{ rewrite Hm in Hf. simpl in Hf. rewrite Ht in Hf. discriminate. }
    rewrite Hm in Hm'. inversion Hm'; subst h'. rewrite E.
    destruct (wait_clientless r h
                (call refetchBalance ;; call (setAmount EmptyString)) Hc)
      as [_ W].
    rewrite W. reflexivity.
  - destruct (withdrawEffect_guard r) as [[h' [Hm' [_ E]]] | [_ Hf]].
    2:{ rewrite Hm in Hf. simpl in Hf. rewrite Ht in Hf. discriminate. }
    rewrite Hm in Hm'. inversion Hm'; subst h'. rewrite E.
    destruct (wait_clientless r h
                (call refetchBalance ;; call (setAmount EmptyString)) Hc)
      as [_ W].
    rewrite W. reflexivity.
  - destruct (approveEffect_guard r) as [[h' [Hm' [_ E]]] | [_ Hf]].
    2:{ rewrite Hm in Hf. simpl in Hf. rewrite Ht in Hf. discriminate. }
    rewrite Hm in Hm'. inversion Hm'; subst h'. rewrite E.
    destruct (wait_clientless r h
                (call refetchAllowance ;; handleDeposit r true) Hc)
      as [_ W].
    rewrite W. unfold trace, outcome. rewrite approve_callback.
    unfold trace, outcome. rewrite (handleDeposit_clientless r true [] Hc).
    reflexivity.
Qed.

(** X12.  [handleGetBalance] never throws: a refetch that fails is
    logged and changes no state, and however its promise settles the
    handler returns. *)
Theorem balance_refetch_never_throws r :
  (forall replies, threw (outcome replies (handleGetBalance r)) = false)
  /\ exec [Rejected] (handleGetBalance r) =
     ([Did refetchBalance; Settle balance_read Rejected;
       Did (console_error "Error fetching balance:")], Returned)
  /\ forall s,
       after (trace [Rejected] (handleGetBalance r)) s = s.
Proof.
  split; [|split].
  - intros replies. unfold handleGetBalance, outcome.
    destruct replies as [|[] replies]; simpl; try reflexivity.
    destruct (bankBalance r) as [v|]; simpl; [|reflexivity].
    destruct (negb (v =? 0)); reflexivity.
  - reflexivity.
  - intros s. unfold trace. simpl. destruct s; reflexivity.
Qed.

(** ** The shortened address *)

Lemma string_length_append s1 s2 :
  String.length (s1 ++ s2)%string = (String.length s1 + String.length s2)%nat.
Proof. induction s1 as [|c s1 IH]; simpl; [reflexivity | rewrite IH; reflexivity]. Qed.

Lemma substring_all s : substring 0 (String.length s) s = s.
Proof. induction s as [|c s IH]; simpl; [reflexivity | rewrite IH; reflexivity]. Qed.

Lemma substring_past s : forall a b,
  (String.length s <= a)%nat -> substring a b s = EmptyString.
Proof.
  induction s as [|c s IH]; intros [|a] b H; simpl in *;
    try reflexivity; try lia.
  - destruct b; reflexivity.
  - apply IH. lia.
Qed.

Lemma substring_whole s : forall b,
  (String.length s <= b)%nat -> substring 0 b s = s.
Proof.
  induction s as [|c s IH]; intros [|b] H; simpl in *;
    try reflexivity; try lia.
  rewrite IH by lia. reflexivity.
Qed.

Lemma substring_length s : forall a b,
  String.length (substring a b s) = Nat.min b (String.length s - a).
Proof.
  induction s as [|c s IH]; intros a b.
  - destruct a, b; reflexivity.
  - destruct a as [|a].
    + destruct b as [|b]; [reflexivity|].
      simpl. rewrite IH, Nat.sub_0_r. reflexivity.
    + simpl. apply IH.
Qed.

Lemma substring_first s : forall c d,
  substring 0 (c + d) s = (substring 0 c s ++ substring c d s)%string.
Proof.
  induction s as [|x s IH]; intros c d.
  - destruct c, d; reflexivity.
  - destruct c as [|c].
    + destruct d; reflexivity.
    + simpl. rewrite IH. reflexivity.
Qed.

Lemma substring_split s : forall a c d,
  substring a (c + d) s = (substring a c s ++ substring (a + c) d s)%string.
Proof.
  induction s as [|x s IH]; intros a c d.
  - destruct a, c, d; reflexivity.
  - destruct a as [|a].
    + apply substring_first.
    + simpl. apply IH.
Qed.

Lemma slice_head s :
  slice s 0 (Some 6) = substring 0 (Nat.min 6 (String.length s)) s.
Proof.
  unfold slice. cbv zeta.
  replace (0 <? 0) with false by reflexivity.
  replace (6 <? 0) with false by reflexivity.
  f_equal; lia.
Qed.

Lemma slice_tail s :
  slice s (-4) None =
  substring (String.length s - 4) (Nat.min 4 (String.length s)) s.
Proof.
  unfold slice. cbv zeta.
  replace (-4 <? 0) with true by reflexivity.
  f_equal; lia.
Qed.

(** X13.  The wallet line shows the first six and the last four
    characters of the address around three dots: at most 13 characters;
    for an address of at least ten characters exactly the characters in
    between are hidden; an address of at most four characters is shown
    whole on both sides of the dots; and an undefined address shows the
    dots alone. *)
Theorem short_address_shape s :
  String.length (shortAddress (Some s))
  = (Nat.min 6 (String.length s) + 3 + Nat.min 4 (String.length s))%nat
  /\ ((10 <= String.length s)%nat ->
      exists hidden,
        s = (slice s 0 (Some 6) ++ hidden ++ slice s (-4) None)%string
        /\ String.length hidden = (String.length s - 10)%nat)
  /\ ((String.length s <= 4)%nat -> shortAddress (Some s) = (s ++ "..." ++ s)%string)
  /\ shortAddress None = "...".
Proof.
  unfold shortAddress. rewrite slice_head, slice_tail.
  split; [|split; [|split; [|reflexivity]]].
  - rewrite !string_length_append, !substring_length. simpl String.length. lia.
  - intros Hn. exists (substring 6 (String.length s - 10) s).
    split; [|rewrite substring_length; lia].
    replace (Nat.min 6 (String.length s)) with 6%nat by lia.
    replace (Nat.min 4 (String.length s)) with 4%nat by lia.
    replace (String.length s - 4)%nat with (6 + (String.length s - 10))%nat
      by lia.
    rewrite <- substring_split.
    replace (String.length s - 10 + 4)%nat with (String.length s - 6)%nat
      by lia.
    change 6%nat with (0 + 6)%nat at 2.
    rewrite <- substring_split.
    replace (6 + (String.length s - 6))%nat with (String.length s) by lia.
    symmetry. apply substring_all.
  - intros Hn.
    replace (String.length s - 4)%nat with 0%nat by lia.
    rewrite !substring_whole by lia. reflexivity.
Qed.

(** ** An approval from the wallet's answer to the deposit *)

(** X15.  The deposit that follows an approval uses the amount of the
    render in which the wallet accepted the approval.  With a public
    client and a typed amount [parseUnits] accepts: after the wallet's
    hash, whatever parseable amount is typed while the receipt is awaited,
    the receipt and the pause end with the allowance refetch and the
    deposit of the earlier amount, the loading flag set again, the progress
    at 25 and the deposit pending; the input shows the later amount. *)
Theorem chained_deposit_uses_earlier_amount m h a v a' o m' :
  mounted m = true ->
  publicClient (view m) = true ->
  mutation_of approve_hook (view m) = pending ->
  truthy_string h = true ->
  truthy_string (amount (view m)) = true ->
  parseUnits (amount (view m)) 18 = Some a ->
  parseUnits v 18 = Some a' ->
  m' = run m [submitted approve_hook (Some h); onChange v;
              settled (List.length (tasks m)) Fulfilled;
              settled (List.length (tasks m)) o] ->
  mounted m' = true
  /\ amount (view m') = v
  /\ depositM (view m') = pending
  /\ isLoading (view m') = true
  /\ progress (view m') = 25
  /\ tasks m' = tasks m
  /\ exists mid,
       history m' = history m ++ waiting h ++ Did (setAmount v) :: mid
                      ++ confirmed h ++ Settle (timer 500) o :: cleared
                      ++ Did refetchAllowance :: depositing a
       /\ (mid = [] \/ exists b, mid = [Did (setIsApproved b)]).
Proof.
  intros Hm Hc Hp Ht Hty Hpa Hpv Em'.
  destruct (approve_accepted m h a Hm Hc Hp Ht Hty Hpa)
    as [k [k' [E1 [_ [Ef Es]]]]].
  set (hooked := hooks (view m) (submitted approve_hook (Some h))) in *.
  set (n := List.length (tasks m)) in *.
  set (m1 := mkMachine (after (waiting h) hooked) true
               (tasks m ++ [mkTask (receipt h) k]) (history m ++ waiting h))
    in *.
  destruct (typing_step m1 v a' eq_refl Hpv) as [mid [E2 Hmid]].
  cbn [view tasks history m1] in E2.
  set (m2 := mkMachine
               (after mid (write (after (waiting h) hooked) (setAmount v)))
               true (tasks m ++ [mkTask (receipt h) k])
               ((history m ++ waiting h) ++ Did (setAmount v) :: mid)) in *.
  destruct (last_task (tasks m) (mkTask (receipt h) k)) as [N1 R1].
  destruct (last_task (tasks m) (mkTask (timer 500) k')) as [N2 R2].
  fold n in N1, R1, N2, R2.
  assert (E3 : step m2 (settled n Fulfilled) =
               mkMachine (after [Did (setProgress 100); Did (setTimeout 500)]
                            (view m2))
                 true (tasks m ++ [mkTask (timer 500) k'])
                 (history m2 ++ [Settle (receipt h) Fulfilled]
                    ++ [Did (setProgress 100); Did (setTimeout 500)])).
  { cbv beta iota delta [step]. cbn [tasks m2]. rewrite N1, R1.
    cbn [resume awaited].
    rewrite plain_turn;
      [unfold trace, outcome; rewrite Ef; reflexivity | reflexivity |].
    unfold trace. rewrite Ef. cbn [fst].
    apply neutral_same_deps. repeat constructor. }
  set (m3 := mkMachine (after [Did (setProgress 100); Did (setTimeout 500)]
                          (view m2))
               true (tasks m ++ [mkTask (timer 500) k'])
               (history m2 ++ [Settle (receipt h) Fulfilled]
                  ++ [Did (setProgress 100); Did (setTimeout 500)])) in *.
  set (closing := cleared ++ Did refetchAllowance :: depositing a) in *.
  set (s4 := after closing (view m3)).
  destruct (chained_fields a (view m3))
    as [F1 [F2 [F3 [F4 [F5 [F6 [F7 [F8 [F9 F10]]]]]]]]].
  fold closing in F1, F2, F3, F4, F5, F6, F7, F8, F9, F10.
  fold s4 in F1, F2, F3, F4, F5, F6, F7, F8, F9, F10.
  assert (Hd : depositEffect s4 = Ret tt).
  { destruct (depositEffect_guard s4) as [[h' [Hx _]] | [E _]];
      [rewrite F8 in Hx; discriminate | exact E]. }
  assert (E4 : step m3 (settled n o) =
               mkMachine s4 true (tasks m)
                 (history m3 ++ [Settle (timer 500) o] ++ closing)).
  { cbv beta iota delta [step]. cbn [tasks m3]. rewrite N2, R2.
    cbn [resume awaited]. rewrite turn_mounted by reflexivity. cbv zeta.
    assert (Etr : trace [] (k' o) = closing)
      by (unfold trace; rewrite Es; reflexivity).
    assert (Eout : outcome [] (k' o) = Returned)
      by (unfold outcome; rewrite Es; reflexivity).
    rewrite !Etr, Eout. cbn [task_of]. fold s4.
    rewrite commit_trace, commit_tasks, due_crash.
    unfold connect_due, balance_due, isApproved_due, mutation_due.
    change (mutation_of approve_hook s4) with (approveM s4).
    change (mutation_of withdraw_hook s4) with (withdrawM s4).
    change (mutation_of deposit_hook s4) with (depositM s4).
    rewrite F1, F2, F3, F4, F5, F6, F7, Hd.
    change (mutation_of approve_hook (view m3)) with (approveM (view m3)).
    change (mutation_of withdraw_hook (view m3)) with (withdrawM (view m3)).
    change (mutation_of deposit_hook (view m3)) with (depositM (view m3)).
    rewrite !same_mutation_refl, same_string_refl, !same_bigint_refl,
      String.eqb_refl, Bool.eqb_reflx.
    cbn [negb andb app trace outcome exec fst snd task_of].
    destruct (negb (same_mutation (depositM (view m3)) (depositM s4)));
      rewrite !app_nil_r; reflexivity. }
  subst m'. cbn [run fold_left]. rewrite E1. fold hooked. fold m1.
  rewrite E2. fold m2. rewrite E3. fold m3. rewrite E4.
  cbn [mounted view tasks history].
  split; [reflexivity|].
  split.
  { rewrite F5. unfold m3, m2. cbn [view].
    destruct Hmid as [-> | [b ->]]; reflexivity. }
  split; [exact F8|]. split; [exact F9|]. split; [exact F10|].
  split; [reflexivity|].
  exists mid. split; [|exact Hmid].
  unfold m3, m2. cbn [history]. unfold confirmed, closing.
  rewrite <- ?app_assoc. cbn [app]. rewrite <- ?app_assoc. reflexivity.
Qed.

(** ** The approval flag *)

(** X16.  In every state the component reaches while it is mounted, once
    the allowance read has delivered a value the approval flag is the
    comparison the effect of lines 62-69 makes: with an amount typed, the
    amount parses and the flag says whether the allowance covers it; with
    no amount typed, the flag says whether the allowance is positive. *)
Theorem isApproved_follows_allowance client inputs al :
  mounted (run (mount client) inputs) = true ->
  allowance (view (run (mount client) inputs)) = Some al ->
  (truthy_string (amount (view (run (mount client) inputs))) = true ->
   exists a,
     parseUnits (amount (view (run (mount client) inputs))) 18 = Some a
     /\ isApproved (view (run (mount client) inputs)) = (a <=? al))
  /\ (truthy_string (amount (view (run (mount client) inputs))) = false ->
      isApproved (view (run (mount client) inputs)) = (0 <? al)).
Proof.
  intros Hm Hal.
  assert (Hs : in_sync (view (run (mount client) inputs))).
  { apply run_in_sync; auto using mount_well_formed.
    intros _. apply mount_in_sync. }
  unfold in_sync in Hs. rewrite Hal in Hs.
  split; intros Ht; rewrite Ht in Hs; exact Hs.
Qed.

End Component.

(** ** Closed instances *)



Lemma deposit_follows_approval_witness :
  exec [] (depositButton (typed "100" false idle)) = (approving, Returned).
Proof.
  exact (proj1 (deposit_follows_approval (typed "100" false idle)
                  100000000000000000000 eq_refl eq_refl eq_refl eq_refl)).
Defined.

(** A second click on withdraw while the first withdrawal is pending is
    not rejected with an error: the disabled button runs nothing, its
    handler returns normally, and nothing is added to the history. *)
Lemma duplicate_request_raises_nothing :
  receivable_run formatBalance (mount formatBalance true)
    [connect; onChange "10"; clickWithdraw; clickWithdraw] = true
  /\ withdrawM
       (view (run formatBalance (mount formatBalance true)
                [connect; onChange "10"; clickWithdraw])) = pending
  /\ exec []
       (withdrawButton
          (view (run formatBalance (mount formatBalance true)
                   [connect; onChange "10"; clickWithdraw])))
     = ([], Returned)
  /\ history (run formatBalance (mount formatBalance true)
                [connect; onChange "10"; clickWithdraw; clickWithdraw])
     = history (run formatBalance (mount formatBalance true)
                  [connect; onChange "10"; clickWithdraw]).
Proof. vm_compute. repeat split. Qed.

Lemma duplicate_clicks_are_ignored_witness :
  isLoading
    (view (run formatBalance (mount formatBalance true)
             [connect; onChange "10"; clickWithdraw])) = true
  /\ step formatBalance
       (run formatBalance (mount formatBalance true)
          [connect; onChange "10"; clickWithdraw])
       clickWithdraw
     = run formatBalance (mount formatBalance true)
         [connect; onChange "10"; clickWithdraw].
Proof.
  pose proof (proj1 (duplicate_clicks_are_ignored formatBalance true
                       [connect; onChange "10"; clickWithdraw] _
                       eq_refl eq_refl)
                ltac:(vm_compute; repeat constructor)) as H.
  exact (conj (proj1 H) (proj2 (proj2 (proj2 (proj2 H))))).
Defined.

(** The amount -5 is not refused: the withdrawal of -5 * 10^18 goes to the
    ledger, and so does the deposit once an allowance has been read. *)
Lemma negative_amount_is_submitted :
  exec [] (handleWithdraw (typed "-5" false idle)) =
  (withdrawing (-5000000000000000000), Returned)
  /\ exec [] (handleDeposit (allowing "-5" 0) false) =
     (depositing (-5000000000000000000), Returned).
Proof.
  split.
  - apply handleWithdraw_withdraws; vm_compute; reflexivity.
  - apply handleDeposit_deposits; vm_compute; reflexivity.
Qed.

Lemma invalid_amount_calls_nothing_witness :
  existsb ledger_call (trace [] (handleWithdraw (typed "abc" false idle))) = false
  /\ outcome [] (handleWithdraw (typed "abc" false idle)) = Returned.
Proof.
  pose proof (invalid_amount_calls_nothing (typed "abc" false idle) false []
                (or_intror eq_refl)) as H.
  exact (conj (proj1 (proj2 H)) (proj1 (proj2 (proj2 (proj2 H))))).
Defined.

Lemma approval_continues_with_deposit_witness :
  receivable_run formatBalance (mount formatBalance true)
    [connect; onChange "100"; clickDeposit;
     submitted approve_hook (Some "0xfeed");
     settled 1 Fulfilled; settled 1 Fulfilled] = true
  /\ history
       (run formatBalance
          (run formatBalance (mount formatBalance true)
             [connect; onChange "100"])
          [clickDeposit; submitted approve_hook (Some "0xfeed");
           settled 1 Fulfilled; settled 1 Fulfilled])
     = history (run formatBalance (mount formatBalance true)
                  [connect; onChange "100"])
         ++ approving ++ waiting "0xfeed" ++ confirmed "0xfeed"
         ++ Settle (timer 500) Fulfilled :: cleared
         ++ Did refetchAllowance :: depositing 100000000000000000000
  /\ history
       (run formatBalance
          (run formatBalance (mount formatBalance true)
             [connect; onChange "100"])
          [clickDeposit; submitted approve_hook (Some "0xfeed");
           settled 1 Rejected])
     = history (run formatBalance (mount formatBalance true)
                  [connect; onChange "100"])
         ++ approving ++ waiting "0xfeed" ++ failed "0xfeed".
Proof.
  pose proof (approval_continues_with_deposit formatBalance true
                [connect; onChange "100"] _ 100000000000000000000 "0xfeed"
                eq_refl eq_refl eq_refl eq_refl eq_refl eq_refl eq_refl) as H.
  split; [vm_compute; reflexivity|].
  exact (conj (proj1 (proj1 (proj2 (proj2 H)) Fulfilled))
              (proj1 (proj1 (proj2 (proj2 (proj2 H)))))).
Defined.

Lemma approvals_are_saturating_witness :
  ERC20_ADDRESS = ERC20_ADDRESS
  /\ BANK_CONTRACT_ADDRESS = BANK_CONTRACT_ADDRESS
  /\ maxUint256 = 2 ^ 256 - 1.
Proof.
  apply (approvals_are_saturating formatBalance true
           [connect; onChange "100"; clickDeposit]).
  vm_compute. auto 12.
Defined.

(** A typed amount that [parseUnits] refuses: nothing is submitted. *)
Lemma unparseable_amount_is_not_withdrawn :
  truthy_string (amount (typed "1e5" false idle)) = true
  /\ exec [] (handleWithdraw (typed "1e5" false idle)) =
     ([Did (setIsLoading true); Did (setProgress 25);
       Did (console_error "Error withdrawing:"); Did (setIsLoading false);
       Did (setProgress 0)], Returned).
Proof.
  split; [reflexivity|].
  apply handleWithdraw_unparseable; vm_compute; reflexivity.
Qed.

Lemma withdraw_ignores_balance_witness :
  exec [] (handleWithdraw (hooks (typed "10" false idle) (balanceData (Some 1)))) =
  (withdrawing 10000000000000000000, Returned).
Proof.
  exact (withdraw_ignores_balance (typed "10" false idle)
           10000000000000000000 (Some 1) eq_refl eq_refl eq_refl).
Defined.

(** C8.  An account is connected, the amount 100 is typed, the deposit
    button is clicked and the wallet refuses the approval: the hook ends
    in error, no effect fires, nothing waits for a receipt, and the
    loading flag and the progress stay as the click left them; they still
    do when the balance refetch of the connection has settled, and both
    buttons stay disabled. *)
Lemma refused_submission_stays_loading :
  receivable_run formatBalance (mount formatBalance true)
    [connect; onChange "100"; clickDeposit; submitted approve_hook None;
     settled 0 Fulfilled; clickDeposit; clickWithdraw] = true
  /\ mounted (run formatBalance (mount formatBalance true)
                [connect; onChange "100"; clickDeposit;
                 submitted approve_hook None]) = true
  /\ isConnected
       (view (run formatBalance (mount formatBalance true)
                [connect; onChange "100"; clickDeposit;
                 submitted approve_hook None])) = true
  /\ approveM
       (view (run formatBalance (mount formatBalance true)
                [connect; onChange "100"; clickDeposit;
                 submitted approve_hook None])) = error
  /\ isLoading
       (view (run formatBalance (mount formatBalance true)
                [connect; onChange "100"; clickDeposit;
                 submitted approve_hook None])) = true
  /\ progress
       (view (run formatBalance (mount formatBalance true)
                [connect; onChange "100"; clickDeposit;
                 submitted approve_hook None])) = 10
  /\ map awaited
       (tasks (run formatBalance (mount formatBalance true)
                 [connect; onChange "100"; clickDeposit;
                  submitted approve_hook None])) = [balance_read]
  /\ history (run formatBalance (mount formatBalance true)
                [connect; onChange "100"; clickDeposit;
                 submitted approve_hook None])
     = history (mount formatBalance true)
         ++ Did refetchBalance :: Did (setAmount "100") :: approving
  /\ tasks (run formatBalance (mount formatBalance true)
               [connect; onChange "100"; clickDeposit;
                submitted approve_hook None; settled 0 Fulfilled]) = []
  /\ isLoading
       (view (run formatBalance (mount formatBalance true)
                [connect; onChange "100"; clickDeposit;
                 submitted approve_hook None; settled 0 Fulfilled])) = true
  /\ progress
       (view (run formatBalance (mount formatBalance true)
                [connect; onChange "100"; clickDeposit;
                 submitted approve_hook None; settled 0 Fulfilled])) = 10
  /\ disabled
       (view (run formatBalance (mount formatBalance true)
                [connect; onChange "100"; clickDeposit;
                 submitted approve_hook None; settled 0 Fulfilled])) = true
  /\ run formatBalance (mount formatBalance true)
       [connect; onChange "100"; clickDeposit; submitted approve_hook None;
        settled 0 Fulfilled; clickDeposit; clickWithdraw]
     = run formatBalance (mount formatBalance true)
         [connect; onChange "100"; clickDeposit; submitted approve_hook None;
          settled 0 Fulfilled].
Proof. vm_compute. repeat split. Qed.

(** C5.  Disconnecting overwrites the displayed balance with no read:
    the cached [bankBalance] still holds the value read before. *)
Lemma display_cleared_without_read :
  receivable_run formatBalance (mount formatBalance true)
    [connect; balanceData (Some 7000000000000000000);
     accountChanged false None] = true
  /\ balance
       (view (run formatBalance (mount formatBalance true)
                [connect; balanceData (Some 7000000000000000000)]))
     = "7.000000"
  /\ balance
       (view (run formatBalance (mount formatBalance true)
                [connect; balanceData (Some 7000000000000000000);
                 accountChanged false None]))
     = EmptyString
  /\ bankBalance
       (view (run formatBalance (mount formatBalance true)
                [connect; balanceData (Some 7000000000000000000);
                 accountChanged false None]))
     = Some 7000000000000000000
  /\ history (run formatBalance (mount formatBalance true)
                [connect; balanceData (Some 7000000000000000000);
                 accountChanged false None])
     = history (run formatBalance (mount formatBalance true)
                  [connect; balanceData (Some 7000000000000000000)])
         ++ [Did (setBalance EmptyString)].
Proof. vm_compute. repeat split. Qed.



(** ** Closed instances of the further properties *)

Lemma approval_precedes_deposit_witness :
  exists new,
    history (run formatBalance
               (run formatBalance (mount formatBalance true)
                  [accountChanged true (Some "0xa11ce"); onChange "5"])
               [clickDeposit; submitted approve_hook (Some "0xfeed");
                settled 1 Fulfilled; settled 1 Fulfilled])
    = history (run formatBalance (mount formatBalance true)
                 [accountChanged true (Some "0xa11ce"); onChange "5"])
        ++ approving ++ new
    /\ forall pre post c v,
         new = pre ++ Did (deposit c v) :: post ->
         exists h o,
           In (Settle (receipt h) o) pre
           /\ In (submitted approve_hook (Some h))
                [submitted approve_hook (Some "0xfeed");
                 settled 1 Fulfilled; settled 1 Fulfilled].
Proof.
  apply (approval_precedes_deposit formatBalance true
           [accountChanged true (Some "0xa11ce"); onChange "5"]
           [submitted approve_hook (Some "0xfeed");
            settled 1 Fulfilled; settled 1 Fulfilled]
           (run formatBalance (mount formatBalance true)
              [accountChanged true (Some "0xa11ce"); onChange "5"])
           5000000000000000000);
    try (vm_compute; reflexivity).
  repeat constructor.
Defined.

Lemma refused_submission_is_permanent_witness :
  exists new,
    history (run formatBalance
               (run formatBalance (mount formatBalance true)
                  [accountChanged true (Some "0xa11ce"); onChange "100";
                   clickDeposit])
               [submitted approve_hook None; clickDeposit; clickWithdraw;
                onChange "7"; clickWithdraw])
    = history (run formatBalance (mount formatBalance true)
                 [accountChanged true (Some "0xa11ce"); onChange "100";
                  clickDeposit])
        ++ new
    /\ Forall silent new.
Proof.
  apply (refused_submission_is_permanent formatBalance true
           [accountChanged true (Some "0xa11ce"); onChange "100"; clickDeposit]
           [clickDeposit; clickWithdraw; onChange "7"; clickWithdraw]
           (run formatBalance (mount formatBalance true)
              [accountChanged true (Some "0xa11ce"); onChange "100";
               clickDeposit])
           approve_hook);
    vm_compute; reflexivity.
Defined.

Lemma transfers_go_to_the_bank_witness :
  In (Did (withdraw BANK_CONTRACT_ADDRESS 5000000000000000000))
    (history (run formatBalance (mount formatBalance true)
                [connect; onChange "5"; clickWithdraw]))
  /\ BANK_CONTRACT_ADDRESS = BANK_CONTRACT_ADDRESS.
Proof.
  assert (H : In (Did (withdraw BANK_CONTRACT_ADDRESS 5000000000000000000))
                (history (run formatBalance (mount formatBalance true)
                            [connect; onChange "5"; clickWithdraw]))).
  { vm_compute. auto 12. }
  split; [exact H|].
  exact (transfers_go_to_the_bank formatBalance true
           [connect; onChange "5"; clickWithdraw]
           BANK_CONTRACT_ADDRESS 5000000000000000000 (or_intror H)).
Defined.

Lemma account_change_effect_witness :
  history (step formatBalance (mount formatBalance true)
             (accountChanged true (Some "0xa11ce")))
  = history (mount formatBalance true) ++ [Did refetchBalance].
Proof.
  assert (N : isConnected (view (mount formatBalance true)) <> true
              \/ address (view (mount formatBalance true)) <> Some "0xa11ce").
  { left. vm_compute. discriminate. }
  exact (proj1 (proj1 (proj2 (proj2 (proj2
           (account_change_effect formatBalance (mount formatBalance true) true
              (Some "0xa11ce") eq_refl N)))) eq_refl)).
Defined.

Lemma balance_display_follows_data_witness :
  balance (view (step formatBalance
                   (run formatBalance (mount formatBalance true)
                      [accountChanged true (Some "0xa11ce");
                       balanceData (Some 7000000000000000000)])
                   (balanceData (Some 0))))
  = balance (view (run formatBalance (mount formatBalance true)
                     [accountChanged true (Some "0xa11ce");
                      balanceData (Some 7000000000000000000)])).
Proof.
  exact (proj2 (proj2
           (balance_display_follows_data formatBalance
              (run formatBalance (mount formatBalance true)
                 [accountChanged true (Some "0xa11ce");
                  balanceData (Some 7000000000000000000)])
              (Some 0) eq_refl))).
Defined.

Lemma label_tells_action_witness :
  depositLabel
    (view (run formatBalance (mount formatBalance true)
             [accountChanged true (Some "0xa11ce");
              allowanceData (Some 5000000000000000000); onChange "3"]))
  = "Deposit"
  /\ exec []
       (depositButton
          (view (run formatBalance (mount formatBalance true)
                   [accountChanged true (Some "0xa11ce");
                    allowanceData (Some 5000000000000000000); onChange "3"])))
     = (depositing 3000000000000000000, Returned).
Proof.
  split; [vm_compute; reflexivity|].
  exact (label_tells_action formatBalance true
           [accountChanged true (Some "0xa11ce");
            allowanceData (Some 5000000000000000000); onChange "3"]
           (run formatBalance (mount formatBalance true)
              [accountChanged true (Some "0xa11ce");
               allowanceData (Some 5000000000000000000); onChange "3"])
           3000000000000000000 eq_refl eq_refl eq_refl eq_refl eq_refl).
Defined.

Lemma unparseable_amount_unmounts_witness :
  mounted (step formatBalance
             (run formatBalance (mount formatBalance true)
                [accountChanged true (Some "0xa11ce");
                 allowanceData (Some 5000000000000000000)])
             (onChange "1e5")) = false.
Proof.
  assert (N : amount (view (run formatBalance (mount formatBalance true)
                              [accountChanged true (Some "0xa11ce");
                               allowanceData (Some 5000000000000000000)]))
              <> "1e5").
  { vm_compute. discriminate. }
  exact (proj1 (proj1
           (unparseable_amount_unmounts formatBalance
              (run formatBalance (mount formatBalance true)
                 [accountChanged true (Some "0xa11ce");
                  allowanceData (Some 5000000000000000000)])
              "1e5" 5000000000000000000 eq_refl eq_refl eq_refl)
           eq_refl N)).
Defined.

Lemma transfer_chain_outcomes_witness :
  amount (view (run formatBalance
                  (run formatBalance (mount formatBalance true)
                     [accountChanged true (Some "0xa11ce"); onChange "5";
                      clickWithdraw])
                  [submitted withdraw_hook (Some "0xfeed");
                   settled 1 Fulfilled; settled 1 Fulfilled]))
  = EmptyString
  /\ isLoading (view (run formatBalance
                        (run formatBalance (mount formatBalance true)
                           [accountChanged true (Some "0xa11ce");
                            onChange "5"; clickWithdraw])
                        [submitted withdraw_hook (Some "0xfeed");
                         settled 1 Fulfilled; settled 1 Fulfilled]))
     = false.
Proof.
  pose proof (proj1 (transfer_chain_outcomes formatBalance
                       (run formatBalance (mount formatBalance true)
                          [accountChanged true (Some "0xa11ce");
                           onChange "5"; clickWithdraw])
                       withdraw_hook "0xfeed" (or_intror eq_refl)
                       eq_refl eq_refl eq_refl eq_refl)
                Fulfilled _ eq_refl) as H.
  exact (conj (proj1 (proj2 H)) (proj1 (proj2 (proj2 H)))).
Defined.

Lemma missing_client_skips_the_wait_witness :
  exec [Fulfilled]
    (depositEffect
       {| amount := "5"; balance := EmptyString; isApproved := true;
          isLoading := true; progress := 25; address := Some "0xa11ce";
          isConnected := true; publicClient := false; bankBalance := None;
          allowance := Some 5000000000000000000;
          depositM := success "0xfeed"; withdrawM := idle;
          approveM := idle |})
  = ([Did (setProgress 50); Did (setProgress 100); Did (setTimeout 500);
      Settle (timer 500) Fulfilled] ++ cleared
       ++ [Did refetchBalance; Did (setAmount EmptyString)], Returned).
Proof.
  exact (proj1 (missing_client_skips_the_wait
                  {| amount := "5"; balance := EmptyString; isApproved := true;
                     isLoading := true; progress := 25;
                     address := Some "0xa11ce"; isConnected := true;
                     publicClient := false; bankBalance := None;
                     allowance := Some 5000000000000000000;
                     depositM := success "0xfeed"; withdrawM := idle;
                     approveM := idle |}
                  "0xfeed" Fulfilled eq_refl eq_refl) eq_refl).
Defined.

Lemma chained_deposit_uses_earlier_amount_witness :
  amount
    (view (run formatBalance
             (run formatBalance (mount formatBalance true)
                [accountChanged true (Some "0xa11ce"); onChange "5";
                 clickDeposit])
             [submitted approve_hook (Some "0xfeed"); onChange "9";
              settled 1 Fulfilled; settled 1 Fulfilled]))
  = "9"
  /\ depositM
       (view (run formatBalance
                (run formatBalance (mount formatBalance true)
                   [accountChanged true (Some "0xa11ce"); onChange "5";
                    clickDeposit])
                [submitted approve_hook (Some "0xfeed"); onChange "9";
                 settled 1 Fulfilled; settled 1 Fulfilled]))
     = pending.
Proof.
  pose proof (chained_deposit_uses_earlier_amount formatBalance
                (run formatBalance (mount formatBalance true)
                   [accountChanged true (Some "0xa11ce"); onChange "5";
                    clickDeposit])
                "0xfeed" 5000000000000000000 "9" 9000000000000000000
                Fulfilled _
                eq_refl eq_refl eq_refl eq_refl eq_refl eq_refl eq_refl
                eq_refl) as H.
  exact (conj (proj1 (proj2 H)) (proj1 (proj2 (proj2 H)))).
Defined.

Lemma isApproved_follows_allowance_witness :
  isApproved
    (view (run formatBalance (mount formatBalance true)
             [accountChanged true (Some "0xa11ce");
              allowanceData (Some 5000000000000000000)]))
  = (0 <? 5000000000000000000).
Proof.
  exact (proj2 (isApproved_follows_allowance formatBalance true
                  [accountChanged true (Some "0xa11ce");
                   allowanceData (Some 5000000000000000000)]
                  5000000000000000000 eq_refl eq_refl) eq_refl).
Defined.
